(** * tradingbot: top-movers tracker, verified against its specification

    A shallow embedding of the three Python modules of the repository

    - [fetch_subsequent.py]     (the subsequent-day Tracker),
    - [populate_movers_csv.py]  (the Aggregator / report writer),
    - [yahoo_top_movers.py]     (the Mover Acquisition),

    followed by the theorems that settle the claims C1..C10 of the
    specification.

    Modelling conventions.
    - JSON documents (the two persisted stores) are values of [json]; a JSON
      object is a [gmap string json], as [json.load] builds a [dict] whose
      keys are strings and both stores are dumped with [sort_keys=True].
    - Python [float] is IEEE binary64, modelled by Rocq's primitive floats;
      [round(x, n)] and the [.2f] format are computed from the exact binary
      value, as CPython does (correctly rounded, ties to even).
    - A Python exception that leaves a function is the [Raise] result of the
      error monad [exc]; a handler in the source is a [match] on it.
    - Everything outside the repository (clock, market calendar, network,
      yfinance, the [datetime] parsers, [str()] of a non-string, [float()]
      of a string, [re.search]) is a field of an environment record.
    - A Python [str] is held in its UTF-8 encoding; [len], indexing and
      iteration go by code points. [str.split], [str.strip] and
      [str.upper] are computed on texts that are ASCII throughout, and are
      builtins taken as given on every other text. *)

From Stdlib Require Import ZArith String Ascii List Lia.
From Stdlib Require Import Floats.PrimFloat Floats.SpecFloat Floats.FloatOps.
From Stdlib Require Uint63.
From stdpp Require Import gmap strings list fin_maps pretty sorting.

Set Warnings "-register-all,-inexact-float".

(* ===================================================================== *)
(** * Python values and exceptions                                        *)
(* ===================================================================== *)

Module Py.

(** The exception classes that can leave the modelled functions. *)
Inductive pyexc :=
| AttributeError | IndexError | KeyError | TypeError | OverflowError | OSError.

Inductive exc (A : Type) : Type :=
| Ok (a : A)
| Raise (e : pyexc).
Arguments Ok {A} a.
Arguments Raise {A} e.

#[global] Instance exc_bind : MBind exc :=
  λ A B f m, match m with Ok a => f a | Raise e => Raise e end.

(** A [for] loop whose body may raise: the first exception ends the loop. *)
Fixpoint foldM {A S : Type} (f : S → A → exc S) (xs : list A) (s : S) : exc S :=
  match xs with
  | [] => Ok s
  | x :: xs' => s' ← f s x; foldM f xs' s'
  end.

(** What [json.load] returns. *)
Inductive json :=
| JNull
| JBool (b : bool)
| JInt (z : Z)
| JFloat (f : float)
| JStr (s : string)
| JList (l : list json)
| JDict (d : gmap string json).

(** Builtins of Python that are taken as given. *)
Record Builtins := {
  (** [str(v)] for a value [v] that is not a string *)
  str_of_value : json → string;
  (** [float(s)] of a string; [None] when it raises [ValueError] *)
  float_of_str : string → option float;
  (** [s.split()[0]], [s.strip()] and [s.upper()] of a text [s] that has a
      character beyond ASCII; [None] is the [IndexError] of an empty split *)
  str_split_first : string → option string;
  str_strip : string → string;
  str_upper : string → string;
}.

(** ** Floats *)

(** Exact conversion of an integer [0 <= k < 2^53]. *)
Definition float_of_small (k : Z) : float := of_uint63 (Uint63.of_Z k).

(** [float(z)] of a Python [int]: round to nearest even, [OverflowError]
    when the result is not finite. *)
Definition float_of_int (z : Z) : exc float :=
  match binary_normalize prec emax z 0 false with
  | S754_infinity _ | S754_nan => Raise OverflowError
  | sf => Ok (SF2Prim sf)
  end.

(** Nearest integer to [num/den], ties to even ([0 <= num], [0 < den]). *)
Definition round_half_even (num den : Z) : Z :=
  let q := (num / den)%Z in
  let r := (num mod den)%Z in
  match (2 * r ?= den)%Z with
  | Lt => q
  | Gt => (q + 1)%Z
  | Eq => if Z.even q then q else (q + 1)%Z
  end.

(** Nearest integer to [m * 2^e * p], ties to even. *)
Definition scaled (m : positive) (e p : Z) : Z :=
  if (0 <=? e)%Z then (Z.pos m * 2 ^ e * p)%Z
  else round_half_even (Z.pos m * p) (2 ^ (- e)).

(** [round(x, ndigits)] for a float [x] and a small [ndigits >= 0]: the
    double nearest to the decimal that is nearest to the exact value of [x].
    When [|x| * 10^ndigits >= 2^53] the spacing of doubles around [x]
    exceeds [10^-ndigits], and the result is [x] itself. *)
Definition py_round (ndigits : nat) (x : float) : float :=
  match Prim2SF x with
  | S754_finite s m e =>
      let p := (10 ^ Z.of_nat ndigits)%Z in
      let k := scaled m e p in
      if (2 ^ 53 <=? k)%Z then x
      else
        let r := (float_of_small k / float_of_small p)%float in
        if s then (- r)%float else r
  | _ => x
  end.

Definition two_digits (n : Z) : string :=
  if (n <? 10)%Z then "0" +:+ pretty (Z.to_N n) else pretty (Z.to_N n).

(** [format(x, ".2f")] and, with [plus], [format(x, "+.2f")]. *)
Definition fmt_2f (plus : bool) (x : float) : string :=
  let sign (s : bool) : string := if s then "-" else if plus then "+" else EmptyString in
  match Prim2SF x with
  | S754_nan => sign false +:+ "nan"
  | S754_infinity s => sign s +:+ "inf"
  | S754_zero s => sign s +:+ "0.00"
  | S754_finite s m e =>
      let k := scaled m e 100 in
      sign s +:+ pretty (Z.to_N (k / 100)) +:+ "." +:+ two_digits (k mod 100)
  end.

(** [x != 0] on floats: true for NaN, false for both zeros. *)
Definition float_ne0 (x : float) : bool := negb (PrimFloat.eqb x 0%float).

(** ** Strings *)

(** The text has no character beyond ASCII: every byte is below 128. *)
Definition ascii_only (s : string) : bool :=
  forallb (λ c, nat_of_ascii c <? 128) (list_ascii_of_string s).

(** The functions from here to [upper] are those of Python on texts that
    are ASCII throughout; the embedded code reaches them through
    [py_split_first], [py_strip] and [py_upper] below, which hand every
    other text to the builtins. *)

(** [str.isspace] among the ASCII characters: 9-13 and 28-32. *)
Definition is_space (c : ascii) : bool :=
  let n := nat_of_ascii c in
  ((9 <=? n) && (n <=? 13)) || ((28 <=? n) && (n <=? 32)).

Fixpoint lstrip (s : string) : string :=
  match s with
  | EmptyString => EmptyString
  | String c s' => if is_space c then lstrip s' else s
  end.

Definition str_rev (s : string) : string :=
  string_of_list_ascii (rev (list_ascii_of_string s)).

(** [s.strip()] of an ASCII text *)
Definition strip (s : string) : string := str_rev (lstrip (str_rev (lstrip s))).

Fixpoint take_token (s : string) : string :=
  match s with
  | EmptyString => EmptyString
  | String c s' => if is_space c then EmptyString else String c (take_token s')
  end.

(** [s.split()[0]] of an ASCII text: [None] stands for the [IndexError] of
    an empty split. *)
Definition first_token (s : string) : option string :=
  match lstrip s with
  | EmptyString => None
  | t => Some (take_token t)
  end.

(** [str.upper] on an ASCII character: the letters a-z only. *)
Definition upper_char (c : ascii) : ascii :=
  let n := nat_of_ascii c in
  if (97 <=? n) && (n <=? 122) then ascii_of_nat (n - 32) else c.

(** [s.upper()] of an ASCII text *)
Fixpoint upper (s : string) : string :=
  match s with
  | EmptyString => EmptyString
  | String c s' => String (upper_char c) (upper s')
  end.

(** [s.split()[0]], [s.strip()] and [s.upper()] of any text. *)
Definition py_split_first (B : Builtins) (s : string) : option string :=
  if ascii_only s then first_token s else str_split_first B s.

Definition py_strip (B : Builtins) (s : string) : string :=
  if ascii_only s then strip s else str_strip B s.

Definition py_upper (B : Builtins) (s : string) : string :=
  if ascii_only s then upper s else str_upper B s.

(** The code points of a text, each in its encoding: a byte 10xxxxxx
    continues the code point of the byte before it. *)
Definition is_continuation (c : ascii) : bool :=
  let n := nat_of_ascii c in (128 <=? n) && (n <? 192).

Fixpoint split_chars (s : string) : string * list string :=
  match s with
  | EmptyString => (EmptyString, [])
  | String c r =>
      let '(continuation, rest) := split_chars r in
      if is_continuation c then (String c continuation, rest)
      else (EmptyString, String c continuation :: rest)
  end.

Definition chars (s : string) : list string := (split_chars s).2.

(** [needle in s] for two strings. *)
Fixpoint substringb (needle s : string) : bool :=
  String.prefix needle s ||
  match s with
  | EmptyString => false
  | String _ s' => substringb needle s'
  end.

(** [s.replace(pat, rep)] for a non-empty [pat]. *)
Fixpoint replace_fuel (n : nat) (pat rep s : string) : string :=
  match n with
  | O => s
  | S n' =>
      if String.prefix pat s
      then rep +:+ replace_fuel n' pat rep (String.substring (String.length pat) (String.length s - String.length pat) s)
      else match s with
           | EmptyString => EmptyString
           | String c s' => String c (replace_fuel n' pat rep s')
           end
  end.

Definition replace (pat rep s : string) : string :=
  replace_fuel (S (String.length s)) pat rep s.

(** ** Python operations on JSON values *)

(** [bool(v)] *)
Definition truthy (v : json) : bool :=
  match v with
  | JNull => false
  | JBool b => b
  | JInt z => negb (z =? 0)%Z
  | JFloat f => float_ne0 f
  | JStr s => negb (String.eqb s EmptyString)
  | JList l => match l with [] => false | _ => true end
  | JDict d => negb (bool_decide (size d = 0))
  end.

(** [str(v)] *)
Definition py_str (B : Builtins) (v : json) : string :=
  match v with
  | JStr s => s
  | _ => str_of_value B v
  end.

(** [len(v)] *)
Definition py_len (v : json) : exc nat :=
  match v with
  | JList l => Ok (length l)
  | JStr s => Ok (length (chars s))
  | JDict d => Ok (size d)
  | _ => Raise TypeError
  end.

(** [v.get(k, dflt)] *)
Definition py_get (v : json) (k : string) (dflt : json) : exc json :=
  match v with
  | JDict d => Ok (default dflt (d !! k))
  | _ => Raise AttributeError
  end.

(** [x or y] *)
Definition py_or (x y : json) : json := if truthy x then x else y.

(** The elements a [for] loop draws from [v]. *)
Definition py_iter (v : json) : exc (list json) :=
  match v with
  | JList l => Ok l
  | JStr s => Ok (JStr <$> chars s)
  | JDict d => Ok (JStr <$> (map_to_list d).*1)
  | _ => Raise TypeError
  end.

Definition is_list (v : json) : bool :=
  match v with JList _ => true | _ => false end.

(** [sorted(keys)] on strings. *)
Definition str_le (a b : string) : Prop := Is_true (String.leb a b).
#[global] Instance str_le_dec a b : Decision (str_le a b) := Is_true_dec _.
Definition sorted (l : list string) : list string := merge_sort str_le l.

(** [sorted(k for k in d.keys() if k)] *)
Definition sorted_keys (d : gmap string json) : list string :=
  sorted (filter (λ k, k ≠ EmptyString) (map_to_list d).*1).

End Py.
Import Py.

(* ===================================================================== *)
(** * fetch_subsequent.py: the subsequent-day Tracker                     *)
(* ===================================================================== *)

Module fetch_subsequent.

(** how many subsequent days to keep *)
Definition MAX_DAYS_DEFAULT : Z := 11.
(** cutoff time ET for considering a trading day complete *)
Definition CUTOFF_HOUR_ET : Z := 20.

(** [date.max.toordinal()]: adding a day to it raises [OverflowError]. *)
Definition DATE_MAX : Z := 3652059.

(** One row of the frame that [yf.Ticker(t).history(...)] returns, as the
    loop over [hist.iterrows()] reads it: the New York date of the index
    ([row_date]) and [float(row.get(...))] of both prices, [None] when the
    frame has no such value. *)
Record hrow := { row_date : Z; row_open : option float; row_close : option float }.

(** What the Tracker takes from outside. Dates are proleptic Gregorian
    ordinals ([date.toordinal()]); the clock is the New York wall clock. *)
Record Env := {
  builtins : Builtins;
  (** [import yfinance] succeeds *)
  yfinance_available : bool;
  (** [_now_et()]: its date and the seconds since midnight *)
  now_date : Z;
  now_seconds : Z;
  (** [datetime.fromisoformat(s).date()], [None] when it raises *)
  fromisoformat : string → option Z;
  (** [datetime.strptime(s, "%Y-%m-%d").date()], [None] when it raises *)
  strptime_ymd : string → option Z;
  (** [d.isoformat()] *)
  isoformat : Z → string;
  (** [yf.Ticker(ticker).history(start=.., end=.., interval="1d")] read row
      by row; [None] when the call or the iteration raises (both handlers
      of the source [continue]) *)
  history : string → string → string → option (list hrow);
  (** [_save_json_atomic] succeeds *)
  save_ok : bool;
}.

Definition _clean_sym (B : Builtins) (s : json) : exc string :=
  if negb (truthy s) then Ok EmptyString
  else match py_split_first B (py_str B s) with
       | None => Raise IndexError
       | Some t => Ok (py_strip B (py_upper B t))
       end.

(** [d + timedelta(days=1)] *)
Definition next_day (d : Z) : exc Z :=
  if (d <? DATE_MAX)%Z then Ok (d + 1)%Z else Raise OverflowError.

(** Lines 103-111: [fromisoformat], then [strptime], else give up. *)
Definition parse_event_date (E : Env) (event_date : string) : option Z :=
  match fromisoformat E event_date with
  | Some d => Some d
  | None => strptime_ymd E event_date
  end.

(** Lines 161-168: [strptime], then [fromisoformat], else give up. *)
Definition parse_candidate_date (E : Env) (s : string) : option Z :=
  match strptime_ymd E s with
  | Some d => Some d
  | None => fromisoformat E s
  end.

(** Lines 126-148: the rows strictly after the event date. *)
Definition candidate_rows (event_d : Z) (hist : list hrow) : list hrow :=
  filter (λ r, (event_d < row_date r)%Z) hist.

(** Line 186: [now_et < cutoff], the cutoff being 20:00 of the candidate
    day on the same wall clock. *)
Definition before_cutoff (E : Env) (cand_d : Z) : bool :=
  (now_date E <? cand_d)%Z
  || ((now_date E =? cand_d)%Z && (now_seconds E <? CUTOFF_HOUR_ET * 3600)%Z).

(** Line 198. *)
Definition pct_long_of (open_v close_v : float) : option float :=
  if float_ne0 open_v
  then Some (py_round 2 ((close_v - open_v) / open_v * 100)%float)
  else None.

(** Lines 202-204. *)
Definition day_obj (date : string) (open_v close_v : float) : gmap string json :=
  let o : gmap string json :=
    <["date" := JStr date]>
      (<["open" := JFloat (py_round 2 open_v)]>
         (<["close" := JFloat (py_round 2 close_v)]> ∅)) in
  match pct_long_of open_v close_v with
  | Some p => <["pct_long" := JFloat p]> o
  | None => o
  end.

(** Lines 207-209, on a cache that is a [dict]. *)
Definition append_day (d : gmap string json) (key : string) (obs : gmap string json)
  : gmap string json :=
  let old := match d !! key with Some (JList l) => l | _ => [] end in
  <[key := JList (old ++ [JDict obs])]> d.

(** Lines 207-209 on any loaded cache: only a [dict] takes the item
    assignment; a list or string fails in [cache.get] or in the assignment,
    the other values in the [in] test. *)
Definition cache_append (cache : json) (key : string) (obs : gmap string json) : exc json :=
  match cache with
  | JDict d => Ok (JDict (append_day d key obs))
  | JList l =>
      if existsb (λ v, match v with JStr s => String.eqb s key | _ => false end) l
      then Raise AttributeError else Raise TypeError
  | JStr s => if substringb key s then Raise AttributeError else Raise TypeError
  | _ => Raise TypeError
  end.

(** Line 97: [cache.get(key, []) if isinstance(cache, dict) else []]. *)
Definition cached_days (cache : json) (key : string) : json :=
  match cache with
  | JDict d => default (JList []) (d !! key)
  | _ => JList []
  end.

(** The body of the innermost loop (lines 93-211) for one mover [it] of
    the record of [event_date]. The result is the cache and whether a day
    was appended; every [continue] of the source returns the cache as it
    is. *)
Definition process_item (E : Env) (max_days : Z) (event_date : string)
    (cache : json) (it : json) : exc (json * bool) :=
  let skip : exc (json * bool) := Ok (cache, false) in
  sym ← py_get it "symbol" (JStr EmptyString);
  ticker ← _clean_sym (builtins E) sym;
  if String.eqb ticker EmptyString then skip else
  let key := ticker +:+ "|" +:+ event_date in
  let days_list := cached_days cache key in
  n ← py_len days_list;
  if (max_days <=? Z.of_nat n)%Z then skip else
  match parse_event_date E event_date with
  | None => skip
  | Some event_d =>
      start_dt ← next_day event_d;
      end_dt ← next_day (now_date E);
      match history E ticker (isoformat E start_dt) (isoformat E end_dt) with
      | None => skip
      | Some hist =>
          match candidate_rows event_d hist !! n with
          | None => skip
          | Some candidate =>
              let cdate := isoformat E (row_date candidate) in
              match parse_candidate_date E cdate with
              | None => skip
              | Some cand_d =>
                  if before_cutoff E cand_d then skip else
                  match row_open candidate, row_close candidate with
                  | Some open_v, Some close_v =>
                      cache' ← cache_append cache key (day_obj cdate open_v close_v);
                      Ok (cache', true)
                  | _, _ => skip
                  end
              end
          end
      end
  end.

(** The loop state: the cache in memory and the counter [appended]. *)
Definition step (E : Env) (max_days : Z) (event_date : string)
    (st : json * nat) (it : json) : exc (json * nat) :=
  '(cache', b) ← process_item E max_days event_date st.1 it;
  Ok (cache', if b : bool then S st.2 else st.2).

(** Lines 91-92: [for it in entry.get(mover_type, []) or []]. *)
Definition movers_of (entry : json) (mover_type : string) : exc (list json) :=
  v ← py_get entry mover_type (JList []);
  py_iter (py_or v (JList [])).

Definition for_mover_type (E : Env) (max_days : Z) (event_date : string) (entry : json)
    (st : json * nat) (mover_type : string) : exc (json * nat) :=
  items ← movers_of entry mover_type;
  foldM (step E max_days event_date) items st.

Definition for_event_date (E : Env) (max_days : Z) (movers : gmap string json)
    (st : json * nat) (event_date : string) : exc (json * nat) :=
  let entry := default (JDict ∅) (movers !! event_date) in
  foldM (for_mover_type E max_days event_date entry) ["gainers"; "losers"] st.

(** Lines 85-211: the loops, on the loaded stores. *)
Definition scan (E : Env) (movers cache : json) (max_days : Z) : exc (json * nat) :=
  match movers with
  | JDict m => foldM (for_event_date E max_days m) (sorted_keys m) (cache, 0)
  | _ => Raise AttributeError
  end.

(** [fetch_one_round] on the loaded stores: the content of the cache
    file when it returns, and the returned count. The file is rewritten
    only when a day was appended and the write succeeds. *)
Definition fetch_one_round (E : Env) (movers cache : json) (max_days : Z)
  : exc (json * nat) :=
  if negb (yfinance_available E) then Ok (cache, 0)
  else
    '(cache', appended) ← scan E movers cache max_days;
    Ok (if (0 <? appended) && save_ok E then cache' else cache, appended).

(** The cache file after the call, whether it returned or raised: an
    exception leaves the file as it was. *)
Definition cache_file_after (E : Env) (movers cache : json) (max_days : Z) : json :=
  match fetch_one_round E movers cache max_days with
  | Ok (cache', _) => cache'
  | Raise _ => cache
  end.

End fetch_subsequent.

(* ===================================================================== *)
(** * populate_movers_csv.py: the Aggregator                              *)
(* ===================================================================== *)

Module populate_movers_csv.

(** [f"Day {i+1} %"], [f"Day {i+1} Open"], [f"Day {i+1} Close"] *)
Definition col_pct (i : nat) : string := "Day " +:+ pretty (S i) +:+ " %".
Definition col_open (i : nat) : string := "Day " +:+ pretty (S i) +:+ " Open".
Definition col_close (i : nat) : string := "Day " +:+ pretty (S i) +:+ " Close".

Definition HEADER : list string :=
  ["ticker"; "event_date"; "mover_type"; "direction"; "Points Change";
   "Event Day %Change";
   "Day 1 %"; "Day 1 Open"; "Day 1 Close";
   "Day 2 %"; "Day 2 Open"; "Day 2 Close";
   "Day 3 %"; "Day 3 Open"; "Day 3 Close";
   "Day 4 %"; "Day 4 Open"; "Day 4 Close";
   "Day 5 %"; "Day 5 Open"; "Day 5 Close";
   "Day 6 %"; "Day 6 Open"; "Day 6 Close";
   "Day 7 %"; "Day 7 Open"; "Day 7 Close";
   "Day 8 %"; "Day 8 Open"; "Day 8 Close";
   "Day 9 %"; "Day 9 Open"; "Day 9 Close";
   "Day 10 %"; "Day 10 Open"; "Day 10 Close";
   "Day 11 %"; "Day 11 Open"; "Day 11 Close"].

(** [{h: i for i, h in enumerate(HEADER)}] *)
Definition HEADER_INDEX : gmap string nat :=
  foldl (λ m ih, <[ih.2 := ih.1]> m) ∅ (zip (seq 0 (length HEADER)) HEADER).

(** The minus sign U+2212 in UTF-8. *)
Definition MINUS_SIGN : string :=
  String (ascii_of_nat 226) (String (ascii_of_nat 136) (String (ascii_of_nat 146) EmptyString)).

Definition _parse_pct (B : Builtins) (v : json) : option float :=
  match v with
  | JNull => None
  | _ =>
      let s := py_strip B (py_str B v) in
      if String.eqb s EmptyString then None
      else float_of_str B (replace "," EmptyString (replace MINUS_SIGN "-" (replace "%" EmptyString s)))
  end.

Definition _fmt_pct (v : option float) : string :=
  match v with None => EmptyString | Some f => fmt_2f true f +:+ "%" end.

Definition _fmt_points (v : option float) : string :=
  match v with None => EmptyString | Some f => fmt_2f true f end.

Definition _fmt_price (v : option float) : string :=
  match v with None => EmptyString | Some f => fmt_2f false f end.

Definition _clean_sym (B : Builtins) (s : json) : exc string :=
  if negb (truthy s) then Ok EmptyString
  else match py_split_first B (py_str B s) with
       | None => Raise IndexError
       | Some t => Ok (py_strip B (py_upper B t))
       end.

(** [bool] is a subclass of [int]; [float(v)] of an [int] is outside the
    [try] and can overflow. *)
Definition _ensure_number (B : Builtins) (v : json) : exc (option float) :=
  match v with
  | JNull => Ok None
  | JBool b => Ok (Some (if b then 1%float else 0%float))
  | JInt z => f ← float_of_int z; Ok (Some f)
  | JFloat f => Ok (Some f)
  | _ => Ok (float_of_str B (replace "," EmptyString (py_str B v)))
  end.

(** ** Summary rows *)

(** [float(n)] of a length. *)
Definition float_of_nat (n : nat) : float :=
  SF2Prim (binary_normalize prec emax (Z.of_nat n) 0 false).

(** Lines 155-157: [prod = 1.0; for r in R: prod *= (1.0 + r / 100.0)]. *)
Fixpoint compound_loop (prod : float) (R : list float) : float :=
  match R with
  | [] => prod
  | r :: R' => compound_loop (prod * (1 + r / 100))%float R'
  end.

(** [sum(1 for r in R if r > 0)] *)
Fixpoint count_wins (R : list float) : nat :=
  match R with
  | [] => 0
  | r :: R' => (if PrimFloat.ltb 0%float r then 1 else 0) + count_wins R'
  end.

(** [sum(R)]: float additions from the left, starting at zero (CPython up
    to 3.11; later versions compensate the rounding errors of the
    additions, which can change the last bits of the sum). *)
Definition py_sum (R : list float) : float :=
  fold_left (λ acc r, (acc + r)%float) R 0%float.

Definition total_pct (R : list float) : float :=
  ((compound_loop 1%float R - 1) * 100)%float.

Definition win_rate (R : list float) : float :=
  (100 * float_of_nat (count_wins R) / float_of_nat (length R))%float.

Definition avg (R : list float) : float :=
  (py_sum R / float_of_nat (length R))%float.

Definition blank_row : list string := replicate (length HEADER) EmptyString.

(** [row[HEADER_INDEX[col]] = v] *)
Definition set_cell (row : list string) (col v : string) : exc (list string) :=
  match HEADER_INDEX !! col with
  | Some idx => Ok (<[idx := v]> row)
  | None => Raise KeyError
  end.

(** The three rows of one cohort. *)
Record summary3 := { total_row : list string; win_row : list string; avg_row : list string }.

(** Lines 149-164: the body of [for i in range(11)]. *)
Definition summary_step (lists : list (list float)) (rows : summary3) (i : nat)
  : exc summary3 :=
  let R := default [] (lists !! i) in
  if length R =? 0 then Ok rows
  else
    match HEADER_INDEX !! col_pct i with
    | None => Raise KeyError
    | Some idx =>
        Ok {| total_row := <[idx := _fmt_pct (Some (py_round 2 (total_pct R)))]> (total_row rows);
              win_row := <[idx := _fmt_pct (Some (py_round 2 (win_rate R)))]> (win_row rows);
              avg_row := <[idx := _fmt_pct (Some (py_round 2 (avg R)))]> (avg_row rows) |}
    end.

Definition groups : list (string * string) :=
  [("gainer_long", "Gainer Long"); ("gainer_short", "Gainer Short");
   ("loser_long", "Loser Long"); ("loser_short", "Loser Short")].

(** Lines 139-166: the three rows of the cohort [(key, label)]. *)
Definition group_rows (buckets : gmap string (list (list float))) (g : string * string)
  : exc summary3 :=
  let lists := default (replicate 11 []) (buckets !! g.1) in
  foldM (summary_step lists) (seq 0 11)
    {| total_row := <[0 := "Total " +:+ g.2 +:+ " Return (%)"]> blank_row;
       win_row := <[0 := "Win Rate " +:+ g.2 +:+ " (%)"]> blank_row;
       avg_row := <[0 := "Avg Daily Return " +:+ g.2 +:+ " (%)"]> blank_row |}.

Definition _compute_summary_rows (buckets : gmap string (list (list float)))
  : exc (list (list string)) :=
  foldM (λ rows g, r ← group_rows buckets g;
                   Ok (rows ++ [total_row r; win_row r; avg_row r]))
        groups [blank_row].

(** ** The table *)

Record Env := {
  builtins : Builtins;
  (** group 1 of the [re.search] of line 227 (the first signed number in
      the text), [None] when there is no match *)
  re_search_number : string → option string;
  (** writing the CSV and renaming it succeeds *)
  write_ok : bool;
}.

(** Lines 255-260 (and again 288-292): the three numbers of one
    observation, the last one with its fallback. *)
Definition fallback_pct (open_v close_v pct_long : option float) : option float :=
  match pct_long, open_v, close_v with
  | None, Some o, Some c =>
      if float_ne0 o then Some (py_round 2 ((c - o) / o * 100)%float) else None
  | _, _, _ => pct_long
  end.

Definition day_values (B : Builtins) (d : json)
  : exc (option float * option float * option float) :=
  o ← py_get d "open" JNull;
  open_v ← _ensure_number B o;
  c ← py_get d "close" JNull;
  close_v ← _ensure_number B c;
  p ← py_get d "pct_long" JNull;
  pct_long ← _ensure_number B p;
  Ok (open_v, close_v, fallback_pct open_v close_v pct_long).

(** [days_list[i]] *)
Definition py_index (v : json) (i : nat) : exc json :=
  match v with
  | JList l => match l !! i with Some x => Ok x | None => Raise IndexError end
  | JStr s =>
      match chars s !! i with
      | Some c => Ok (JStr c)
      | None => Raise IndexError
      end
  | JDict _ => Raise KeyError
  | _ => Raise TypeError
  end.

(** [buckets[key][i].append(p)] *)
Definition bucket_append (buckets : gmap string (list (list float))) (key : string)
    (i : nat) (p : float) : exc (gmap string (list (list float))) :=
  match buckets !! key with
  | None => Raise KeyError
  | Some lists =>
      match lists !! i with
      | None => Raise IndexError
      | Some R => Ok (<[key := <[i := R ++ [p]]> lists]> buckets)
      end
  end.

(** Lines 266-272. *)
Definition record_pct (mover_label : string) (i : nat) (pct_long : option float)
    (buckets : gmap string (list (list float))) : exc (gmap string (list (list float))) :=
  match pct_long with
  | None => Ok buckets
  | Some p =>
      if String.eqb mover_label "gainer"
      then b ← bucket_append buckets "gainer_long" i p;
           bucket_append b "gainer_short" i (- p)%float
      else b ← bucket_append buckets "loser_long" i p;
           bucket_append b "loser_short" i (- p)%float
  end.

(** Lines 249-276: the body of the first [for i in range(11)]. *)
Definition collect_step (B : Builtins) (mover_label : string) (days_list : json)
    (st : list string * gmap string (list (list float))) (i : nat)
  : exc (list string * gmap string (list (list float))) :=
  n ← py_len days_list;
  if i <? n then
    d ← py_index days_list i;
    '(open_v, close_v, pct_long) ← day_values B d;
    row ← set_cell st.1 (col_open i) (_fmt_price open_v);
    row ← set_cell row (col_close i) (_fmt_price close_v);
    buckets ← record_pct mover_label i pct_long st.2;
    Ok (row, buckets)
  else
    row ← set_cell st.1 (col_open i) EmptyString;
    row ← set_cell row (col_close i) EmptyString;
    row ← set_cell row (col_pct i) EmptyString;
    Ok (row, st.2).

(** Lines 284-299: the body of the [for i in range(11)] of one direction. *)
Definition direction_step (B : Builtins) (direction : string) (days_list : json)
    (row : list string) (i : nat) : exc (list string) :=
  n ← py_len days_list;
  if i <? n then
    d ← py_index days_list i;
    '(_, _, pct_long) ← day_values B d;
    match pct_long with
    | None => set_cell row (col_pct i) EmptyString
    | Some p =>
        let val := if String.eqb direction "long" then p else (- p)%float in
        set_cell row (col_pct i) (_fmt_pct (Some val))
    end
  else set_cell row (col_pct i) EmptyString.

(** Lines 279-301: the row of one direction. *)
Definition direction_row (B : Builtins) (days_list : json) (base_row : list string)
    (direction : string) : exc (list string) :=
  row ← set_cell base_row "direction" direction;
  foldM (direction_step B direction days_list) (seq 0 11) row.

(** Lines 215-231: the event-day percent and point change of a mover. *)
Definition event_numbers (E : Env) (it : json) : exc (option float * option float) :=
  let B := builtins E in
  a ← py_get it "pct_change" JNull;
  b ← py_get it "pct" JNull;
  let pct_f := _parse_pct B (py_or (py_or a b) (JStr EmptyString)) in
  cp ← py_get it "change_pts" JNull;
  pts ← _ensure_number B cp;
  match pts with
  | Some _ => Ok (pct_f, pts)
  | None =>
      change_field ← py_get it "change" (JStr EmptyString);
      Ok (pct_f,
          match re_search_number E (py_str B change_field) with
          | Some g => float_of_str B (replace "," EmptyString g)
          | None => None
          end)
  end.

(** Line 246: [cache.get(cache_key, []) if isinstance(cache, dict) else []]. *)
Definition cached_days (cache : json) (key : string) : json :=
  match cache with
  | JDict d => default (JList []) (d !! key)
  | _ => JList []
  end.

(** Lines 214-301: the body of [for it in items]; the state is the list
    of rows and the buckets. *)
Definition item_step (E : Env) (cache : json) (date_key mover_type : string)
    (st : list (list string) * gmap string (list (list float))) (it : json)
  : exc (list (list string) * gmap string (list (list float))) :=
  let B := builtins E in
  sym ← py_get it "symbol" (JStr EmptyString);
  ticker ← _clean_sym B sym;
  '(pct_f, pts) ← event_numbers E it;
  let mover_label := if String.eqb mover_type "gainers" then "gainer" else "loser" in
  row ← set_cell blank_row "ticker" ticker;
  row ← set_cell row "event_date" date_key;
  row ← set_cell row "mover_type" mover_label;
  row ← set_cell row "Points Change" (_fmt_points pts);
  row ← set_cell row "Event Day %Change" (_fmt_pct pct_f);
  let cache_key := ticker +:+ "|" +:+ date_key in
  let days_list := cached_days cache cache_key in
  '(base_row, buckets) ← foldM (collect_step B mover_label days_list) (seq 0 11) (row, st.2);
  long_row ← direction_row B days_list base_row "long";
  short_row ← direction_row B days_list base_row "short";
  Ok (st.1 ++ [long_row; short_row], buckets).

Definition for_mover_type (E : Env) (cache : json) (date_key : string) (entry : json)
    (st : list (list string) * gmap string (list (list float))) (mover_type : string)
  : exc (list (list string) * gmap string (list (list float))) :=
  v ← py_get entry mover_type (JList []);
  items ← py_iter (py_or v (JList []));
  foldM (item_step E cache date_key mover_type) items st.

Definition for_date (E : Env) (cache : json) (movers : gmap string json)
    (st : list (list string) * gmap string (list (list float))) (date_key : string)
  : exc (list (list string) * gmap string (list (list float))) :=
  let entry := default (JDict ∅) (movers !! date_key) in
  foldM (for_mover_type E cache date_key entry) ["gainers"; "losers"] st.

Definition empty_buckets : gmap string (list (list float)) :=
  <["gainer_long" := replicate 11 []]>
    (<["gainer_short" := replicate 11 []]>
       (<["loser_long" := replicate 11 []]>
          (<["loser_short" := replicate 11 []]> ∅))).

(** The file [movers.json] as [populate_from_movers] finds it. *)
Inductive movers_file :=
| Missing
| Unparsable
| Loaded (movers : json).

(** [populate_from_movers] on the loaded cache: the table written to the
    CSV ([None] when nothing is written) and the returned count. *)
Definition populate_from_movers (E : Env) (file : movers_file) (cache : json)
  : exc (option (list (list string)) * nat) :=
  match file with
  | Missing => Ok (if write_ok E then Some [HEADER] else None, 0)
  | Unparsable => Ok (None, 0)
  | Loaded (JDict m) =>
      '(rows, buckets) ← foldM (for_date E cache m) (sorted_keys m) ([], empty_buckets);
      let rows := match _compute_summary_rows buckets with
                  | Ok summary_rows => rows ++ summary_rows
                  | Raise _ => rows
                  end in
      Ok (if write_ok E then (Some (HEADER :: rows), length rows) else (None, 0))
  | Loaded _ => Raise AttributeError
  end.

End populate_movers_csv.

(* ===================================================================== *)
(** * yahoo_top_movers.py: the Mover Acquisition                          *)
(* ===================================================================== *)

Module yahoo_top_movers.

(** What the Acquisition takes from outside. A page is the list of the
    [tr] rows of its first table, each row the stripped texts of its [td]
    cells. *)
Record Env := {
  builtins : Builtins;
  (** [now_et.date().isoformat()] and [now_et.isoformat()] *)
  date_str : string;
  scraped_at : string;
  (** [now_et.weekday()] *)
  weekday : nat;
  (** [now_et.time()] in New York, in seconds since midnight *)
  seconds : Z;
  (** [not schedule.empty] of the NYSE calendar of today; [None] when the
      calendar lookup raises *)
  nyse_schedule : option bool;
  (** the gainers and losers pages; [None] when fetching one of them raises *)
  pages : option (list (list string) * list (list string));
  (** the texts found on the quote page of a symbol for the labels Open and
      Previous Close and for the market price; [None] when fetching raises *)
  quote_page : string → option (string * string * string);
  (** [save_movers] succeeds *)
  save_ok : bool;
}.

(** [rows[:n]] for an [int] [n]: a negative [n] counts from the end. *)
Definition slice_to {A : Type} (n : Z) (l : list A) : list A :=
  if (0 <=? n)%Z then take (Z.to_nat n) l
  else take (length l - Z.to_nat (- n)) l.

(** Lines 38-49, from the rows of the table. *)
Definition _parse_top_rows (trs : list (list string)) (top_n : Z) : list (gmap string json) :=
  omap (λ cols : list string,
          match cols with
          | [] => None
          | c0 :: _ =>
              Some (<["symbol" := JStr c0]>
                   (<["name" := JStr (default EmptyString (cols !! 1))]>
                   (<["price" := JStr (default EmptyString (cols !! 2))]>
                   (<["change" := JStr (default EmptyString (cols !! 4))]>
                   (<["pct_change" := JStr (default EmptyString (cols !! 5))]> ∅)))))
          end)
       (slice_to top_n trs).

Definition starts_and_ends_with_parens (s : string) : bool :=
  String.prefix "(" s && String.prefix ")" (str_rev s).

Definition _parse_float (B : Builtins) (s : string) : option float :=
  if String.eqb s EmptyString then None
  else
    let cleaned :=
      py_strip B
        (replace populate_movers_csv.MINUS_SIGN "-" (replace "%" EmptyString (replace "," EmptyString s))) in
    let cleaned :=
      if starts_and_ends_with_parens cleaned
      then "-" +:+ String.substring 1 (String.length cleaned - 2) cleaned
      else cleaned in
    float_of_str B cleaned.

(** [a or b] on two optional floats: [None] and both zeros are false. *)
Definition float_or (a b : option float) : option float :=
  match a with
  | Some f => if float_ne0 f then a else b
  | None => b
  end.

(** The dictionary that [fetch_symbol_details] returns, as the triple of
    its values for open, close and change_pts. *)
Definition fetch_symbol_details (E : Env) (symbol : string)
  : option float * option float * option float :=
  match quote_page E symbol with
  | None => (None, None, None)
  | Some (open_s, prev_close_s, price_s) =>
      let B := builtins E in
      let open_v := _parse_float B open_s in
      let close_v := float_or (_parse_float B prev_close_s) (_parse_float B price_s) in
      let change_pts :=
        match open_v, close_v with
        | Some o, Some c => Some (py_round 6 (c - o)%float)
        | _, _ => None
        end in
      (open_v, close_v, change_pts)
  end.

Definition is_weekend (E : Env) : bool := 5 <=? weekday E.

Definition is_market_day (E : Env) : bool :=
  match nyse_schedule E with
  | Some b => b
  | None => negb (is_weekend E)
  end.

Definition after_cutoff_et (E : Env) (cutoff_hour : Z) : bool :=
  (cutoff_hour * 3600 <=? seconds E)%Z.

(** The objects of the scraped items live in a heap: the lists [gainers],
    [losers] and [candidate_items] hold references (indices) to them, so
    that what [enrich_pool] writes into an item is seen through every
    list. *)
Definition scrape_top_gainers_and_losers (E : Env) (top_n : Z)
  : list (gmap string json) * list nat * list nat :=
  match pages E with
  | None => ([], [], [])
  | Some (gainers_page, losers_page) =>
      let gainers := _parse_top_rows gainers_page top_n in
      let losers := _parse_top_rows losers_page top_n in
      (gainers ++ losers, seq 0 (length gainers), seq (length gainers) (length losers))
  end.

Definition json_of_float (v : option float) : json :=
  match v with None => JNull | Some f => JFloat f end.

(** Line 171. *)
Definition enrich_symbol (B : Builtins) (item : gmap string json) : exc string :=
  if truthy (default JNull (item !! "symbol"))
  then match default (JStr EmptyString) (item !! "symbol") with
       | JStr s => match py_split_first B s with
                   | Some t => Ok t
                   | None => Raise IndexError
                   end
       | _ => Raise AttributeError
       end
  else Ok EmptyString.

(** Lines 171-178: the body of the loop of [enrich_pool]. *)
Definition enrich_item (E : Env) (heap : list (gmap string json)) (ref : nat)
  : exc (list (gmap string json)) :=
  match heap !! ref with
  | None => Raise IndexError
  | Some item =>
      sym ← enrich_symbol (builtins E) item;
      let '(open_v, close_v, change_pts) :=
        if String.eqb sym EmptyString then (None, None, None)
        else fetch_symbol_details E sym in
      Ok (<[ref := <["change_pts" := json_of_float change_pts]>
                   (<["close" := json_of_float close_v]>
                   (<["open" := json_of_float open_v]> item))]> heap)
  end.

Definition enrich_pool (E : Env) (heap : list (gmap string json)) (pool : list nat)
  : exc (list (gmap string json)) :=
  foldM (enrich_item E) pool heap.

(** Line 207: [(item.get("close") is not None) or item.get("pct_change")]. *)
Definition item_has_data (item : gmap string json) : bool :=
  match default JNull (item !! "close") with
  | JNull => truthy (default JNull (item !! "pct_change"))
  | _ => true
  end.

Definition has_data (heap : list (gmap string json)) (candidate_items : list nat) : bool :=
  existsb (λ ref, match heap !! ref with
                  | Some item => item_has_data item
                  | None => false
                  end) candidate_items.

Definition deref (heap : list (gmap string json)) (refs : list nat) : json :=
  JList (omap (λ ref, JDict <$> heap !! ref) refs).

(** Line 217: the record of today. *)
Definition record_of (E : Env) (heap : list (gmap string json)) (gainers losers : list nat)
  : json :=
  JDict (<["scraped_at" := JStr (scraped_at E)]>
        (<["gainers" := deref heap gainers]>
        (<["losers" := deref heap losers]> ∅))).

(** Lines 212-218. [file] is the content of [movers.json]; [load_movers]
    starts from the empty dictionary when the file is missing or cannot be
    read. The result is the content of the file afterwards. Only a [dict]
    takes the item assignment of line 217. *)
Definition persist (E : Env) (file : option json) (record : json) : exc (option json) :=
  match default (JDict ∅) file with
  | JDict m =>
      match m !! date_str E with
      | Some _ => Ok file
      | None =>
          if save_ok E then Ok (Some (JDict (<[date_str E := record]> m)))
          else Raise OSError
      end
  | JList l =>
      if existsb (λ v, match v with JStr s => String.eqb s (date_str E) | _ => false end) l
      then Ok file else Raise TypeError
  | JStr s => if substringb (date_str E) s then Ok file else Raise TypeError
  | _ => Raise TypeError
  end.

(** [run_and_persist], as a function of the content of [movers.json]
    ([None]: the file is missing or cannot be read). The result is the
    content of the file when the function returns. The three calls that
    follow [save_movers] (CSV, Tracker, CSV again) sit in handlers of their
    own and do not write [movers.json]. *)
Definition run_and_persist (E : Env) (top_n : Z) (file : option json) : exc (option json) :=
  if negb (is_market_day E) then Ok file
  else if negb (after_cutoff_et E 20) then Ok file
  else
    let '(heap, gainers, losers) := scrape_top_gainers_and_losers E top_n in
    let candidate_items := gainers ++ losers in
    match candidate_items with
    | [] => Ok file
    | _ =>
        heap ← enrich_pool E heap gainers;
        heap ← enrich_pool E heap losers;
        if negb (has_data heap candidate_items) then Ok file
        else persist E file (record_of E heap gainers losers)
    end.

(** The file after the call, whether it returned or raised. *)
Definition movers_file_after (E : Env) (top_n : Z) (file : option json) : option json :=
  match run_and_persist E top_n file with
  | Ok file' => file'
  | Raise _ => file
  end.

End yahoo_top_movers.

(* ===================================================================== *)
(** * Concrete stores and environments                                    *)
(* ===================================================================== *)

Module Samples.

(** A calendar of the first days of January 2024 with their ordinals. *)
Definition calendar : list (string * Z) :=
  [("2024-01-02", 738887); ("2024-01-03", 738888); ("2024-01-04", 738889);
   ("2024-01-05", 738890); ("2024-01-08", 738893); ("2024-01-09", 738894);
   ("2024-01-10", 738895); ("2024-01-11", 738896)]%Z.

Definition parse_date (s : string) : option Z :=
  match list_find (λ p : string * Z, p.1 = s) calendar with
  | Some (_, (_, d)) => Some d
  | None => None
  end.

Definition print_date (d : Z) : string :=
  match list_find (λ p : string * Z, p.2 = d) calendar with
  | Some (_, (s, _)) => s
  | None => EmptyString
  end.

(** The builtins on the values the examples pass to them. *)
Definition builtins0 : Builtins :=
  {| str_of_value := λ v, match v with
                          | JNull => "None"
                          | JBool true => "True"
                          | JBool false => "False"
                          | JInt z => pretty z
                          | _ => EmptyString
                          end;
     float_of_str := λ s, if String.eqb s "0" then Some 0%float
                          else if String.eqb s "+5.00" then Some 5%float
                          else None;
     str_split_first := λ _, None;
     str_strip := λ s, s;
     str_upper := λ s, s |}.

Definition row (d : Z) (o c : float) : fetch_subsequent.hrow :=
  {| fetch_subsequent.row_date := d;
     fetch_subsequent.row_open := Some o;
     fetch_subsequent.row_close := Some c |}.

(** Five completed trading days after 2024-01-02 for every ticker. *)
Definition five_days : list fetch_subsequent.hrow :=
  [row 738888 10 10.5; row 738889 10.5 10; row 738890 0.014 0.016;
   row 738893 0 1.25; row 738894 20 21]%float.

(** Wednesday 2024-01-10, 12:00 in New York. *)
Definition tracker_env : fetch_subsequent.Env :=
  {| fetch_subsequent.builtins := builtins0;
     fetch_subsequent.yfinance_available := true;
     fetch_subsequent.now_date := 738895;
     fetch_subsequent.now_seconds := 43200;
     fetch_subsequent.fromisoformat := parse_date;
     fetch_subsequent.strptime_ymd := parse_date;
     fetch_subsequent.isoformat := print_date;
     fetch_subsequent.history := λ _ _ _, Some five_days;
     fetch_subsequent.save_ok := true |}.

Definition mover (symbol : string) : json := JDict {[ "symbol" := JStr symbol ]}.

Definition movers_record (gainers losers : list json) : json :=
  JDict (<["scraped_at" := JStr "2024-01-02T20:05:00-05:00"]>
        (<["gainers" := JList gainers]> (<["losers" := JList losers]> ∅))).

(** One mover. *)
Definition movers_one : json :=
  JDict {[ "2024-01-02" := movers_record [mover "AAA"] [] ]}.

(** The same ticker listed twice under one date. *)
Definition movers_twice : json :=
  JDict {[ "2024-01-02" := movers_record [mover "AAA"] [mover "AAA"] ]}.

(** A symbol made of blanks, followed by a sound mover. *)
Definition movers_blank : json :=
  JDict {[ "2024-01-02" := movers_record [mover "  "; mover "AAA"] [] ]}.

(** A record under a date that does not parse, and a sound one. *)
Definition movers_bad_date : json :=
  JDict (<["not-a-date" := movers_record [mover "BBB"] []]>
        {[ "2024-01-02" := movers_record [mover "AAA"] [] ]}).

Definition empty_cache : json := JDict ∅.

(** A cache whose value under the key is a string, not a list. *)
Definition cache_string : json := JDict {[ "AAA|2024-01-02" := JStr "x" ]}.

(** A cache holding one series of eleven days. *)
Definition cache_full : json :=
  JDict {[ "AAA|2024-01-02" :=
             JList (replicate 11 (JDict (fetch_subsequent.day_obj "2024-01-03" 10 10.5))) ]}.

Definition aggregator_env : populate_movers_csv.Env :=
  {| populate_movers_csv.builtins := builtins0;
     populate_movers_csv.re_search_number := λ _, None;
     populate_movers_csv.write_ok := true |}.

(** Cohort gainer-long with the returns 10 and -10 at offset 1. *)
Definition buckets_example : gmap string (list (list float)) :=
  <["gainer_long" := [10; -10]%float :: replicate 10 []]> populate_movers_csv.empty_buckets.

(** An observation as the Tracker writes it for a zero open. *)
Definition zero_open_obs : gmap string json := fetch_subsequent.day_obj "2024-01-03" 0 1.25.

Definition cache_zero_open : json :=
  JDict {[ "AAA|2024-01-02" := JList [JDict zero_open_obs] ]}.

(** Tuesday 2024-01-02, 20:05 in New York; one gainer, one loser. *)
Definition acquisition_env : yahoo_top_movers.Env :=
  {| yahoo_top_movers.builtins := builtins0;
     yahoo_top_movers.date_str := "2024-01-02";
     yahoo_top_movers.scraped_at := "2024-01-02T20:05:00-05:00";
     yahoo_top_movers.weekday := 1;
     yahoo_top_movers.seconds := 72300;
     yahoo_top_movers.nyse_schedule := Some true;
     yahoo_top_movers.pages :=
       Some ([["AAA"; "Triple A"; "10.50"; EmptyString; "+0.50"; "+5.00%"]],
             [["ZZZ"; "Triple Z"; "3.00"; EmptyString; "-1.00"; "-25.00%"]]);
     yahoo_top_movers.quote_page := λ _, None;
     yahoo_top_movers.save_ok := true |}.

(** The same evening with pages whose cells carry no number at all. *)
Definition acquisition_env_no_data : yahoo_top_movers.Env :=
  {| yahoo_top_movers.builtins := builtins0;
     yahoo_top_movers.date_str := "2024-01-02";
     yahoo_top_movers.scraped_at := "2024-01-02T20:05:00-05:00";
     yahoo_top_movers.weekday := 1;
     yahoo_top_movers.seconds := 72300;
     yahoo_top_movers.nyse_schedule := Some true;
     yahoo_top_movers.pages := Some ([["AAA"]], [["ZZZ"]]);
     yahoo_top_movers.quote_page := λ _, None;
     yahoo_top_movers.save_ok := true |}.

End Samples.

(* ===================================================================== *)
(** * Notions used in the statements                                      *)
(* ===================================================================== *)

Module Notions.
Import fetch_subsequent.

(** The value stored in the cache under a key. *)
Definition series (cache : json) (key : string) : option json :=
  match cache with JDict d => d !! key | _ => None end.

(** Every tracked series has at most [max_days] entries. *)
Definition capped (max_days : Z) (cache : json) : Prop :=
  ∃ d, cache = JDict d ∧
       ∀ key l, d !! key = Some (JList l) → (Z.of_nat (length l) ≤ max_days)%Z.

(** The cache file after a sequence of invocations of the Tracker, each
    with its own environment and mover store. *)
Definition after_runs (max_days : Z) (runs : list (Env * json)) (cache : json) : json :=
  foldl (λ c r, cache_file_after r.1 r.2 c max_days) cache runs.

(** The returns collected for a cohort at an offset. *)
Definition bucket_at (buckets : gmap string (list (list float))) (key : string) (i : nat)
  : option (list float) :=
  match buckets !! key with Some lists => lists !! i | None => None end.

(** The cell of a table at a row and a column. *)
Definition cell (rows : list (list string)) (r c : nat) : option string :=
  match rows !! r with Some row => row !! c | None => None end.

(** The three statistics in the words of the specification, over the
    returns [R] of a cohort at an offset: the product of the factors
    [1 + r/100], less one, times 100; 100 times the share of positive
    returns; the sum over the number. The factors are multiplied and the
    returns added in the order of [R]. *)
Definition spec_compounded_total (R : list float) : float :=
  ((fold_left (λ acc x, acc * x) ((λ r, 1 + r / 100) <$> R) 1 - 1) * 100)%float.

Definition spec_win_rate (R : list float) : float :=
  (100 * populate_movers_csv.float_of_nat
           (length (filter (λ r, Is_true (PrimFloat.ltb 0 r)) R))
   / populate_movers_csv.float_of_nat (length R))%float.

Definition spec_average (R : list float) : float :=
  (fold_left (λ acc r, acc + r) R 0 / populate_movers_csv.float_of_nat (length R))%float.

(** A summary cell: blank without returns, else the statistic rounded to
    two decimals, with its sign and a percent sign. *)
Definition summary_cell (stat : list float → float) (R : list float) : string :=
  match R with
  | [] => EmptyString
  | _ => populate_movers_csv._fmt_pct (Some (py_round 2 (stat R)))
  end.

(** The cells of the three rows of a cohort in one column. *)
Definition cells3 (rows : populate_movers_csv.summary3) (c : nat)
  : option string * option string * option string :=
  (populate_movers_csv.total_row rows !! c,
   populate_movers_csv.win_row rows !! c,
   populate_movers_csv.avg_row rows !! c).

(** The three rows are as wide as the header. *)
Definition full_width (rows : populate_movers_csv.summary3) : Prop :=
  length (populate_movers_csv.total_row rows) = length populate_movers_csv.HEADER
  ∧ length (populate_movers_csv.win_row rows) = length populate_movers_csv.HEADER
  ∧ length (populate_movers_csv.avg_row rows) = length populate_movers_csv.HEADER.

(** The returns of the cohort [key] at offset [i] (line 140 and 150). *)
Definition returns_of (buckets : gmap string (list (list float))) (key : string) (i : nat)
  : list float :=
  default [] (default (replicate 11 []) (buckets !! key) !! i).

(** What the three summary cells of a column hold for the returns [R]. *)
Definition expected3 (R : list float) : option string * option string * option string :=
  (Some (summary_cell populate_movers_csv.total_pct R),
   Some (summary_cell populate_movers_csv.win_rate R),
   Some (summary_cell populate_movers_csv.avg R)).

End Notions.

(* ===================================================================== *)
(** * Further notions: counting observations and movers                   *)
(* ===================================================================== *)

Module TrackerNotions.
Import fetch_subsequent Notions.

(** The number of days tracked under a key (zero when the key is absent
    or its value is not a list). *)
Definition series_length (cache : json) (key : string) : nat :=
  match series cache key with Some (JList l) => length l | _ => 0 end.

Definition days_in (v : json) : nat :=
  match v with JList l => length l | _ => 0 end.

(** The number of observations a cache holds, over all its keys. *)
Definition observations (cache : json) : nat :=
  match cache with
  | JDict d => map_fold (λ _ v n, days_in v + n) 0 d
  | _ => 0
  end.

(** The key under which a mover of [event_date] is tracked: [None] for a
    mover that the loop passes over before it builds a key. *)
Definition key_of (E : Env) (event_date : string) (it : json) : option string :=
  match py_get it "symbol" (JStr EmptyString) with
  | Ok sym =>
      match _clean_sym (builtins E) sym with
      | Ok ticker =>
          if String.eqb ticker EmptyString then None
          else Some (ticker +:+ "|" +:+ event_date)
      | Raise _ => None
      end
  | Raise _ => None
  end.

(** How many movers of a list are tracked under [key]. *)
Definition hits (E : Env) (event_date key : string) (items : list json) : nat :=
  length (filter (λ it, key_of E event_date it = Some key) items).

(** How many movers of a store are tracked under [key], over all dates
    and both lists of each record. *)
Definition occurrences (E : Env) (movers : gmap string json) (key : string) : nat :=
  sum_list_with
    (λ event_date,
       sum_list_with
         (λ mover_type,
            match movers_of (default (JDict ∅) (movers !! event_date)) mover_type with
            | Ok items => hits E event_date key items
            | Raise _ => 0
            end)
         ["gainers"; "losers"])
    (sorted_keys movers).

(** Under [key], [cache] holds what [cache0] held, and possibly more:
    the key is still there, and a list has only been extended. *)
Definition grown_from (cache0 : json) (key : string) (cache : json) : Prop :=
  (∀ l, series cache0 key = Some (JList l) →
        ∃ l', series cache key = Some (JList (l ++ l')))
  ∧ (is_Some (series cache0 key) → is_Some (series cache key)).

(** [v] is the observation of a completed session: it is built from a
    row of a price history with both prices, dated after the event date of
    the key, whose cutoff the clock of [E] has reached. *)
Definition completed_day (E : Env) (key : string) (v : json) : Prop :=
  ∃ ticker ev event_d start_str end_str hist cand cand_d o c,
    key = ticker +:+ "|" +:+ ev
    ∧ parse_event_date E ev = Some event_d
    ∧ history E ticker start_str end_str = Some hist
    ∧ cand ∈ hist
    ∧ (event_d < row_date cand)%Z
    ∧ parse_candidate_date E (isoformat E (row_date cand)) = Some cand_d
    ∧ before_cutoff E cand_d = false
    ∧ row_open cand = Some o
    ∧ row_close cand = Some c
    ∧ v = JDict (day_obj (isoformat E (row_date cand)) o c).

(** The list a series starts from: the stored list, or the empty list
    when the key is absent or holds something else. *)
Definition series_list (cache : json) (key : string) : list json :=
  match series cache key with Some (JList l) => l | _ => [] end.

(** What one invocation may have done under [key]: nothing, or appended
    observations of completed sessions to the list it found. *)
Definition grown_by_completed (E : Env) (cache0 : json) (key : string) (cache : json) : Prop :=
  series cache key = series cache0 key
  ∨ ∃ l', series cache key = Some (JList (series_list cache0 key ++ l'))
          ∧ Forall (completed_day E key) l'.



End TrackerNotions.

Module AggregatorNotions.
Import populate_movers_csv Notions.

(** The three numbers the Aggregator reads at offset [i] of a series:
    those of the observation stored there, or nothing beyond its end. *)
Definition offset_values (B : Builtins) (l : list json) (i : nat)
  : exc (option float * option float * option float) :=
  match l !! i with
  | Some d => day_values B d
  | None => Ok (None, None, None)
  end.

(** The percent return in a direction: negated for a short. *)
Definition in_direction (direction : string) (pct : option float) : option float :=
  if String.eqb direction "long" then pct else PrimFloat.opp <$> pct.

(** The two cohorts of a kind of mover. *)
Definition long_cohort (mover_type : string) : string :=
  if String.eqb mover_type "gainers" then "gainer_long" else "loser_long".

Definition short_cohort (mover_type : string) : string :=
  if String.eqb mover_type "gainers" then "gainer_short" else "loser_short".

(** What a mover of [mover_type] with the return [pct] at an offset adds
    to the bucket of the cohort [key] at that offset. *)
Definition contribution (mover_type key : string) (pct : option float) : list float :=
  match pct with
  | None => []
  | Some p =>
      if String.eqb key (long_cohort mover_type) then [p]
      else if String.eqb key (short_cohort mover_type) then [PrimFloat.opp p]
      else []
  end.

(** The short cohorts hold, offset by offset and one for one, the negated
    returns of the long cohorts. *)
Definition mirrored (buckets : gmap string (list (list float))) : Prop :=
  ∀ i, bucket_at buckets "gainer_short" i
       = fmap (M := list) PrimFloat.opp <$> bucket_at buckets "gainer_long" i
       ∧ bucket_at buckets "loser_short" i
         = fmap (M := list) PrimFloat.opp <$> bucket_at buckets "loser_long" i.

(** Each of the four cohorts has its eleven lists. *)
Definition eleven_each (buckets : gmap string (list (list float))) : Prop :=
  ∀ key, key ∈ ["gainer_long"; "gainer_short"; "loser_long"; "loser_short"] →
         ∃ lists, buckets !! key = Some lists ∧ length lists = 11.

(** The rows of one mover: a long row and a short row that differ in the
    direction and in the Day N percent columns only. *)
Definition companion (long_row short_row : list string) : Prop :=
  long_row !! 3 = Some "long"
  ∧ short_row !! 3 = Some "short"
  ∧ ∀ c, c ≠ 3 → (∀ i, i < 11 → c ≠ 6 + 3 * i) → long_row !! c = short_row !! c.

Inductive pairs : list (list string) → Prop :=
| pairs_nil : pairs []
| pairs_cons long_row short_row rest :
    companion long_row short_row → pairs rest → pairs (long_row :: short_row :: rest).

(** Line 211: [entry.get(mover_type, []) or []], as a loop draws from it. *)
Definition items_of (entry : json) (mover_type : string) : exc (list json) :=
  v ← py_get entry mover_type (JList []);
  py_iter (py_or v (JList [])).

(** The number of movers a store lists, over its dates and both lists of
    each record, counting repetitions. *)
Definition listed (movers : gmap string json) : nat :=
  sum_list_with
    (λ date_key,
       sum_list_with
         (λ mover_type,
            match items_of (default (JDict ∅) (movers !! date_key)) mover_type with
            | Ok items => length items
            | Raise _ => 0
            end)
         ["gainers"; "losers"])
    (sorted_keys movers).

(** A value that [_ensure_number] takes without converting an [int]. *)
Definition no_int (v : json) : Prop :=
  match v with JInt _ => False | _ => True end.

(** A symbol that is an ASCII text, empty or with a character that is
    not a blank. *)
Definition sound_symbol (v : json) : Prop :=
  match v with
  | JStr s => ascii_only s = true ∧ (s = EmptyString ∨ lstrip s ≠ EmptyString)
  | _ => False
  end.

Definition sound_item (it : json) : Prop :=
  ∃ im, it = JDict im
        ∧ sound_symbol (default (JStr EmptyString) (im !! "symbol"))
        ∧ no_int (default JNull (im !! "change_pts")).

Definition sound_observation (obs : json) : Prop :=
  ∃ m, obs = JDict m
       ∧ no_int (default JNull (m !! "open"))
       ∧ no_int (default JNull (m !! "close"))
       ∧ no_int (default JNull (m !! "pct_long")).

(** A cache that, when it is a dictionary, holds lists of observations. *)
Definition sound_cache (cache : json) : Prop :=
  ∀ d key v, cache = JDict d → d !! key = Some v →
             ∃ l, v = JList l ∧ Forall sound_observation l.

Definition sound_record (entry : json) : Prop :=
  ∃ em, entry = JDict em
        ∧ ∀ mover_type v, mover_type ∈ ["gainers"; "losers"] → em !! mover_type = Some v →
                          ∃ items, v = JList items ∧ Forall sound_item items.

Definition sound_store (movers : gmap string json) : Prop :=
  ∀ date_key entry, movers !! date_key = Some entry → sound_record entry.

(** The scan of [populate_from_movers] (lines 209-301): the rows and the
    buckets it has built when the loops end. *)
Definition scan_rows (E : Env) (cache : json) (movers : gmap string json)
  : exc (list (list string) * gmap string (list (list float))) :=
  foldM (for_date E cache movers) (sorted_keys movers) ([], empty_buckets).

End AggregatorNotions.

Module AcquisitionNotions.
Import yahoo_top_movers.

(** [item] carries the texts of the cells of the table row [cols]: the
    first, second, third, fifth and sixth cell, blank where the row is
    shorter. *)
Definition scraped_from (cols : list string) (item : gmap string json) : Prop :=
  cols ≠ []
  ∧ item !! "symbol" = Some (JStr (default EmptyString (cols !! 0)))
  ∧ item !! "name" = Some (JStr (default EmptyString (cols !! 1)))
  ∧ item !! "price" = Some (JStr (default EmptyString (cols !! 2)))
  ∧ item !! "change" = Some (JStr (default EmptyString (cols !! 4)))
  ∧ item !! "pct_change" = Some (JStr (default EmptyString (cols !! 5))).

(** The three numbers of an enriched item: each a float or null, the
    point change being the close less the open rounded to six decimals
    when both are there, and null otherwise. *)
Definition numbers_consistent (item : gmap string json) : Prop :=
  ∃ o c : option float,
    item !! "open" = Some (json_of_float o)
    ∧ item !! "close" = Some (json_of_float c)
    ∧ item !! "change_pts"
      = Some (json_of_float
                match o, c with
                | Some o, Some c => Some (py_round 6 (c - o)%float)
                | _, _ => None
                end).

(** A key that enrichment does not write. *)
Definition text_key (k : string) : Prop :=
  k ≠ "open" ∧ k ≠ "close" ∧ k ≠ "change_pts".

(** The three numbers of [item] are those that the quote page of its own
    symbol gives (of the first word of the symbol; nulls when the symbol
    is empty). *)
Definition quoted (E : Env) (item : gmap string json) : Prop :=
  ∃ sym, enrich_symbol (builtins E) item = Ok sym
         ∧ ∃ o c p,
             (o, c, p) = (if String.eqb sym EmptyString then (None, None, None)
                          else fetch_symbol_details E sym)
             ∧ item !! "open" = Some (json_of_float o)
             ∧ item !! "close" = Some (json_of_float c)
             ∧ item !! "change_pts" = Some (json_of_float p).

(** [item'] is [item] with its three numbers set from its quote page. *)
Definition enriched (E : Env) (item item' : gmap string json) : Prop :=
  (∀ k, text_key k → item' !! k = item !! k) ∧ quoted E item'.

(** An item that passes for data: its close is a number, or its percent
    change is a text that is not empty. *)
Definition close_or_pct_text (item : gmap string json) : Prop :=
  (∃ f, item !! "close" = Some (JFloat f))
  ∨ (∃ s, item !! "pct_change" = Some (JStr s) ∧ s ≠ EmptyString).

(** A value that is a number, or a text that [_parse_float] reads as
    one. *)
Definition number_in (B : Builtins) (v : json) : bool :=
  match v with
  | JInt _ | JFloat _ => true
  | JStr s => match _parse_float B s with Some _ => true | None => false end
  | _ => false
  end.

(** An item carries a numeric signal: one of its price, change, percent
    change, open, close and point change is a number. *)
Definition numeric_signal (B : Builtins) (item : gmap string json) : bool :=
  existsb (λ k, number_in B (default JNull (item !! k)))
    ["price"; "change"; "pct_change"; "open"; "close"; "change_pts"].

(** The rows of a page that yield an item: the rows with cells among
    [rows[:top_n]]. *)
Definition item_rows (trs : list (list string)) (top_n : Z) : list (list string) :=
  filter (λ cols, cols ≠ []) (slice_to top_n trs).

(** The record of a day with the items [G] and [L]. *)
Definition day_record (E : Env) (G L : list (gmap string json)) : json :=
  JDict (<["scraped_at" := JStr (scraped_at E)]>
        (<["gainers" := JList (JDict <$> G)]>
        (<["losers" := JList (JDict <$> L)]> ∅))).

End AcquisitionNotions.

Module StringNotions.

(** No character of the string is white space. *)
Definition nospace (s : string) : Prop :=
  Forall (λ c, is_space c = false) (list_ascii_of_string s).

(** No character of the string is a lower-case ASCII letter. *)
Definition no_lower (s : string) : Prop :=
  Forall (λ c, upper_char c = c) (list_ascii_of_string s).

End StringNotions.

Module MoreSamples.



(** The evening of 2 January 2024 with a page whose only row has no
    number: its percent change reads N/A. *)
Definition acquisition_env_na : yahoo_top_movers.Env :=
  {| yahoo_top_movers.builtins := Samples.builtins0;
     yahoo_top_movers.date_str := "2024-01-02";
     yahoo_top_movers.scraped_at := "2024-01-02T20:05:00-05:00";
     yahoo_top_movers.weekday := 1;
     yahoo_top_movers.seconds := 72300;
     yahoo_top_movers.nyse_schedule := Some true;
     yahoo_top_movers.pages :=
       Some ([["AAA"; "Triple A"; EmptyString; EmptyString; EmptyString; "N/A"]], []);
     yahoo_top_movers.quote_page := λ _, None;
     yahoo_top_movers.save_ok := true |}.

(** The same evening with a page whose row has five cells, a price and a
    change among them, and no percent change. *)
Definition acquisition_env_price_only : yahoo_top_movers.Env :=
  {| yahoo_top_movers.builtins := Samples.builtins0;
     yahoo_top_movers.date_str := "2024-01-02";
     yahoo_top_movers.scraped_at := "2024-01-02T20:05:00-05:00";
     yahoo_top_movers.weekday := 1;
     yahoo_top_movers.seconds := 72300;
     yahoo_top_movers.nyse_schedule := Some true;
     yahoo_top_movers.pages :=
       Some ([["AAA"; "Triple A"; "+5.00"; EmptyString; "+5.00"]], []);
     yahoo_top_movers.quote_page := λ _, None;
     yahoo_top_movers.save_ok := true |}.

Import Samples.

(** The evening of the event date itself: Tuesday 2024-01-02, 20:05. *)
Definition tracker_env_event_day : fetch_subsequent.Env :=
  {| fetch_subsequent.builtins := builtins0;
     fetch_subsequent.yfinance_available := true;
     fetch_subsequent.now_date := 738887;
     fetch_subsequent.now_seconds := 72300;
     fetch_subsequent.fromisoformat := parse_date;
     fetch_subsequent.strptime_ymd := parse_date;
     fetch_subsequent.isoformat := print_date;
     fetch_subsequent.history := λ _ _ _, Some five_days;
     fetch_subsequent.save_ok := true |}.

End MoreSamples.

(* ===================================================================== *)
(** * Loops in the error monad                                            *)
(* ===================================================================== *)

Lemma bind_Ok {A B : Type} (m : exc A) (f : A → exc B) (b : B) :
  m ≫= f = Ok b → ∃ a, m = Ok a ∧ f a = Ok b.
Proof. destruct m as [a|e]; simpl; [eauto | discriminate]. Qed.

Lemma foldM_invariant {A B : Type} (P : B → Prop) (f : B → A → exc B) (xs : list A) :
  (∀ s x s', P s → f s x = Ok s' → P s') →
  ∀ s s', P s → foldM f xs s = Ok s' → P s'.
Proof.
  intros Hstep. induction xs as [|x xs IH]; intros s s' Hs H; simpl in H.
  - by inversion H; subst.
  - apply bind_Ok in H as (s1 & H1 & H2). eauto.
Qed.


Lemma foldM_app {A B : Type} (f : B → A → exc B) (xs ys : list A) (s : B) :
  foldM f (xs ++ ys) s = foldM f xs s ≫= foldM f ys.
Proof.
  revert s. induction xs as [|x xs IH]; intros s; simpl; [done|].
  destruct (f s x); simpl; [apply IH | done].
Qed.

(** An invariant that the steps drawn from [xs] keep. *)
Lemma foldM_invariant_in {A B : Type} (P : B → Prop) (f : B → A → exc B) (xs : list A) :
  (∀ s x s', x ∈ xs → P s → f s x = Ok s' → P s') →
  ∀ s s', P s → foldM f xs s = Ok s' → P s'.
Proof.
  induction xs as [|x xs IH]; intros Hstep s s' Hs H; simpl in H.
  - by inversion H; subst.
  - apply bind_Ok in H as (s1 & H1 & H2).
    apply (IH (λ s0 y s0' Hy, Hstep s0 y s0' (list_elem_of_further _ _ _ Hy)) s1); [|done].
    eapply Hstep; [apply list_elem_of_here| |]; eassumption.
Qed.

(** A loop all of whose steps return does return. *)
Lemma foldM_total_in {A B : Type} (P : B → Prop) (f : B → A → exc B) (xs : list A) :
  (∀ s x, x ∈ xs → P s → ∃ s', f s x = Ok s' ∧ P s') →
  ∀ s, P s → ∃ s', foldM f xs s = Ok s' ∧ P s'.
Proof.
  induction xs as [|x xs IH]; intros Hstep s Hs; simpl; [eauto|].
  destruct (Hstep s x (list_elem_of_here _ _) Hs) as (s1 & -> & Hs1). simpl.
  apply IH; [|done]. intros s0 y Hy. apply Hstep. by apply list_elem_of_further.
Qed.

(** What the step for [x] sets up, and the other steps keep, holds at the
    end of a loop that meets [x]. *)
Lemma foldM_establish {A B : Type} `{EqDecision A} (P Q : B → Prop)
    (f : B → A → exc B) (x : A) (xs : list A) :
  (∀ s y s', y ∈ xs → P s → f s y = Ok s' → P s') →
  (∀ s s', P s → f s x = Ok s' → Q s') →
  (∀ s y s', y ∈ xs → y ≠ x → P s → Q s → f s y = Ok s' → Q s') →
  ∀ s s', P s → Q s ∨ x ∈ xs → foldM f xs s = Ok s' → Q s'.
Proof.
  induction xs as [|y xs IH]; intros HP Hx Hother s s' Hs Hq H; simpl in H.
  - inversion H; subst. destruct Hq as [Hq|Hq]; [done|]. by apply elem_of_nil in Hq.
  - apply bind_Ok in H as (s1 & H1 & H2).
    assert (P s1) as Hs1 by (eapply HP; [apply list_elem_of_here| |]; eassumption).
    apply (IH (λ s0 z s0' Hz, HP s0 z s0' (list_elem_of_further _ _ _ Hz)) Hx
              (λ s0 z s0' Hz, Hother s0 z s0' (list_elem_of_further _ _ _ Hz)) s1);
      [done| |done].
    destruct (decide (y = x)) as [->|Hne].
    + left. exact (Hx s s1 Hs H1).
    + destruct Hq as [Hq|Hq].
      * left. exact (Hother s y s1 (list_elem_of_here _ _) Hne Hs Hq H1).
      * right. apply elem_of_cons in Hq as [->|Hq]; [done|done].
Qed.

(* ===================================================================== *)
(** * The Tracker                                                         *)
(* ===================================================================== *)

Module TrackerFacts.
Import fetch_subsequent Samples Notions.

Lemma process_item_inv E max_days ev cache it cache' b :
  process_item E max_days ev cache it = Ok (cache', b) →
  (b = false ∧ cache' = cache) ∨
  (b = true ∧ ∃ d ticker n event_d start_dt end_dt hist candidate open_v close_v,
      cache = JDict d ∧
      py_len (cached_days (JDict d) (ticker +:+ "|" +:+ ev)) = Ok n ∧
      (Z.of_nat n < max_days)%Z ∧
      parse_event_date E ev = Some event_d ∧
      history E ticker (isoformat E start_dt) (isoformat E end_dt) = Some hist ∧
      candidate_rows event_d hist !! n = Some candidate ∧
      row_open candidate = Some open_v ∧ row_close candidate = Some close_v ∧
      cache' = JDict (append_day d (ticker +:+ "|" +:+ ev)
                        (day_obj (isoformat E (row_date candidate)) open_v close_v))).
Proof.
  unfold process_item. intros H.
  apply bind_Ok in H as (sym & _ & H).
  apply bind_Ok in H as (ticker & _ & H).
  destruct (String.eqb ticker EmptyString); [left; by inversion H|].
  apply bind_Ok in H as (n & Hn & H).
  destruct (Z.leb_spec max_days (Z.of_nat n)); [left; by inversion H|].
  destruct (parse_event_date E ev) as [event_d|] eqn:Hev; [|left; by inversion H].
  apply bind_Ok in H as (start_dt & _ & H).
  apply bind_Ok in H as (end_dt & _ & H).
  destruct (history _ _ _ _) as [hist|] eqn:Hh; [|left; by inversion H].
  destruct (candidate_rows event_d hist !! n) as [candidate|] eqn:Hc; [|left; by inversion H].
  destruct (parse_candidate_date _ _); [|left; by inversion H].
  destruct (before_cutoff _ _); [left; by inversion H|].
  destruct (row_open candidate) as [open_v|] eqn:Ho; [|left; by inversion H].
  destruct (row_close candidate) as [close_v|] eqn:Hcl; [|left; by inversion H].
  apply bind_Ok in H as (c' & Hc' & H). inversion H; subst. right. split; [done|].
  destruct cache as [| | | | | |d]; simpl in Hc'; repeat case_match; try discriminate.
  inversion Hc'; subst. exists d, ticker, n, event_d, start_dt, end_dt, hist, candidate, open_v, close_v.
    repeat split; done.
Qed.

Section ScanInvariant.
Variable P : json → Prop.
Variable E : Env.
Variable max_days : Z.
Hypothesis unit_preserves : ∀ ev cache it cache' b,
  P cache → process_item E max_days ev cache it = Ok (cache', b) → P cache'.

Lemma step_preserves ev st it st' :
  P st.1 → step E max_days ev st it = Ok st' → P st'.1.
Proof.
  unfold step. intros HP H.
  apply bind_Ok in H as ([c b] & H1 & H2). inversion H2; subst; simpl. eauto.
Qed.

Lemma for_mover_type_preserves ev entry st mt st' :
  P st.1 → for_mover_type E max_days ev entry st mt = Ok st' → P st'.1.
Proof.
  unfold for_mover_type. intros HP H.
  apply bind_Ok in H as (items & _ & H).
  revert H. apply (foldM_invariant (λ s, P s.1)); [|done].
  intros s x s'. apply step_preserves.
Qed.

Lemma for_event_date_preserves movers st ev st' :
  P st.1 → for_event_date E max_days movers st ev = Ok st' → P st'.1.
Proof.
  unfold for_event_date. intros HP.
  apply (foldM_invariant (λ s, P s.1)); [|done].
  intros s x s'. apply for_mover_type_preserves.
Qed.

Lemma scan_preserves movers cache cache' n :
  P cache → scan E movers cache max_days = Ok (cache', n) → P cache'.
Proof.
  unfold scan. intros HP H. destruct movers; try discriminate.
  revert H. apply (foldM_invariant (λ s, P s.1) _ _ (for_event_date_preserves d) (cache, 0) (cache', n)).
  done.
Qed.

Lemma cache_file_after_preserves movers cache :
  P cache → P (cache_file_after E movers cache max_days).
Proof.
  intros HP. unfold cache_file_after, fetch_one_round.
  destruct (yfinance_available E); simpl; [|done].
  destruct (scan E movers cache max_days) as [[c n]|e] eqn:Hs; simpl; [|done].
  destruct (_ && _); [|done]. eauto using scan_preserves.
Qed.

End ScanInvariant.

Lemma process_item_keeps_full E max_days key l ev cache it cache' b :
  (max_days ≤ Z.of_nat (length l))%Z →
  series cache key = Some (JList l) →
  process_item E max_days ev cache it = Ok (cache', b) →
  series cache' key = Some (JList l).
Proof.
  intros Hfull Hs H.
  apply process_item_inv in H as [[_ ->]|[_ H]]; [done|].
  destruct H as (d & ticker & n & event_d & start_dt & end_dt & hist & cand & o & c
                 & -> & Hn & Hlt & _ & _ & _ & _ & _ & ->).
  simpl in *. unfold append_day.
  destruct (decide (ticker +:+ "|" +:+ ev = key)) as [<-|Hne].
  - rewrite Hs in Hn. simpl in Hn. inversion Hn; subst. lia.
  - by rewrite lookup_insert_ne.
Qed.

Lemma process_item_keeps_capped E max_days ev cache it cache' b :
  capped max_days cache →
  process_item E max_days ev cache it = Ok (cache', b) →
  capped max_days cache'.
Proof.
  intros Hcap H.
  apply process_item_inv in H as [[_ ->]|[_ H]]; [done|].
  destruct H as (d & ticker & n & event_d & start_dt & end_dt & hist & cand & o & c
                 & -> & Hn & Hlt & _ & _ & _ & _ & _ & ->).
  destruct Hcap as (d0 & [= <-] & Hcap).
  eexists; split; [done|]. intros key l. unfold append_day.
  destruct (decide (ticker +:+ "|" +:+ ev = key)) as [<-|Hne].
  - rewrite lookup_insert_eq. intros [= <-]. rewrite length_app. simpl.
    unfold cached_days in Hn.
    destruct (d !! (ticker +:+ "|" +:+ ev)) as [[]|] eqn:Hd; simpl in Hn;
      inversion Hn; subst; simpl; lia.
  - rewrite lookup_insert_ne by done. apply Hcap.
Qed.

(** C2: whatever the invocations of the Tracker that follow, each with its
    own environment, price history and mover store, a series that holds
    [max_days] entries or more is left as it is; and a cache in which every
    series holds at most [max_days] entries stays such a cache. *)
Theorem cap_enforced (max_days : Z) (runs : list (Env * json)) (cache : json) :
  (∀ key l, series cache key = Some (JList l) →
            (max_days ≤ Z.of_nat (length l))%Z →
            series (after_runs max_days runs cache) key = Some (JList l))
  ∧ (capped max_days cache → capped max_days (after_runs max_days runs cache)).
Proof.
  split.
  - intros key l Hs Hfull. revert cache Hs.
    induction runs as [|[E movers] runs IH]; intros cache Hs; simpl; [done|].
    apply IH. apply (cache_file_after_preserves (λ c, series c key = Some (JList l))); [|done].
    intros ev c it c' b. by apply process_item_keeps_full.
  - revert cache. induction runs as [|[E movers] runs IH]; intros cache Hc; simpl; [done|].
    apply IH. apply (cache_file_after_preserves (capped max_days)); [|done].
    intros ev c it c' b. apply process_item_keeps_capped.
Qed.

(** An instance: a full series stays as it is. *)
Lemma cap_enforced_witness :
  series (after_runs 11 [(tracker_env, movers_one)] cache_full) "AAA|2024-01-02"
  = Some (JList (replicate 11 (JDict (day_obj "2024-01-03" 10 10.5))))
  ∧ capped 11 (after_runs 11 [(tracker_env, movers_one)] cache_full).
Proof.
  split.
  - apply (proj1 (cap_enforced 11 [(tracker_env, movers_one)] cache_full)).
    + reflexivity.
    + simpl. lia.
  - apply (proj2 (cap_enforced 11 [(tracker_env, movers_one)] cache_full)).
    eexists; split; [reflexivity|].
    intros key l H. apply lookup_singleton_Some in H as [_ [= <-]]. simpl. lia.
Defined.

(** ** The appended observation *)

Lemma pct_long_key_fresh date o c :
  (<["date" := JStr date]>
     (<["open" := JFloat (py_round 2 o)]>
        (<["close" := JFloat (py_round 2 c)]> (∅ : gmap string json)))) !! "pct_long" = None.
Proof. by rewrite !lookup_insert_ne, lookup_empty. Qed.

Lemma day_obj_pct_long date o c :
  day_obj date o c !! "pct_long" = JFloat <$> pct_long_of o c.
Proof.
  unfold day_obj. destruct (pct_long_of o c); simpl.
  - by rewrite lookup_insert_eq.
  - apply pct_long_key_fresh.
Qed.

Lemma day_obj_fields date o c :
  day_obj date o c !! "date" = Some (JStr date)
  ∧ day_obj date o c !! "open" = Some (JFloat (py_round 2 o))
  ∧ day_obj date o c !! "close" = Some (JFloat (py_round 2 c)).
Proof.
  unfold day_obj. destruct (pct_long_of o c); simpl;
    repeat split; repeat (rewrite lookup_insert_ne by done); by rewrite lookup_insert_eq.
Qed.

(** C3: whenever the Tracker appends an observation, it comes from a
    candidate row with both prices present, and its field [pct_long] is
    [round((close - open) / open * 100, 2)] when the open is not zero and is
    absent from the stored dictionary when the open is zero. *)
Theorem appended_observation_pct_long
    (E : Env) (max_days : Z) (ev : string) (cache it cache' : json) :
  process_item E max_days ev cache it = Ok (cache', true) →
  ∃ (d : gmap string json) (key date : string) (open_v close_v : float)
    (obs : gmap string json),
    cache = JDict d
    ∧ cache' = JDict (<[key := JList (match d !! key with
                                      | Some (JList l) => l
                                      | _ => []
                                      end ++ [JDict obs])]> d)
    ∧ (∃ ticker start_str end_str hist candidate,
         history E ticker start_str end_str = Some hist
         ∧ candidate ∈ hist
         ∧ isoformat E (row_date candidate) = date
         ∧ row_open candidate = Some open_v
         ∧ row_close candidate = Some close_v)
    ∧ obs !! "date" = Some (JStr date)
    ∧ obs !! "open" = Some (JFloat (py_round 2 open_v))
    ∧ obs !! "close" = Some (JFloat (py_round 2 close_v))
    ∧ (float_ne0 open_v = true →
       obs !! "pct_long"
       = Some (JFloat (py_round 2 ((close_v - open_v) / open_v * 100)%float)))
    ∧ (float_ne0 open_v = false → obs !! "pct_long" = None).
Proof.
  intros H. apply process_item_inv in H as [[? _]|[_ H]]; [discriminate|].
  destruct H as (d & ticker & n & event_d & start_dt & end_dt & hist & cand & o & c
                 & -> & _ & _ & _ & Hhist & Hcand & Hopen & Hclose & ->).
  exists d, (ticker +:+ "|" +:+ ev), (isoformat E (row_date cand)), o, c,
    (day_obj (isoformat E (row_date cand)) o c).
  destruct (day_obj_fields (isoformat E (row_date cand)) o c) as (Hd & Ho & Hc).
  split; [done|]. split; [done|]. split.
  { exists ticker, (isoformat E start_dt), (isoformat E end_dt), hist, cand.
    repeat split; try done.
    apply list_elem_of_lookup_2 in Hcand. unfold candidate_rows in Hcand.
    by apply list_elem_of_filter in Hcand as [_ ?]. }
  repeat split; try done.
  - intros Hne. rewrite day_obj_pct_long. unfold pct_long_of. by rewrite Hne.
  - intros Hz. rewrite day_obj_pct_long. unfold pct_long_of. by rewrite Hz.
Qed.

(** An instance: the first day after
    the event of AAA. *)
Lemma appended_observation_pct_long_witness :
  ∃ (d : gmap string json) (key date : string) (open_v close_v : float)
    (obs : gmap string json),
    empty_cache = JDict d
    ∧ JDict (append_day ∅ "AAA|2024-01-02" (day_obj "2024-01-03" 10 10.5))
      = JDict (<[key := JList (match d !! key with
                               | Some (JList l) => l
                               | _ => []
                               end ++ [JDict obs])]> d)
    ∧ (∃ ticker start_str end_str hist candidate,
         history tracker_env ticker start_str end_str = Some hist
         ∧ candidate ∈ hist
         ∧ isoformat tracker_env (row_date candidate) = date
         ∧ row_open candidate = Some open_v
         ∧ row_close candidate = Some close_v)
    ∧ obs !! "date" = Some (JStr date)
    ∧ obs !! "open" = Some (JFloat (py_round 2 open_v))
    ∧ obs !! "close" = Some (JFloat (py_round 2 close_v))
    ∧ (float_ne0 open_v = true →
       obs !! "pct_long"
       = Some (JFloat (py_round 2 ((close_v - open_v) / open_v * 100)%float)))
    ∧ (float_ne0 open_v = false → obs !! "pct_long" = None).
Proof.
  apply (appended_observation_pct_long tracker_env 11 "2024-01-02" empty_cache (mover "AAA")).
  vm_compute. reflexivity.
Defined.

(** The two cases on the rows of the sample history: a 5 percent day, and
    a day that opens at zero. *)
Example day_obj_nonzero_open :
  day_obj "2024-01-03" 10 10.5 !! "pct_long" = Some (JFloat 5).
Proof. vm_compute. reflexivity. Qed.

Example day_obj_zero_open :
  day_obj "2024-01-08" 0 1.25 !! "pct_long" = None
  ∧ day_obj "2024-01-08" 0 1.25 !! "open" = Some (JFloat 0).
Proof. vm_compute. split; reflexivity. Qed.

(** ** One day per key and run *)

(** One pass over one mover appends one observation at most, however many
    rows the history offers. *)
Lemma process_item_appends_one E max_days ev d it cache' b key :
  process_item E max_days ev (JDict d) it = Ok (cache', b) →
  ∃ d', cache' = JDict d'
        ∧ (d' !! key = d !! key
           ∨ ∃ obs, d' !! key = Some (JList (match d !! key with
                                             | Some (JList l) => l
                                             | _ => []
                                             end ++ [obs]))).
Proof.
  intros H. apply process_item_inv in H as [[_ ->]|[_ H]]; [eauto|].
  destruct H as (d0 & ticker & n & event_d & start_dt & end_dt & hist & cand & o & c
                 & [= <-] & _ & _ & _ & _ & _ & _ & _ & ->).
  eexists; split; [done|]. unfold append_day.
  destruct (decide (ticker +:+ "|" +:+ ev = key)) as [<-|Hne].
  - right. rewrite lookup_insert_eq. eauto.
  - left. by rewrite lookup_insert_ne.
Qed.

(** C1, at the failing input: the ticker AAA is listed twice under
    2024-01-02 (among the gainers and among the losers), the cache is empty
    and the history offers five completed days. One call appends two
    observations under the key AAA|2024-01-02 and returns 2; with AAA
    listed once the same call appends one. *)
Theorem duplicate_mover_appends_twice :
  fetch_one_round tracker_env movers_twice empty_cache 11
  = Ok (JDict {[ "AAA|2024-01-02" :=
                   JList [JDict (day_obj "2024-01-03" 10 10.5);
                          JDict (day_obj "2024-01-04" 10.5 10)] ]}, 2)
  ∧ fetch_one_round tracker_env movers_one empty_cache 11
    = Ok (JDict {[ "AAA|2024-01-02" := JList [JDict (day_obj "2024-01-03" 10 10.5)] ]}, 1).
Proof. split; vm_compute; reflexivity. Qed.

(** C10, at the failing input: the first mover of 2024-01-02 has a symbol
    made of two blanks. [_clean_sym] raises [IndexError] on it, in the
    Tracker and in the Aggregator alike, and the exception leaves both
    top-level functions: the sound mover AAA that follows is not processed
    (the cache file stays empty), although on its own it is. *)
Theorem blank_symbol_escapes :
  fetch_one_round tracker_env movers_blank empty_cache 11 = Raise IndexError
  ∧ populate_movers_csv.populate_from_movers aggregator_env
      (populate_movers_csv.Loaded movers_blank) empty_cache = Raise IndexError
  ∧ cache_file_after tracker_env movers_blank empty_cache 11 = empty_cache
  ∧ series (cache_file_after tracker_env movers_one empty_cache 11) "AAA|2024-01-02"
    = Some (JList [JDict (day_obj "2024-01-03" 10 10.5)]).
Proof. repeat split; vm_compute; reflexivity. Qed.

End TrackerFacts.

(* ===================================================================== *)
(** * The Aggregator                                                      *)
(* ===================================================================== *)

Module AggregatorFacts.
Import populate_movers_csv Samples Notions.

(** The Aggregator on the same kinds of input: a date that does not parse
    is only a label for it (both records give their rows), and a string in
    place of a series makes it raise. *)
Example aggregator_on_malformed_input :
  (∃ rows, populate_from_movers aggregator_env
             (Loaded movers_bad_date) empty_cache = Ok (Some rows, 17)
           ∧ cell rows 1 0 = Some "AAA" ∧ cell rows 1 1 = Some "2024-01-02"
           ∧ cell rows 3 0 = Some "BBB" ∧ cell rows 3 1 = Some "not-a-date")
  ∧ populate_from_movers aggregator_env
      (Loaded movers_one) cache_string = Raise AttributeError.
Proof.
  split; [eexists; split; [vm_compute; reflexivity|]|]; repeat split; vm_compute; reflexivity.
Qed.

(** ** The header *)

Lemma header_index_day (i : nat) :
  i < 11 →
  HEADER_INDEX !! col_pct i = Some (6 + 3 * i)
  ∧ HEADER_INDEX !! col_open i = Some (7 + 3 * i)
  ∧ HEADER_INDEX !! col_close i = Some (8 + 3 * i)
  ∧ HEADER !! (6 + 3 * i) = Some (col_pct i).
Proof.
  intros Hi.
  do 11 (destruct i as [|i]; [vm_compute; repeat split; reflexivity|]). lia.
Qed.

Lemma set_cell_pct row i v :
  i < 11 → set_cell row (col_pct i) v = Ok (<[6 + 3 * i := v]> row).
Proof. intros Hi. unfold set_cell. by destruct (header_index_day i Hi) as (-> & _). Qed.

Lemma set_cell_open row i v :
  i < 11 → set_cell row (col_open i) v = Ok (<[7 + 3 * i := v]> row).
Proof. intros Hi. unfold set_cell. by destruct (header_index_day i Hi) as (_ & -> & _). Qed.

Lemma set_cell_close row i v :
  i < 11 → set_cell row (col_close i) v = Ok (<[8 + 3 * i := v]> row).
Proof. intros Hi. unfold set_cell. by destruct (header_index_day i Hi) as (_ & _ & -> & _). Qed.

Lemma set_cell_length row col v row' :
  set_cell row col v = Ok row' → length row' = length row.
Proof.
  unfold set_cell. destruct (HEADER_INDEX !! col); [|discriminate].
  intros [= <-]. apply length_insert.
Qed.

(** ** Reading an observation back *)

(** C5, as amended. For an observation that the Tracker builds from an
    open that is not zero, the Aggregator reads back the rounded open and
    close and exactly the stored [pct_long] (its fallback does not run);
    and its fallback formula, given the very open and close the Tracker
    computed from, yields the same value. *)
Theorem pct_long_read_back (B : Builtins) (date : string) (open_v close_v : float) :
  float_ne0 open_v = true →
  day_values B (JDict (fetch_subsequent.day_obj date open_v close_v))
  = Ok (Some (py_round 2 open_v), Some (py_round 2 close_v),
        Some (py_round 2 ((close_v - open_v) / open_v * 100)%float))
  ∧ fallback_pct (Some open_v) (Some close_v) None
    = fetch_subsequent.pct_long_of open_v close_v.
Proof.
  intros Hne. split.
  - destruct (TrackerFacts.day_obj_fields date open_v close_v) as (_ & Ho & Hc).
    pose proof (TrackerFacts.day_obj_pct_long date open_v close_v) as Hp.
    unfold fetch_subsequent.pct_long_of in Hp. rewrite Hne in Hp. simpl in Hp.
    unfold day_values, py_get. rewrite Ho, Hc, Hp. reflexivity.
  - unfold fallback_pct, fetch_subsequent.pct_long_of. by rewrite Hne.
Qed.

(** An instance: open 10, close 10.5. *)
Lemma pct_long_read_back_witness :
  day_values builtins0 (JDict (fetch_subsequent.day_obj "2024-01-03" 10 10.5))
  = Ok (Some (py_round 2 10), Some (py_round 2 10.5),
        Some (py_round 2 ((10.5 - 10) / 10 * 100)%float))
  ∧ fallback_pct (Some 10%float) (Some 10.5%float) None
    = fetch_subsequent.pct_long_of 10 10.5.
Proof. apply (pct_long_read_back builtins0 "2024-01-03" 10 10.5). reflexivity. Defined.

(** C5 as stated fails: the Tracker computes [pct_long] from the prices
    as fetched but stores the prices rounded to two decimals. For open
    0.014 and close 0.016 it stores [pct_long] 14.29 with open 0.01 and
    close 0.02, from which the fallback of the Aggregator computes 100. *)
Lemma recomputed_pct_differs :
  float_ne0 0.014 = true
  ∧ fetch_subsequent.day_obj "2024-01-05" 0.014 0.016 !! "pct_long" = Some (JFloat 14.29)
  ∧ day_values builtins0
      (JDict (delete "pct_long" (fetch_subsequent.day_obj "2024-01-05" 0.014 0.016)))
    = Ok (Some 0.01%float, Some 0.02%float, Some 100%float)
  ∧ _fmt_pct (Some 14.29%float) = "+14.29%"
  ∧ _fmt_pct (Some 100%float) = "+100.00%"
  ∧ PrimFloat.eqb 14.29 100 = false.
Proof. repeat split; vm_compute; reflexivity. Qed.

(** ** Observations with a zero open *)

Lemma bucket_append_other buckets key' j p buckets' key i :
  bucket_append buckets key' j p = Ok buckets' →
  j ≠ i →
  bucket_at buckets' key i = bucket_at buckets key i.
Proof.
  unfold bucket_append, bucket_at. intros H Hne.
  destruct (buckets !! key') as [lists|] eqn:Hk; [|discriminate].
  destruct (lists !! j) as [R|]; [|discriminate].
  inversion H; subst; clear H.
  destruct (decide (key' = key)) as [->|Hkey].
  - rewrite lookup_insert_eq, Hk. by apply list_lookup_insert_ne.
  - by rewrite lookup_insert_ne.
Qed.

Lemma record_pct_other label j pct buckets buckets' key i :
  record_pct label j pct buckets = Ok buckets' →
  j ≠ i →
  bucket_at buckets' key i = bucket_at buckets key i.
Proof.
  unfold record_pct. intros H Hne. destruct pct as [p|]; [|by inversion H].
  destruct (String.eqb label "gainer");
    apply bind_Ok in H as (b1 & H1 & H2);
    rewrite (bucket_append_other _ _ _ _ _ key i H2 Hne);
    apply (bucket_append_other _ _ _ _ _ key i H1 Hne).
Qed.


Section ZeroOpen.
Variable B : Builtins.
Variable l : list json.
Variable i : nat.
Variable m : gmap string json.
Variables (o : float) (cv : option float).
Hypothesis Hi : i < 11.
Hypothesis Hobs : l !! i = Some (JDict m).
Hypothesis Hopen : _ensure_number B (default JNull (m !! "open")) = Ok (Some o).
Hypothesis Hzero : float_ne0 o = false.
Hypothesis Hpct : m !! "pct_long" = None.
Hypothesis Hclose : _ensure_number B (default JNull (m !! "close")) = Ok cv.








End ZeroOpen.




(** ** The summary rows *)

Lemma compound_loop_fold (R : list float) (prod : float) :
  compound_loop prod R
  = fold_left (λ acc x, acc * x)%float ((λ r, 1 + r / 100)%float <$> R) prod.
Proof. revert prod. induction R as [|r R IH]; intros prod; simpl; [done|apply IH]. Qed.

Lemma count_wins_filter (R : list float) :
  count_wins R = length (filter (λ r, Is_true (PrimFloat.ltb 0 r)) R).
Proof.
  induction R as [|r R IH]; simpl; [done|].
  rewrite filter_cons. destruct (PrimFloat.ltb 0 r).
  - rewrite decide_True by done. simpl. by rewrite IH.
  - rewrite decide_False by (by intros []). by rewrite IH.
Qed.

Lemma total_pct_spec R : total_pct R = spec_compounded_total R.
Proof. unfold total_pct, spec_compounded_total. by rewrite compound_loop_fold. Qed.

Lemma win_rate_spec R : win_rate R = spec_win_rate R.
Proof. unfold win_rate, spec_win_rate. by rewrite count_wins_filter. Qed.

Lemma avg_spec R : avg R = spec_average R.
Proof. reflexivity. Qed.

Lemma summary_step_spec lists rows j :
  j < 11 →
  summary_step lists rows j
  = Ok (match default [] (lists !! j) with
        | [] => rows
        | R =>
            {| total_row := <[6 + 3 * j := _fmt_pct (Some (py_round 2 (total_pct R)))]> (total_row rows);
               win_row := <[6 + 3 * j := _fmt_pct (Some (py_round 2 (win_rate R)))]> (win_row rows);
               avg_row := <[6 + 3 * j := _fmt_pct (Some (py_round 2 (avg R)))]> (avg_row rows) |}
        end).
Proof.
  intros Hj. unfold summary_step.
  destruct (header_index_day j Hj) as (-> & _).
  by destruct (default [] (lists !! j)).
Qed.

Lemma summary_step_width lists rows j rows' :
  j < 11 → full_width rows → summary_step lists rows j = Ok rows' → full_width rows'.
Proof.
  intros Hj (H1 & H2 & H3). rewrite summary_step_spec by done. intros [= <-].
  destruct (default [] (lists !! j)); [done|].
  unfold full_width; simpl. by rewrite !length_insert.
Qed.

Lemma summary_step_other lists rows j rows' c :
  j < 11 → c ≠ 6 + 3 * j →
  summary_step lists rows j = Ok rows' → cells3 rows' c = cells3 rows c.
Proof.
  intros Hj Hc. rewrite summary_step_spec by done. intros [= <-].
  destruct (default [] (lists !! j)); [done|].
  unfold cells3; simpl. by rewrite !list_lookup_insert_ne.
Qed.

Lemma summary_step_at lists rows i rows' :
  i < 11 → full_width rows →
  (default [] (lists !! i) = [] → cells3 rows (6 + 3 * i) = expected3 []) →
  summary_step lists rows i = Ok rows' →
  cells3 rows' (6 + 3 * i) = expected3 (default [] (lists !! i)).
Proof.
  intros Hi (H1 & H2 & H3) Hblank. rewrite summary_step_spec by done. intros [= <-].
  destruct (default [] (lists !! i)) as [|r R]; [by apply Hblank|].
  assert (6 + 3 * i < length HEADER) by (vm_compute length; lia).
  unfold cells3, expected3; simpl.
  by rewrite !list_lookup_insert_eq by lia.
Qed.

Lemma blank_row_cell c : c < length HEADER → blank_row !! c = Some EmptyString.
Proof. intros Hc. unfold blank_row. by apply lookup_replicate_2. Qed.

Lemma group_rows_spec buckets (g : string * string) :
  ∃ r, group_rows buckets g = Ok r
       ∧ ∀ i, i < 11 → cells3 r (6 + 3 * i) = expected3 (returns_of buckets g.1 i).
Proof.
  unfold group_rows, returns_of.
  set (lists := default (replicate 11 []) (buckets !! g.1)).
  set (init := {| total_row := _; win_row := _; avg_row := _ |}).
  assert (full_width init) as Hw.
  { unfold full_width, init; cbn [total_row win_row avg_row].
    rewrite !length_insert. unfold blank_row. by rewrite length_replicate. }
  assert (∀ i, i < 11 → cells3 init (6 + 3 * i) = expected3 []) as Hinit.
  { intros i Hi. unfold cells3, init, expected3; cbn [total_row win_row avg_row summary_cell].
    rewrite !list_lookup_insert_ne by lia.
    rewrite blank_row_cell by (vm_compute length; lia). done. }
  destruct (foldM_total_in full_width (summary_step lists) (seq 0 11)) with (s := init)
    as (r & Hr & _); [|done|].
  { intros s x Hx Hs. apply elem_of_seq in Hx.
    rewrite summary_step_spec by lia. eexists; split; [done|].
    eapply summary_step_width; [| exact Hs | apply summary_step_spec]; lia. }
  exists r. split; [done|]. intros i Hi. revert Hr.
  apply (foldM_establish
           (λ s, full_width s
                 ∧ (default [] (lists !! i) = [] → cells3 s (6 + 3 * i) = expected3 []))
           (λ s, cells3 s (6 + 3 * i) = expected3 (default [] (lists !! i)))
           _ i (seq 0 11)).
  - intros s y s' Hy [Hs Hb] Hstep. apply elem_of_seq in Hy. split.
    + eapply summary_step_width; [| exact Hs | exact Hstep]; lia.
    + intros He. destruct (decide (y = i)) as [->|Hne].
      * rewrite summary_step_spec in Hstep by lia. rewrite He in Hstep.
        inversion Hstep; subst. by apply Hb.
      * rewrite (summary_step_other lists s y s') by (done || lia). by apply Hb.
  - intros s s' [Hs Hb] Hstep. by apply (summary_step_at lists s).
  - intros s y s' Hy Hne [Hs Hb] Hq Hstep. apply elem_of_seq in Hy.
    rewrite (summary_step_other lists s y s') by (done || lia). done.
  - split; [done|]. intros _. by apply Hinit.
  - right. apply elem_of_seq. lia.
Qed.

(** C4: [_compute_summary_rows] returns thirteen rows, a spacer and three
    rows for each cohort in the order of [groups]. For the cohort number [g]
    and the offset [i], the column Day [i+1] % of its three rows is blank
    when the cohort has no return at that offset, and else holds the
    compounded total, the win rate and the average of the specification,
    each rounded to two decimals and written with sign and percent sign. In
    particular the returns 10 and -10 of gainer-long at offset 1 give
    -1.00%, +50.00% and +0.00%. *)
Theorem summary_rows_formulas :
  (∀ buckets : gmap string (list (list float)),
     ∃ rows, _compute_summary_rows buckets = Ok rows
       ∧ length rows = 13
       ∧ ∀ g key label i,
           groups !! g = Some (key, label) → i < 11 →
           HEADER !! (6 + 3 * i) = Some (col_pct i)
           ∧ match returns_of buckets key i with
             | [] =>
                 cell rows (1 + 3 * g) (6 + 3 * i) = Some EmptyString
                 ∧ cell rows (2 + 3 * g) (6 + 3 * i) = Some EmptyString
                 ∧ cell rows (3 + 3 * g) (6 + 3 * i) = Some EmptyString
             | r :: R =>
                 cell rows (1 + 3 * g) (6 + 3 * i)
                 = Some (_fmt_pct (Some (py_round 2 (spec_compounded_total (r :: R)))))
                 ∧ cell rows (2 + 3 * g) (6 + 3 * i)
                   = Some (_fmt_pct (Some (py_round 2 (spec_win_rate (r :: R)))))
                 ∧ cell rows (3 + 3 * g) (6 + 3 * i)
                   = Some (_fmt_pct (Some (py_round 2 (spec_average (r :: R)))))
             end)
  ∧ (∃ rows, _compute_summary_rows buckets_example = Ok rows
       ∧ returns_of buckets_example "gainer_long" 0 = [10; -10]%float
       ∧ cell rows 1 6 = Some "-1.00%"
       ∧ cell rows 2 6 = Some "+50.00%"
       ∧ cell rows 3 6 = Some "+0.00%").
Proof.
  split.
  - intros buckets.
    destruct (group_rows_spec buckets ("gainer_long", "Gainer Long")) as (r0 & E0 & H0).
    destruct (group_rows_spec buckets ("gainer_short", "Gainer Short")) as (r1 & E1 & H1).
    destruct (group_rows_spec buckets ("loser_long", "Loser Long")) as (r2 & E2 & H2).
    destruct (group_rows_spec buckets ("loser_short", "Loser Short")) as (r3 & E3 & H3).
    exists [blank_row; total_row r0; win_row r0; avg_row r0;
            total_row r1; win_row r1; avg_row r1;
            total_row r2; win_row r2; avg_row r2;
            total_row r3; win_row r3; avg_row r3].
    split.
    { unfold _compute_summary_rows, groups. cbn [foldM].
      rewrite E0. cbn [mbind exc_bind]. rewrite E1. cbn [mbind exc_bind].
      rewrite E2. cbn [mbind exc_bind]. rewrite E3. reflexivity. }
    split; [reflexivity|].
    intros g key label i Hg Hi. split; [by apply header_index_day|].
    assert (∀ r, cells3 r (6 + 3 * i) = expected3 (returns_of buckets key i) →
              match returns_of buckets key i with
              | [] =>
                  total_row r !! (6 + 3 * i) = Some EmptyString
                  ∧ win_row r !! (6 + 3 * i) = Some EmptyString
                  ∧ avg_row r !! (6 + 3 * i) = Some EmptyString
              | x :: R =>
                  total_row r !! (6 + 3 * i)
                  = Some (_fmt_pct (Some (py_round 2 (spec_compounded_total (x :: R)))))
                  ∧ win_row r !! (6 + 3 * i)
                    = Some (_fmt_pct (Some (py_round 2 (spec_win_rate (x :: R)))))
                  ∧ avg_row r !! (6 + 3 * i)
                    = Some (_fmt_pct (Some (py_round 2 (spec_average (x :: R)))))
              end) as Hcells.
    { intros r Hr. unfold cells3, expected3 in Hr.
      apply pair_equal_spec in Hr as [Hr Ha]. apply pair_equal_spec in Hr as [Ht Hw].
      rewrite Ht, Hw, Ha.
      destruct (returns_of buckets key i) as [|x R]; [done|].
      by rewrite <- total_pct_spec, <- win_rate_spec, <- avg_spec. }
    do 4 (destruct g as [|g];
          [inversion Hg; subst; cbn [fst] in *; apply Hcells; auto|]).
    discriminate.
  - eexists. split; [vm_compute; reflexivity|].
    repeat split; vm_compute; reflexivity.
Qed.

(** ** The event date of a row *)

Lemma header_index_fixed :
  HEADER_INDEX !! "ticker" = Some 0
  ∧ HEADER_INDEX !! "event_date" = Some 1
  ∧ HEADER_INDEX !! "mover_type" = Some 2
  ∧ HEADER_INDEX !! "direction" = Some 3
  ∧ HEADER_INDEX !! "Points Change" = Some 4
  ∧ HEADER_INDEX !! "Event Day %Change" = Some 5
  ∧ HEADER !! 1 = Some "event_date".
Proof. vm_compute. repeat split; reflexivity. Qed.

Lemma set_cell_at row col v idx :
  HEADER_INDEX !! col = Some idx → set_cell row col v = Ok (<[idx := v]> row).
Proof. intros H. unfold set_cell. by rewrite H. Qed.

Lemma set_cell_keeps row col v idx row' c x :
  HEADER_INDEX !! col = Some idx → idx ≠ c →
  row !! c = Some x → set_cell row col v = Ok row' → row' !! c = Some x.
Proof.
  intros Hidx Hne Hx. rewrite (set_cell_at row col v idx Hidx). intros [= <-].
  by rewrite list_lookup_insert_ne.
Qed.

Lemma collect_step_keeps_event_date B label days_list st j st' x :
  j < 11 → st.1 !! 1 = Some x →
  collect_step B label days_list st j = Ok st' → st'.1 !! 1 = Some x.
Proof.
  intros Hj Hx H. unfold collect_step in H.
  destruct (header_index_day j Hj) as (Hp & Ho & Hc & _).
  apply bind_Ok in H as (n & _ & H). destruct (j <? n).
  - apply bind_Ok in H as (d & _ & H).
    apply bind_Ok in H as ([[ov clv] pv] & _ & H).
    apply bind_Ok in H as (r1 & H1 & H).
    apply bind_Ok in H as (r2 & H2 & H).
    apply bind_Ok in H as (b' & _ & H).
    inversion H; subst; cbn [fst].
    eapply (set_cell_keeps r1); [exact Hc|lia| |exact H2].
    eapply (set_cell_keeps st.1); [exact Ho|lia|exact Hx|exact H1].
  - apply bind_Ok in H as (r1 & H1 & H).
    apply bind_Ok in H as (r2 & H2 & H).
    apply bind_Ok in H as (r3 & H3 & H).
    inversion H; subst; cbn [fst].
    eapply (set_cell_keeps r2); [exact Hp|lia| |exact H3].
    eapply (set_cell_keeps r1); [exact Hc|lia| |exact H2].
    eapply (set_cell_keeps st.1); [exact Ho|lia|exact Hx|exact H1].
Qed.

Lemma direction_step_keeps_event_date B direction days_list row j row' x :
  j < 11 → row !! 1 = Some x →
  direction_step B direction days_list row j = Ok row' → row' !! 1 = Some x.
Proof.
  intros Hj Hx H. unfold direction_step in H.
  destruct (header_index_day j Hj) as (Hp & _).
  apply bind_Ok in H as (n & _ & H). destruct (j <? n).
  - apply bind_Ok in H as (d & _ & H).
    apply bind_Ok in H as ([[ov clv] pv] & _ & H).
    destruct pv; (eapply (set_cell_keeps row); [exact Hp|lia|exact Hx|exact H]).
  - eapply (set_cell_keeps row); [exact Hp|lia|exact Hx|exact H].
Qed.

Lemma direction_row_keeps_event_date B days_list base_row direction row x :
  base_row !! 1 = Some x →
  direction_row B days_list base_row direction = Ok row → row !! 1 = Some x.
Proof.
  intros Hx H. unfold direction_row in H.
  apply bind_Ok in H as (r0 & Hr0 & H).
  destruct header_index_fixed as (_ & _ & _ & Hd & _).
  revert H. apply (foldM_invariant_in (λ r, r !! 1 = Some x)).
  - intros s j s' Hj Hs. apply elem_of_seq in Hj.
    apply direction_step_keeps_event_date; [lia|done].
  - eapply (set_cell_keeps base_row); [exact Hd|lia|exact Hx|exact Hr0].
Qed.

(** The Aggregator takes the date key of a record as a label: whenever
    it has processed a mover, both rows of the mover carry the key in
    the column event_date. *)
Lemma item_step_event_date E cache date_key mover_type st it st' :
  item_step E cache date_key mover_type st it = Ok st' →
  ∃ long_row short_row,
    st'.1 = st.1 ++ [long_row; short_row]
    ∧ long_row !! 1 = Some date_key
    ∧ short_row !! 1 = Some date_key.
Proof.
  intros H. unfold item_step in H.
  destruct header_index_fixed as (Ht & He & Hm & _ & Hpc & Hec & _).
  apply bind_Ok in H as (sym & _ & H).
  apply bind_Ok in H as (ticker & _ & H).
  apply bind_Ok in H as ([pct_f pts] & _ & H).
  apply bind_Ok in H as (r1 & H1 & H).
  apply bind_Ok in H as (r2 & H2 & H).
  apply bind_Ok in H as (r3 & H3 & H).
  apply bind_Ok in H as (r4 & H4 & H).
  apply bind_Ok in H as (r5 & H5 & H).
  apply bind_Ok in H as ([base_row buckets] & Hfold & H).
  apply bind_Ok in H as (long_row & Hlong & H).
  apply bind_Ok in H as (short_row & Hshort & H).
  inversion H; subst; clear H. cbn [fst].
  assert (r5 !! 1 = Some date_key) as Hr5.
  { eapply (set_cell_keeps r4); [exact Hec|lia| |exact H5].
    eapply (set_cell_keeps r3); [exact Hpc|lia| |exact H4].
    eapply (set_cell_keeps r2); [exact Hm|lia| |exact H3].
    rewrite (set_cell_at r1 _ _ 1 He) in H2. inversion H2; subst.
    apply list_lookup_insert_eq. apply set_cell_length in H1. rewrite H1.
    unfold blank_row. rewrite length_replicate. vm_compute. lia. }
  assert (base_row !! 1 = Some date_key) as Hbase.
  { revert Hfold.
    apply (foldM_invariant_in (λ s, s.1 !! 1 = Some date_key)); [|done].
    intros s j s' Hj Hs. apply elem_of_seq in Hj.
    apply collect_step_keeps_event_date; [lia|done]. }
  exists long_row, short_row. split; [done|].
  split; eapply direction_row_keeps_event_date; eassumption.
Qed.

End AggregatorFacts.

(* ===================================================================== *)
(** * Malformed persisted input                                           *)
(* ===================================================================== *)

Module MalformedInputFacts.
Import fetch_subsequent Samples Notions.

(** C9, at the failing input: the cache holds the string "x" where the
    series of AAA|2024-01-02 should be. The Tracker replaces the string
    by a list (lines 207-208 guard the append) but has taken the index of
    the candidate day from the length of the string (lines 97 and 154):
    it stores the second day after the event, 2024-01-04, as the first
    observation, and the next call appends the same day again. The
    Aggregator, on the same cache, raises [AttributeError] and writes no
    report. Neither skips the key and leaves the value. *)
Theorem nonlist_cache_value_mishandled :
  series cache_string "AAA|2024-01-02" = Some (JStr "x")
  ∧ (∃ cache1 cache2,
       fetch_one_round tracker_env movers_one cache_string 11 = Ok (cache1, 1)
       ∧ series cache1 "AAA|2024-01-02"
         = Some (JList [JDict (day_obj "2024-01-04" 10.5 10)])
       ∧ fetch_one_round tracker_env movers_one cache1 11 = Ok (cache2, 1)
       ∧ series cache2 "AAA|2024-01-02"
         = Some (JList [JDict (day_obj "2024-01-04" 10.5 10);
                        JDict (day_obj "2024-01-04" 10.5 10)]))
  ∧ series (cache_file_after tracker_env movers_one empty_cache 11) "AAA|2024-01-02"
    = Some (JList [JDict (day_obj "2024-01-03" 10 10.5)])
  ∧ populate_movers_csv.populate_from_movers aggregator_env
      (populate_movers_csv.Loaded movers_one) cache_string = Raise AttributeError.
Proof.
  split; [reflexivity|]. split; [|split; vm_compute; reflexivity].
  let v := eval vm_compute in (fetch_one_round tracker_env movers_one cache_string 11) in
  match v with
  | Ok (?cache1, _) =>
      let w := eval vm_compute in (fetch_one_round tracker_env movers_one cache1 11) in
      match w with Ok (?cache2, _) => exists cache1, cache2 end
  end.
  repeat split; vm_compute; reflexivity.
Qed.

End MalformedInputFacts.

(* ===================================================================== *)
(** * The Acquisition                                                     *)
(* ===================================================================== *)

Module AcquisitionFacts.
Import yahoo_top_movers Samples MoreSamples Notions AcquisitionNotions.

Lemma persist_cases E file record file' :
  persist E file record = Ok file' →
  file' = file
  ∨ ∃ m, default (JDict ∅) file = JDict m
         ∧ m !! date_str E = None
         ∧ file' = Some (JDict (<[date_str E := record]> m)).
Proof.
  unfold persist. intros H.
  destruct (default (JDict ∅) file) as [| | | | | |m]; try discriminate.
  - destruct (substringb _ _); [|discriminate]. left. by inversion H.
  - destruct (existsb _ _); [|discriminate]. left. by inversion H.
  - destruct (m !! date_str E) eqn:Hm; [left; by inversion H|].
    destruct (save_ok E); [|discriminate]. right. exists m. by inversion H.
Qed.

Lemma run_and_persist_cases E top_n file file' :
  run_and_persist E top_n file = Ok file' →
  file' = file
  ∨ ∃ m record, file' = Some (JDict (<[date_str E := record]> m)).
Proof.
  unfold run_and_persist. intros H.
  destruct (is_market_day E); simpl in H; [|left; by inversion H].
  destruct (after_cutoff_et E 20); simpl in H; [|left; by inversion H].
  destruct (scrape_top_gainers_and_losers E top_n) as [[heap gainers] losers].
  destruct (gainers ++ losers) as [|c cs]; [left; by inversion H|].
  apply bind_Ok in H as (heap1 & _ & H).
  apply bind_Ok in H as (heap2 & _ & H).
  destruct (has_data heap2 (c :: cs)); simpl in H; [|left; by inversion H].
  apply persist_cases in H as [->|(m & _ & _ & ->)]; eauto.
Qed.

Lemma persist_existing E m r record :
  m !! date_str E = Some r →
  persist E (Some (JDict m)) record = Ok (Some (JDict m)).
Proof. intros Hm. unfold persist. simpl. by rewrite Hm. Qed.

(** A store that holds a record for today is left as it is. *)
Lemma existing_record_kept E top_n m r :
  m !! date_str E = Some r →
  movers_file_after E top_n (Some (JDict m)) = Some (JDict m).
Proof.
  intros Hm. unfold movers_file_after, run_and_persist.
  destruct (is_market_day E); cbn [negb]; [|done].
  destruct (after_cutoff_et E 20); cbn [negb]; [|done].
  destruct (scrape_top_gainers_and_losers E top_n) as [[heap gainers] losers].
  destruct (gainers ++ losers) as [|c cs]; [done|].
  destruct (enrich_pool E heap gainers) as [heap1|]; cbn [mbind exc_bind]; [|done].
  destruct (enrich_pool E heap1 losers) as [heap2|]; cbn [mbind exc_bind]; [|done].
  destruct (has_data heap2 (c :: cs)); cbn [negb]; [|done].
  by rewrite (persist_existing E m r).
Qed.

Lemma movers_file_after_cases E top_n file :
  movers_file_after E top_n file = file
  ∨ ∃ m record, movers_file_after E top_n file = Some (JDict (<[date_str E := record]> m)).
Proof.
  unfold movers_file_after.
  destruct (run_and_persist E top_n file) as [file'|] eqn:H; [|by left].
  apply run_and_persist_cases in H as [->|H]; eauto.
Qed.

(** C7: a call of [run_and_persist] on a store that holds a record under
    today's date leaves the store as it is; hence a second call in the same
    environment changes nothing, and neither does a later call on the same
    date after a call that persisted, whatever the sources offer then. The
    store is a dictionary, so a date occurs once. *)
Theorem acquisition_idempotent (E : Env) (top_n : Z) (file : option json) :
  (∀ m r, file = Some (JDict m) → m !! date_str E = Some r →
          movers_file_after E top_n file = file)
  ∧ movers_file_after E top_n (movers_file_after E top_n file)
    = movers_file_after E top_n file
  ∧ (∀ E' top_n',
       date_str E' = date_str E →
       movers_file_after E top_n file ≠ file →
       movers_file_after E' top_n' (movers_file_after E top_n file)
       = movers_file_after E top_n file).
Proof.
  repeat split.
  - intros m r -> Hm. by apply (existing_record_kept E top_n m r).
  - destruct (movers_file_after_cases E top_n file) as [Heq|(m & record & Heq)].
    + by rewrite !Heq.
    + rewrite Heq. apply (existing_record_kept E top_n _ record), lookup_insert_eq.
  - intros E' top_n' Hdate Hne.
    destruct (movers_file_after_cases E top_n file) as [Heq|(m & record & Heq)]; [done|].
    rewrite Heq. apply (existing_record_kept E' top_n' _ record).
    rewrite Hdate. apply lookup_insert_eq.
Qed.

(** An instance: on the evening of 2024-01-02
    the first call writes the record, the second changes nothing. *)
Lemma acquisition_idempotent_witness :
  (∃ m r, movers_file_after acquisition_env 5 None = Some (JDict m)
          ∧ m !! "2024-01-02" = Some r ∧ size m = 1)
  ∧ movers_file_after acquisition_env 5 (movers_file_after acquisition_env 5 None)
    = movers_file_after acquisition_env 5 None.
Proof.
  split.
  - eexists. eexists. split; [vm_compute; reflexivity|].
    split; vm_compute; reflexivity.
  - exact (proj1 (proj2 (acquisition_idempotent acquisition_env 5 None))).
Defined.

(** C8, at the failing inputs. The test of line 207 that stands for
    "valid numeric data" asks for a close or for a percent-change text that
    is not empty. A page whose only row reads N/A for the percent change,
    with no number in any field and no quote page, passes it: the record
    is written. A page whose row has a price and a change that are numbers
    but no sixth cell fails it: nothing is written. *)
Theorem signal_test_is_textual :
  (∃ item,
     movers_file_after acquisition_env_na 5 None
     = Some (JDict {[ "2024-01-02" := day_record acquisition_env_na [item] [] ]})
     ∧ item !! "pct_change" = Some (JStr "N/A")
     ∧ item !! "close" = Some JNull
     ∧ numeric_signal (builtins acquisition_env_na) item = false)
  ∧ (∃ heap gainers losers heap1 item,
       scrape_top_gainers_and_losers acquisition_env_price_only 5 = (heap, gainers, losers)
       ∧ enrich_pool acquisition_env_price_only heap gainers = Ok heap1
       ∧ enrich_pool acquisition_env_price_only heap1 losers = Ok [item]
       ∧ item !! "price" = Some (JStr "+5.00")
       ∧ _parse_float (builtins acquisition_env_price_only) "+5.00" = Some 5%float
       ∧ numeric_signal (builtins acquisition_env_price_only) item = true
       ∧ movers_file_after acquisition_env_price_only 5 None = None).
Proof.
  split.
  - let v := eval vm_compute in
      (scrape_top_gainers_and_losers acquisition_env_na 5) in
    match v with ([?item], _, _) => exists (<["change_pts" := JNull]> (<["close" := JNull]> (<["open" := JNull]> item))) end.
    repeat split; vm_compute; reflexivity.
  - let v := eval vm_compute in
      (scrape_top_gainers_and_losers acquisition_env_price_only 5) in
    match v with
    | (?heap, ?gainers, ?losers) =>
        let h := eval vm_compute in (enrich_pool acquisition_env_price_only heap gainers) in
        match h with
        | Ok ?heap1 => match heap1 with [?item] => exists heap, gainers, losers, heap1, item end
        end
    end.
    repeat split; vm_compute; reflexivity.
Qed.

End AcquisitionFacts.

(* ===================================================================== *)
(** * More on the Tracker                                                 *)
(* ===================================================================== *)

Module TrackerMore.
Import fetch_subsequent Samples MoreSamples Notions TrackerNotions.

(** Everything that holds when one pass over a mover appends a day. *)
Lemma process_item_appended E max_days ev cache it cache' :
  process_item E max_days ev cache it = Ok (cache', true) →
  ∃ d sym ticker n event_d start_dt end_dt hist cand cand_d o c,
    cache = JDict d
    ∧ py_get it "symbol" (JStr EmptyString) = Ok sym
    ∧ _clean_sym (builtins E) sym = Ok ticker
    ∧ ticker ≠ EmptyString
    ∧ py_len (cached_days (JDict d) (ticker +:+ "|" +:+ ev)) = Ok n
    ∧ (Z.of_nat n < max_days)%Z
    ∧ parse_event_date E ev = Some event_d
    ∧ next_day event_d = Ok start_dt
    ∧ next_day (now_date E) = Ok end_dt
    ∧ history E ticker (isoformat E start_dt) (isoformat E end_dt) = Some hist
    ∧ candidate_rows event_d hist !! n = Some cand
    ∧ parse_candidate_date E (isoformat E (row_date cand)) = Some cand_d
    ∧ before_cutoff E cand_d = false
    ∧ row_open cand = Some o
    ∧ row_close cand = Some c
    ∧ cache' = JDict (append_day d (ticker +:+ "|" +:+ ev)
                        (day_obj (isoformat E (row_date cand)) o c)).
Proof.
  unfold process_item. intros H.
  apply bind_Ok in H as (sym & Hsym & H).
  apply bind_Ok in H as (ticker & Hclean & H).
  destruct (String.eqb_spec ticker EmptyString) as [|Hne]; [by inversion H|].
  apply bind_Ok in H as (n & Hn & H).
  destruct (Z.leb_spec max_days (Z.of_nat n)); [by inversion H|].
  destruct (parse_event_date E ev) as [event_d|] eqn:Hev; [|by inversion H].
  apply bind_Ok in H as (start_dt & Hstart & H).
  apply bind_Ok in H as (end_dt & Hend & H).
  destruct (history _ _ _ _) as [hist|] eqn:Hh; [|by inversion H].
  destruct (candidate_rows event_d hist !! n) as [cand|] eqn:Hc; [|by inversion H].
  destruct (parse_candidate_date _ _) as [cand_d|] eqn:Hcd; [|by inversion H].
  destruct (before_cutoff _ _) eqn:Hcut; [by inversion H|].
  destruct (row_open cand) as [o|] eqn:Ho; [|by inversion H].
  destruct (row_close cand) as [c|] eqn:Hcl; [|by inversion H].
  apply bind_Ok in H as (c' & Hc' & H). inversion H; subst.
  destruct cache as [| | | | | |d]; simpl in Hc'; repeat case_match; try discriminate.
  inversion Hc'; subst.
  exists d, sym, ticker, n, event_d, start_dt, end_dt, hist, cand, cand_d, o, c.
  repeat split; done.
Qed.

Lemma process_item_skipped E max_days ev cache it cache' :
  process_item E max_days ev cache it = Ok (cache', false) → cache' = cache.
Proof.
  intros H. by apply TrackerFacts.process_item_inv in H as [[_ ->]|[? _]].
Qed.

(** ** Invariants of the loop state *)

Section ScanState.
Variable P : json * nat → Prop.
Variable E : Env.
Variable max_days : Z.
Variable D : string → Prop.
Hypothesis unit_preserves : ∀ ev st it cache' b,
  D ev → P st → process_item E max_days ev st.1 it = Ok (cache', b) →
  P (cache', if b then S st.2 else st.2).

Lemma step_state ev st it st' :
  D ev → P st → step E max_days ev st it = Ok st' → P st'.
Proof.
  unfold step. intros HD HP H.
  apply bind_Ok in H as ([c b] & H1 & H2). inversion H2; subst. eauto.
Qed.

Lemma for_mover_type_state ev entry st mt st' :
  D ev → P st → for_mover_type E max_days ev entry st mt = Ok st' → P st'.
Proof.
  unfold for_mover_type. intros HD HP H.
  apply bind_Ok in H as (items & _ & H).
  revert H. apply (foldM_invariant P); [|done].
  intros s x s'. by apply step_state.
Qed.

Lemma for_event_date_state movers st ev st' :
  D ev → P st → for_event_date E max_days movers st ev = Ok st' → P st'.
Proof.
  unfold for_event_date. intros HD HP.
  apply (foldM_invariant P); [|done].
  intros s x s'. by apply for_mover_type_state.
Qed.

Lemma scan_state (m : gmap string json) cache st' :
  (∀ ev, ev ∈ sorted_keys m → D ev) →
  P (cache, 0) → scan E (JDict m) cache max_days = Ok st' → P st'.
Proof.
  unfold scan. intros HD HP.
  apply (foldM_invariant_in P); [|done].
  intros s ev s' Hev. apply for_event_date_state. by apply HD.
Qed.

End ScanState.

Lemma sorted_keys_spec (m : gmap string json) (k : string) :
  k ∈ sorted_keys m ↔ k ≠ EmptyString ∧ is_Some (m !! k).
Proof.
  unfold sorted_keys, sorted. rewrite merge_sort_Permutation.
  rewrite list_elem_of_filter, list_elem_of_fmap. split.
  - intros (Hne & [k' v] & -> & Hin). split; [done|].
    apply elem_of_map_to_list in Hin. eauto.
  - intros (Hne & v & Hv). split; [done|]. exists (k, v). split; [done|].
    by apply elem_of_map_to_list.
Qed.

(** ** Series only grow *)

Lemma append_day_lookup d key obs k :
  append_day d key obs !! k
  = if decide (key = k)
    then Some (JList (match d !! key with Some (JList l) => l | _ => [] end ++ [JDict obs]))
    else d !! k.
Proof.
  unfold append_day. case_decide as Hk.
  - subst. by rewrite lookup_insert_eq.
  - by rewrite lookup_insert_ne.
Qed.

Lemma grown_from_refl cache key : grown_from cache key cache.
Proof. split; [|done]. intros l Hl. exists []. by rewrite app_nil_r. Qed.

Lemma process_item_grown cache0 key E max_days ev cache it cache' b :
  grown_from cache0 key cache →
  process_item E max_days ev cache it = Ok (cache', b) →
  grown_from cache0 key cache'.
Proof.
  intros [Hl Hs] H. destruct b; [|by apply process_item_skipped in H as ->].
  apply process_item_appended in H
    as (d & sym & ticker & n & event_d & start_dt & end_dt & hist & cand & cand_d & o & c
        & -> & _ & _ & _ & _ & _ & _ & _ & _ & _ & _ & _ & _ & _ & _ & ->).
  unfold grown_from, series in *. setoid_rewrite append_day_lookup.
  destruct (decide (ticker +:+ "|" +:+ ev = key)) as [<-|Hne]; [|done].
  split; [|eauto]. intros l Hl0. destruct (Hl l Hl0) as (l' & ->).
  exists (l' ++ [JDict (day_obj (isoformat E (row_date cand)) o c)]).
  by rewrite app_assoc.
Qed.

Lemma after_runs_grown max_days runs cache0 key cache :
  grown_from cache0 key cache →
  grown_from cache0 key (after_runs max_days runs cache).
Proof.
  revert cache. induction runs as [|[E movers] runs IH]; intros cache Hg; [done|].
  simpl. apply IH.
  apply (TrackerFacts.cache_file_after_preserves (grown_from cache0 key)); [|done].
  intros ev c it c' b. apply process_item_grown.
Qed.

(** X1: the cache is append-only. Whatever the invocations of the Tracker,
    a key that is in the cache stays in it, and a series that is a list is
    a prefix of what the cache holds under its key afterwards: no
    observation is removed, changed or moved. *)
Theorem series_only_grow (max_days : Z) (runs : list (Env * json)) (cache : json)
    (key : string) :
  (∀ l, series cache key = Some (JList l) →
        ∃ l', series (after_runs max_days runs cache) key = Some (JList (l ++ l')))
  ∧ (is_Some (series cache key) →
     is_Some (series (after_runs max_days runs cache) key)).
Proof. apply after_runs_grown, grown_from_refl. Qed.

(** ** The returned count *)

Lemma observations_insert (d : gmap string json) (k : string) (v : json) :
  observations (JDict (<[k := v]> d)) + days_in (default JNull (d !! k))
  = days_in v + observations (JDict d).
Proof.
  unfold observations.
  assert (∀ (m : gmap string json) i x, m !! i = None →
            map_fold (λ _ v n, days_in v + n) 0 (<[i := x]> m)
            = days_in x + map_fold (λ _ v n, days_in v + n) 0 m) as Hins.
  { intros m i x Hi. apply (map_fold_insert_L (λ _ v n, days_in v + n)); [|done].
    intros. lia. }
  destruct (d !! k) as [v0|] eqn:Hk; simpl.
  - rewrite <- (insert_delete_id d k v0 Hk) at 2.
    rewrite <- (insert_delete_eq d k v).
    rewrite !Hins by apply lookup_delete_eq. lia.
  - rewrite Hins by done. lia.
Qed.

Lemma observations_append (d : gmap string json) key obs :
  observations (JDict (append_day d key obs)) = S (observations (JDict d)).
Proof.
  unfold append_day.
  pose proof (observations_insert d key
                (JList (match d !! key with Some (JList l) => l | _ => [] end ++ [JDict obs])))
    as H.
  destruct (d !! key) as [[]|]; cbn [days_in default id app] in H |- *;
    rewrite ?length_app in H; cbn [length] in H; lia.
Qed.

Lemma scan_count E movers cache max_days cache' n :
  scan E movers cache max_days = Ok (cache', n) →
  observations cache' = observations cache + n.
Proof.
  destruct movers as [| | | | | |m]; try discriminate.
  intros H.
  apply (scan_state (λ st, observations st.1 = observations cache + st.2)
           E max_days (λ _, True)) in H; [done| |done|simpl; lia].
  intros ev st it c' b _ Hst Hp. cbn [fst snd] in *.
  destruct b.
  - apply process_item_appended in Hp
      as (d & sym & ticker & k & event_d & start_dt & end_dt & hist & cand & cand_d & o & c
          & Hd & _ & _ & _ & _ & _ & _ & _ & _ & _ & _ & _ & _ & _ & _ & ->).
    rewrite observations_append. rewrite Hd in Hst. lia.
  - apply process_item_skipped in Hp as ->. done.
Qed.

(** X2: the number that [fetch_one_round] returns is the number of
    observations it has added: when the write succeeds, the cache file holds
    exactly that many observations more than before, over all keys. *)
Theorem returned_count_is_growth (E : Env) (movers cache cache' : json) (max_days : Z)
    (n : nat) :
  save_ok E = true →
  fetch_one_round E movers cache max_days = Ok (cache', n) →
  observations cache' = observations cache + n.
Proof.
  intros Hsave. unfold fetch_one_round.
  destruct (yfinance_available E); simpl; [|intros [= <- <-]; lia].
  intros H. apply bind_Ok in H as ([c k] & Hscan & H).
  rewrite Hsave, andb_true_r in H. apply scan_count in Hscan.
  destruct (Nat.ltb_spec 0 k); inversion H; subst; [done|].
  replace n with 0 by lia. lia.
Qed.

(** An instance: AAA listed twice, two observations more. *)
Lemma returned_count_is_growth_witness :
  ∃ cache', fetch_one_round tracker_env movers_twice empty_cache 11 = Ok (cache', 2)
            ∧ observations cache' = observations empty_cache + 2.
Proof.
  eexists. split; [vm_compute; reflexivity|].
  apply (returned_count_is_growth tracker_env movers_twice empty_cache _ 11 2 eq_refl).
  vm_compute. reflexivity.
Defined.

(** ** Only completed sessions are appended *)

Lemma before_cutoff_false E cand_d :
  before_cutoff E cand_d = false
  ↔ (cand_d < now_date E)%Z
    ∨ (cand_d = now_date E ∧ CUTOFF_HOUR_ET * 3600 ≤ now_seconds E)%Z.
Proof.
  unfold before_cutoff.
  destruct (Z.ltb_spec (now_date E) cand_d), (Z.eqb_spec (now_date E) cand_d),
    (Z.ltb_spec (now_seconds E) (CUTOFF_HOUR_ET * 3600)); simpl; split;
    try done; try lia; intros [|[]]; lia.
Qed.

Lemma process_item_completed E cache0 key max_days ev cache it cache' b :
  grown_by_completed E cache0 key cache →
  process_item E max_days ev cache it = Ok (cache', b) →
  grown_by_completed E cache0 key cache'.
Proof.
  intros Hg H. destruct b; [|by apply process_item_skipped in H as ->].
  apply process_item_appended in H
    as (d & sym & ticker & n & event_d & start_dt & end_dt & hist & cand & cand_d & o & c
        & -> & _ & _ & _ & _ & _ & Hev & _ & _ & Hhist & Hcand & Hcd & Hcut & Ho & Hc & ->).
  unfold grown_by_completed, series in *. rewrite append_day_lookup.
  destruct (decide (ticker +:+ "|" +:+ ev = key)) as [Hk|Hne]; [|done].
  right.
  assert (completed_day E key (JDict (day_obj (isoformat E (row_date cand)) o c))) as Hday.
  { exists ticker, ev, event_d, (isoformat E start_dt), (isoformat E end_dt), hist,
      cand, cand_d, o, c.
    apply list_elem_of_lookup_2 in Hcand. unfold candidate_rows in Hcand.
    apply list_elem_of_filter in Hcand as [? ?]. repeat split; done. }
  rewrite Hk. destruct Hg as [Hsame|(l' & Hl' & Hall)].
  - exists [JDict (day_obj (isoformat E (row_date cand)) o c)]. split.
    + unfold series_list, series. by rewrite Hsame.
    + by apply Forall_singleton.
  - exists (l' ++ [JDict (day_obj (isoformat E (row_date cand)) o c)]). split.
    + rewrite Hl'. by rewrite app_assoc.
    + apply Forall_app. split; [done|]. by apply Forall_singleton.
Qed.

(** X3: completeness gating. Under every key, one invocation of the
    Tracker leaves the cache file as it is or appends, to the list it found,
    observations each of which comes from a row of the price history that
    has both prices, is dated after the event date, and whose session the
    clock has seen complete (the cutoff of 20:00 of its date is reached). *)
Theorem only_completed_days_appended (E : Env) (movers cache : json) (max_days : Z)
    (key : string) :
  grown_by_completed E cache key (cache_file_after E movers cache max_days)
  ∧ ∀ cand_d, before_cutoff E cand_d = false
              ↔ (cand_d < now_date E)%Z
                ∨ (cand_d = now_date E ∧ 20 * 3600 ≤ now_seconds E)%Z.
Proof.
  split; [|apply before_cutoff_false].
  apply (TrackerFacts.cache_file_after_preserves (grown_by_completed E cache key)).
  - intros ev c it c' b. apply process_item_completed.
  - by left.
Qed.

(** ** Nothing is appended for a record of today *)

Lemma before_cutoff_le E cand_d :
  before_cutoff E cand_d = false → (cand_d ≤ now_date E)%Z.
Proof. intros H. apply before_cutoff_false in H. lia. Qed.

Lemma cache_file_after_dict E m cache max_days (P : json * nat → Prop) :
  P (cache, 0) →
  (∀ st, scan E (JDict m) cache max_days = Ok st → P st) →
  (∀ c n, fetch_one_round E (JDict m) cache max_days = Ok (c, n) →
          ∃ c', P (c', n) ∧ (c = c' ∨ c = cache)).
Proof.
  intros H0 Hscan c n. unfold fetch_one_round.
  destruct (yfinance_available E); simpl; [|intros [= <- <-]; eauto].
  intros H. apply bind_Ok in H as ([c' k] & Hs & H). apply Hscan in Hs.
  exists c'. destruct (_ && _); inversion H; subst; eauto.
Qed.

(** X4: the Tracker waits for a later day. When the dates that parse are
    read back from their own ISO form, and no record of the mover store is
    dated before today, one invocation appends nothing: it returns 0 and
    leaves the cache file as it is, whatever the price history offers. *)
Theorem nothing_appended_on_event_day (E : Env) (m : gmap string json) (cache : json)
    (max_days : Z) :
  (∀ d d', parse_candidate_date E (isoformat E d) = Some d' → d' = d) →
  (∀ ev event_d, is_Some (m !! ev) → parse_event_date E ev = Some event_d →
                 (now_date E ≤ event_d)%Z) →
  cache_file_after E (JDict m) cache max_days = cache
  ∧ ∀ c n, fetch_one_round E (JDict m) cache max_days = Ok (c, n) → n = 0.
Proof.
  intros Hrt Hdates.
  assert (∀ st, scan E (JDict m) cache max_days = Ok st → st = (cache, 0)) as Hscan.
  { intros st. apply (scan_state (λ st, st = (cache, 0)) E max_days
                        (λ ev, is_Some (m !! ev))); [| |done].
    - intros ev st0 it c' b Hev -> Hp. cbn [fst snd] in *. destruct b.
      + apply process_item_appended in Hp
          as (d & sym & ticker & n & event_d & start_dt & end_dt & hist & cand & cand_d
              & o & c & _ & _ & _ & _ & _ & _ & Hparse & _ & _ & _ & Hcand & Hcd & Hcut & _).
        apply Hrt in Hcd as ->. apply before_cutoff_le in Hcut.
        apply list_elem_of_lookup_2 in Hcand. unfold candidate_rows in Hcand.
        apply list_elem_of_filter in Hcand as [Hlt _].
        specialize (Hdates ev event_d Hev Hparse). lia.
      + by apply process_item_skipped in Hp as ->.
    - intros ev Hev. by apply sorted_keys_spec in Hev as [_ ?]. }
  pose proof (cache_file_after_dict E m cache max_days (λ st, st = (cache, 0))
                eq_refl Hscan) as Hf.
  split.
  - unfold cache_file_after.
    destruct (fetch_one_round E (JDict m) cache max_days) as [[c n]|] eqn:Hr; [|done].
    destruct (Hf c n eq_refl) as (c' & [= -> ->] & [->| ->]); done.
  - intros c n Hr. by destruct (Hf c n Hr) as (c' & [= _ ->] & _).
Qed.

Lemma sample_dates_round_trip (d d' : Z) :
  parse_candidate_date tracker_env_event_day (isoformat tracker_env_event_day d) = Some d' →
  d' = d.
Proof.
  unfold parse_candidate_date, tracker_env_event_day, strptime_ymd, fromisoformat, isoformat.
  unfold print_date, calendar. cbn [list_find fst snd].
  repeat case_decide; subst; vm_compute; congruence.
Qed.

(** An instance: on the evening of 2024-01-02 nothing is appended for the
    record of 2024-01-02, although the history holds five days. *)
Lemma nothing_appended_on_event_day_witness :
  cache_file_after tracker_env_event_day movers_one empty_cache 11 = empty_cache
  ∧ ∀ c n, fetch_one_round tracker_env_event_day movers_one empty_cache 11 = Ok (c, n) →
           n = 0.
Proof.
  apply (nothing_appended_on_event_day tracker_env_event_day
           {[ "2024-01-02" := movers_record [mover "AAA"] [] ]} empty_cache 11).
  - apply sample_dates_round_trip.
  - intros ev event_d Hev Hparse.
    apply lookup_singleton_is_Some in Hev as <-.
    vm_compute in Hparse. inversion Hparse; subst. vm_compute. discriminate.
Defined.

(** ** Keys of other dates *)

Lemma string_length_app (a b : string) :
  String.length (a +:+ b) = String.length a + String.length b.
Proof. induction a as [|c a IH]; simpl; [done|by rewrite IH]. Qed.

Lemma substring_after (t u : string) (n : nat) :
  String.substring (String.length t) n (t +:+ u) = String.substring 0 n u.
Proof. induction t as [|c t IH]; simpl; [done|apply IH]. Qed.

(** X5: an invocation touches only the keys of its mover store. A key
    that is not of the form ticker|date for a date of the store holds after
    the invocation what it held before. *)
Theorem foreign_keys_untouched (E : Env) (m : gmap string json) (cache : json)
    (max_days : Z) (key : string) :
  (∀ ev ticker, is_Some (m !! ev) → key ≠ ticker +:+ "|" +:+ ev) →
  series (cache_file_after E (JDict m) cache max_days) key = series cache key.
Proof.
  intros Hkey.
  assert (∀ st, scan E (JDict m) cache max_days = Ok st →
                series st.1 key = series cache key) as Hscan.
  { intros st. apply (scan_state (λ st, series st.1 key = series cache key) E max_days
                        (λ ev, is_Some (m !! ev))); [| |done].
    - intros ev st0 it c' b Hev Hst Hp. cbn [fst snd] in *. destruct b.
      + apply process_item_appended in Hp
          as (d & sym & ticker & n & event_d & start_dt & end_dt & hist & cand & cand_d
              & o & c & Hd & _ & _ & _ & _ & _ & _ & _ & _ & _ & _ & _ & _ & _ & _ & ->).
        rewrite Hd in Hst. rewrite <- Hst. unfold series.
        rewrite append_day_lookup. rewrite decide_False; [done|].
        intros Heq. by apply (Hkey ev ticker).
      + by apply process_item_skipped in Hp as ->.
    - intros ev Hev. by apply sorted_keys_spec in Hev as [_ ?]. }
  pose proof (cache_file_after_dict E m cache max_days
                (λ st, series st.1 key = series cache key) eq_refl Hscan) as Hf.
  unfold cache_file_after.
  destruct (fetch_one_round E (JDict m) cache max_days) as [[c n]|] eqn:Hr; [|done].
  by destruct (Hf c n eq_refl) as (c' & Hc' & [->| ->]).
Qed.

(** An instance: the series of BBB, tracked for another date, is not
    touched by a run over the record of 2024-01-02. *)
Lemma foreign_keys_untouched_witness :
  series (cache_file_after tracker_env movers_one
            (JDict {[ "BBB|2023-12-29" := JList [] ]}) 11) "BBB|2023-12-29"
  = Some (JList []).
Proof.
  etrans; [|by instantiate (1 := series (JDict {[ "BBB|2023-12-29" := JList [] ]})
                                       "BBB|2023-12-29")].
  apply (foreign_keys_untouched tracker_env
           {[ "2024-01-02" := movers_record [mover "AAA"] [] ]}
           (JDict {[ "BBB|2023-12-29" := JList [] ]}) 11 "BBB|2023-12-29").
  intros ev ticker Hev Heq. apply lookup_singleton_is_Some in Hev as <-.
  apply (f_equal (λ s, String.substring (String.length s - 11) 11 s)) in Heq.
  rewrite string_length_app in Heq.
  change (String.length ("|" +:+ "2024-01-02")) with 11 in Heq.
  rewrite Nat.add_sub, substring_after in Heq. vm_compute in Heq. discriminate.
Defined.

(** ** How much a series can grow *)

Lemma foldM_bound {A B : Type} (μ : B → nat) (w : A → nat) (f : B → A → exc B)
    (xs : list A) :
  (∀ s x s', f s x = Ok s' → μ s' ≤ μ s + w x) →
  ∀ s s', foldM f xs s = Ok s' → μ s' ≤ μ s + sum_list_with w xs.
Proof.
  intros Hstep. induction xs as [|x xs IH]; intros s s' H; simpl in H.
  - inversion H; subst. simpl. lia.
  - apply bind_Ok in H as (s1 & H1 & H2).
    apply Hstep in H1. apply IH in H2. simpl. lia.
Qed.

Lemma hits_sum E ev key items :
  hits E ev key items
  = sum_list_with (λ it, if decide (key_of E ev it = Some key) then 1 else 0) items.
Proof.
  unfold hits. induction items as [|it items IH]; [done|].
  rewrite filter_cons. simpl. case_decide; simpl; lia.
Qed.

Lemma series_length_append d key obs k :
  series_length (JDict (append_day d key obs)) k
  ≤ series_length (JDict d) k + (if decide (key = k) then 1 else 0).
Proof.
  unfold series_length, series. rewrite append_day_lookup.
  case_decide as Hk; [|lia]. subst.
  destruct (d !! k) as [[]|]; rewrite ?length_app; simpl; lia.
Qed.

Lemma process_item_growth E max_days ev cache it cache' b key :
  process_item E max_days ev cache it = Ok (cache', b) →
  series_length cache' key
  ≤ series_length cache key + (if decide (key_of E ev it = Some key) then 1 else 0).
Proof.
  intros H. destruct b; [|apply process_item_skipped in H as ->; lia].
  apply process_item_appended in H
    as (d & sym & ticker & n & event_d & start_dt & end_dt & hist & cand & cand_d & o & c
        & -> & Hsym & Hclean & Hne & _ & _ & _ & _ & _ & _ & _ & _ & _ & _ & _ & ->).
  assert (key_of E ev it = Some (ticker +:+ "|" +:+ ev)) as Hkey.
  { unfold key_of. rewrite Hsym, Hclean. by destruct (String.eqb_spec ticker EmptyString). }
  etrans; [apply series_length_append|]. rewrite Hkey.
  repeat case_decide; try lia; congruence.
Qed.

Lemma scan_growth E (m : gmap string json) cache max_days cache' n key :
  scan E (JDict m) cache max_days = Ok (cache', n) →
  series_length cache' key ≤ series_length cache key + occurrences E m key.
Proof.
  unfold scan, occurrences.
  refine (foldM_bound (λ st : json * nat, series_length st.1 key) _ _ _ _
            (cache, 0) (cache', n)).
  intros st ev st'. unfold for_event_date.
  refine (foldM_bound (λ st : json * nat, series_length st.1 key) _ _ _ _ st st').
  intros s mt s' Hmt. unfold for_mover_type in Hmt.
  apply bind_Ok in Hmt as (items & -> & Hmt). rewrite hits_sum.
  revert Hmt.
  refine (foldM_bound (λ st : json * nat, series_length st.1 key) _ _ _ _ s s').
  intros s0 it s0' Hit. unfold step in Hit.
  apply bind_Ok in Hit as ([c b] & Hp & Hit). inversion Hit; subst. cbn [fst].
  by apply (process_item_growth E max_days ev s0.1 it c b).
Qed.

(** X6: one invocation lengthens the series under a key by at most the
    number of movers of the store that are tracked under this key; by at
    most one day, then, for a key that one mover only is tracked under,
    however many trading days the price history offers. *)
Theorem growth_bounded_by_occurrences (E : Env) (m : gmap string json) (cache : json)
    (max_days : Z) (key : string) :
  series_length (cache_file_after E (JDict m) cache max_days) key
  ≤ series_length cache key + occurrences E m key.
Proof.
  unfold cache_file_after, fetch_one_round.
  destruct (yfinance_available E); cbn [negb]; [|lia].
  destruct (scan E (JDict m) cache max_days) as [[c n]|] eqn:Hs;
    cbn [mbind exc_bind]; [|lia].
  destruct (_ && _); [|lia]. exact (scan_growth E m cache max_days c n key Hs).
Qed.

(** The sample store lists AAA once: its series grows by one day, not by
    the five that the history offers. *)
Example growth_of_single_mover :
  occurrences tracker_env {[ "2024-01-02" := movers_record [mover "AAA"] [] ]}
    "AAA|2024-01-02" = 1
  ∧ series_length (cache_file_after tracker_env movers_one empty_cache 11) "AAA|2024-01-02"
    = 1
  ∧ length (candidate_rows 738887 five_days) = 5.
Proof. repeat split; vm_compute; reflexivity. Qed.

End TrackerMore.

(* ===================================================================== *)
(** * Symbols                                                             *)
(* ===================================================================== *)

Module SymbolFacts.
Import StringNotions.

Lemma is_space_upper (c : ascii) : is_space (upper_char c) = is_space c.
Proof. by destruct c as [[] [] [] [] [] [] [] []]. Qed.

Lemma upper_char_idem (c : ascii) : upper_char (upper_char c) = upper_char c.
Proof. by destruct c as [[] [] [] [] [] [] [] []]. Qed.

Lemma str_rev_involutive (s : string) : str_rev (str_rev s) = s.
Proof.
  unfold str_rev. rewrite list_ascii_of_string_of_list_ascii, rev_involutive.
  apply string_of_list_ascii_of_string.
Qed.

Lemma nospace_cons c s : nospace (String c s) ↔ is_space c = false ∧ nospace s.
Proof.
  unfold nospace. simpl. split.
  - intros H. by inversion H.
  - intros [Hc Hs]. by constructor.
Qed.

Lemma lstrip_nospace (s : string) : nospace s → lstrip s = s.
Proof. destruct s as [|c s]; [done|]. intros [Hc _]%nospace_cons. simpl. by rewrite Hc. Qed.

Lemma str_rev_nospace (s : string) : nospace s → nospace (str_rev s).
Proof.
  unfold nospace, str_rev. rewrite list_ascii_of_string_of_list_ascii.
  intros H. by apply Forall_rev.
Qed.

Lemma strip_nospace (s : string) : nospace s → strip s = s.
Proof.
  intros H. unfold strip. rewrite (lstrip_nospace s H).
  rewrite (lstrip_nospace _ (str_rev_nospace s H)). apply str_rev_involutive.
Qed.

Lemma take_token_nospace (s : string) : nospace (take_token s).
Proof.
  induction s as [|c s IH]; simpl; [constructor|].
  destruct (is_space c) eqn:Hc; [constructor|]. by apply nospace_cons.
Qed.

Lemma take_token_id (s : string) : nospace s → take_token s = s.
Proof.
  induction s as [|c s IH]; [done|]. intros [Hc Hs]%nospace_cons.
  simpl. rewrite Hc. by rewrite IH.
Qed.

Lemma upper_nospace (s : string) : nospace s → nospace (upper s).
Proof.
  induction s as [|c s IH]; [done|]. intros [Hc Hs]%nospace_cons.
  simpl. apply nospace_cons. rewrite is_space_upper. auto.
Qed.

Lemma upper_no_lower (s : string) : no_lower (upper s).
Proof.
  unfold no_lower. induction s as [|c s IH]; simpl; [constructor|].
  constructor; [apply upper_char_idem|done].
Qed.

Lemma upper_id (s : string) : no_lower s → upper s = s.
Proof.
  unfold no_lower. induction s as [|c s IH]; [done|]. simpl.
  intros [Hc Hs]%Forall_cons. by rewrite Hc, IH.
Qed.

Lemma first_token_inv (s t : string) :
  first_token s = Some t → t ≠ EmptyString ∧ nospace t.
Proof.
  unfold first_token. destruct (lstrip s) as [|c r] eqn:Hl; [done|].
  intros [= <-]. split; [|apply (take_token_nospace (String c r))].
  assert (is_space c = false) as Hc.
  { clear -Hl. induction s as [|a s IH]; [done|]. simpl in Hl.
    destruct (is_space a) eqn:Ha; [auto|]. by inversion Hl; subst. }
  simpl. by rewrite Hc.
Qed.

Lemma first_token_id (t : string) :
  t ≠ EmptyString → nospace t → first_token t = Some t.
Proof.
  intros Hne Hns. unfold first_token. rewrite (lstrip_nospace t Hns).
  destruct t as [|c r]; [done|]. f_equal. apply (take_token_id (String c r) Hns).
Qed.

Lemma first_token_None (s : string) :
  first_token s = None ↔ lstrip s = EmptyString.
Proof. unfold first_token. by destruct (lstrip s). Qed.

Lemma upper_nonempty (s : string) : s ≠ EmptyString → upper s ≠ EmptyString.
Proof. by destruct s. Qed.

Lemma ascii_only_cons (c : ascii) (s : string) :
  ascii_only (String c s) = (nat_of_ascii c <? 128) && ascii_only s.
Proof. reflexivity. Qed.

Lemma ascii_only_lstrip (s : string) :
  ascii_only s = true → ascii_only (lstrip s) = true.
Proof.
  induction s as [|c s IH]; [done|]. intros H. simpl.
  destruct (is_space c); [|done]. rewrite ascii_only_cons in H.
  apply andb_true_iff in H as [_ H]. auto.
Qed.

Lemma ascii_only_take_token (s : string) :
  ascii_only s = true → ascii_only (take_token s) = true.
Proof.
  induction s as [|c s IH]; [done|]. rewrite ascii_only_cons.
  intros [Hc Hs]%andb_true_iff. simpl. destruct (is_space c); [done|].
  rewrite ascii_only_cons, Hc. auto.
Qed.

Lemma upper_char_ascii (c : ascii) :
  (nat_of_ascii c <? 128) = true → (nat_of_ascii (upper_char c) <? 128) = true.
Proof. by destruct c as [[] [] [] [] [] [] [] []]. Qed.

Lemma ascii_only_upper (s : string) :
  ascii_only s = true → ascii_only (upper s) = true.
Proof.
  induction s as [|c s IH]; [done|]. rewrite ascii_only_cons.
  intros [Hc Hs]%andb_true_iff. simpl. rewrite ascii_only_cons.
  rewrite (upper_char_ascii c Hc). auto.
Qed.

Lemma first_token_ascii (s t : string) :
  ascii_only s = true → first_token s = Some t → ascii_only t = true.
Proof.
  intros Hs. unfold first_token.
  pose proof (ascii_only_lstrip s Hs) as Hl.
  destruct (lstrip s) as [|c r]; [done|]. intros [= <-].
  exact (ascii_only_take_token (String c r) Hl).
Qed.

(** On an ASCII symbol the cleaning is computed: no builtin is called. *)
Lemma clean_sym_ascii (B : Builtins) (s : string) :
  ascii_only s = true →
  fetch_subsequent._clean_sym B (JStr s)
  = if String.eqb s EmptyString then Ok EmptyString
    else match first_token s with
         | None => Raise IndexError
         | Some t => Ok (strip (upper t))
         end.
Proof.
  intros Hs. unfold fetch_subsequent._clean_sym. cbn [truthy py_str].
  destruct (String.eqb s EmptyString); cbn [negb]; [done|].
  unfold py_split_first. rewrite Hs.
  destruct (first_token s) as [t|] eqn:Ht; [|done].
  pose proof (first_token_ascii s t Hs Ht) as Hta.
  unfold py_upper. rewrite Hta. unfold py_strip.
  by rewrite (ascii_only_upper t Hta).
Qed.

Lemma clean_sym_ascii_result (B : Builtins) (s t : string) :
  ascii_only s = true → fetch_subsequent._clean_sym B (JStr s) = Ok t →
  ascii_only t = true.
Proof.
  intros Hs. rewrite (clean_sym_ascii B s Hs).
  destruct (String.eqb s EmptyString); [by intros [= <-]|].
  destruct (first_token s) as [tok|] eqn:Ht; [|done].
  pose proof (first_token_ascii s tok Hs Ht) as Hta.
  apply first_token_inv in Ht as [_ Hns]. intros [= <-].
  rewrite (strip_nospace _ (upper_nospace tok Hns)). by apply ascii_only_upper.
Qed.

(** X7: the cleaned symbol is a canonical form. For a symbol [s] that is
    an ASCII text, [_clean_sym] raises (an [IndexError]) exactly when [s]
    is not empty but all white space, and returns the empty string only
    for the empty symbol; what it returns is ASCII, has no white space and
    no lower-case letter, and cleaning it again gives it back. The
    Aggregator cleans symbols as the Tracker does. *)
Theorem clean_sym_canonical (B : Builtins) (s : string) :
  ascii_only s = true →
  (fetch_subsequent._clean_sym B (JStr s) = Raise IndexError
   ↔ s ≠ EmptyString ∧ lstrip s = EmptyString)
  ∧ (∀ t, fetch_subsequent._clean_sym B (JStr s) = Ok t →
          (t = EmptyString ↔ s = EmptyString)
          ∧ ascii_only t = true
          ∧ nospace t
          ∧ no_lower t
          ∧ fetch_subsequent._clean_sym B (JStr t) = Ok t)
  ∧ populate_movers_csv._clean_sym B (JStr s) = fetch_subsequent._clean_sym B (JStr s).
Proof.
  intros Hs. split; [|split; [|reflexivity]].
  - rewrite (clean_sym_ascii B s Hs).
    destruct (String.eqb_spec s EmptyString) as [->|Hne].
    + split; [discriminate|]. by intros [].
    + destruct (first_token s) as [t|] eqn:Ht.
      * split; [discriminate|]. intros [_ Hl]. apply first_token_None in Hl. congruence.
      * split; [|done]. intros _. split; [done|]. by apply first_token_None.
  - intros t Hclean.
    pose proof (clean_sym_ascii_result B s t Hs Hclean) as Hta.
    rewrite (clean_sym_ascii B s Hs) in Hclean. rewrite (clean_sym_ascii B t Hta).
    destruct (String.eqb_spec s EmptyString) as [->|Hne].
    + inversion Hclean; subst t. repeat split; try done; constructor.
    + destruct (first_token s) as [tok|] eqn:Ht; [|discriminate].
      apply first_token_inv in Ht as [Htok Hns].
      pose proof (upper_nospace tok Hns) as Hup.
      rewrite (strip_nospace _ Hup) in Hclean. inversion Hclean; subst t.
      pose proof (upper_nonempty tok Htok) as Hne'.
      split; [done|]. split; [done|]. split; [done|]. split; [apply upper_no_lower|].
      destruct (String.eqb_spec (upper tok) EmptyString); [done|].
      rewrite (first_token_id _ Hne' Hup).
      rewrite (upper_id _ (upper_no_lower tok)). by rewrite (strip_nospace _ Hup).
Qed.

(** An instance: a symbol in lower case with blanks around it and a
    second word. *)
Lemma clean_sym_canonical_witness :
  ascii_only " aapl x " = true
  ∧ fetch_subsequent._clean_sym Samples.builtins0 (JStr " aapl x ") = Ok "AAPL"
  ∧ (fetch_subsequent._clean_sym Samples.builtins0 (JStr " aapl x ") = Raise IndexError
     ↔ " aapl x " ≠ EmptyString ∧ lstrip " aapl x " = EmptyString)
  ∧ (∀ t, fetch_subsequent._clean_sym Samples.builtins0 (JStr " aapl x ") = Ok t →
          (t = EmptyString ↔ " aapl x " = EmptyString)
          ∧ ascii_only t = true
          ∧ nospace t
          ∧ no_lower t
          ∧ fetch_subsequent._clean_sym Samples.builtins0 (JStr t) = Ok t)
  ∧ populate_movers_csv._clean_sym Samples.builtins0 (JStr " aapl x ")
    = fetch_subsequent._clean_sym Samples.builtins0 (JStr " aapl x ").
Proof.
  split; [reflexivity|]. split; [reflexivity|].
  exact (clean_sym_canonical Samples.builtins0 " aapl x " eq_refl).
Defined.

End SymbolFacts.

(* ===================================================================== *)
(** * More on the Aggregator                                              *)
(* ===================================================================== *)

Module AggregatorMore.
Import populate_movers_csv Samples Notions AggregatorNotions.
Import AggregatorFacts.

Lemma foldM_split {A B : Type} (f : B → A → exc B) (xs ys : list A) (x : A) (s s' : B) :
  foldM f (xs ++ x :: ys) s = Ok s' →
  ∃ s1 s2, foldM f xs s = Ok s1 ∧ f s1 x = Ok s2 ∧ foldM f ys s2 = Ok s'.
Proof.
  rewrite foldM_app. intros H. apply bind_Ok in H as (s1 & H1 & H).
  simpl in H. apply bind_Ok in H as (s2 & H2 & H). eauto.
Qed.

Lemma seq_split (n i : nat) :
  i < n → seq 0 n = seq 0 i ++ i :: seq (S i) (n - S i).
Proof.
  intros Hi. replace n with (i + S (n - S i)) at 1 by lia.
  rewrite seq_app. simpl. done.
Qed.

(** A loop over [0..n-1] in which the step [i] takes [Q0] to [Q1] and
    the other steps keep both. *)
Lemma foldM_seq_at {B : Type} (Q0 Q1 : B → Prop) (f : B → nat → exc B) (n i : nat) :
  i < n →
  (∀ s j s', j < n → j ≠ i → Q0 s → f s j = Ok s' → Q0 s') →
  (∀ s s', Q0 s → f s i = Ok s' → Q1 s') →
  (∀ s j s', j < n → j ≠ i → Q1 s → f s j = Ok s' → Q1 s') →
  ∀ s s', Q0 s → foldM f (seq 0 n) s = Ok s' → Q1 s'.
Proof.
  intros Hi H0 Hat H1 s s' Hs H. rewrite (seq_split n i Hi) in H.
  apply foldM_split in H as (s1 & s2 & Hpre & Hi' & Hpost).
  assert (Q0 s1) as Hs1.
  { revert Hpre. apply (foldM_invariant_in Q0); [|done].
    intros t j t' Hj. apply elem_of_seq in Hj. apply H0; lia. }
  revert Hpost. apply (foldM_invariant_in Q1); [|by eapply Hat].
  intros t j t' Hj. apply elem_of_seq in Hj. apply H1; lia.
Qed.

(** ** What one step of the two inner loops does *)

Lemma collect_step_effect B label days_list st j st' :
  j < 11 →
  collect_step B label days_list st j = Ok st' →
  ∃ n, py_len days_list = Ok n
       ∧ if j <? n
         then ∃ d ov cv pv,
             py_index days_list j = Ok d
             ∧ day_values B d = Ok (ov, cv, pv)
             ∧ st'.1 = <[8 + 3 * j := _fmt_price cv]> (<[7 + 3 * j := _fmt_price ov]> st.1)
             ∧ record_pct label j pv st.2 = Ok st'.2
         else st'.1 = <[6 + 3 * j := EmptyString]>
                        (<[8 + 3 * j := EmptyString]> (<[7 + 3 * j := EmptyString]> st.1))
              ∧ st'.2 = st.2.
Proof.
  intros Hj H. unfold collect_step in H.
  apply bind_Ok in H as (n & Hn & H). exists n. split; [done|].
  destruct (j <? n).
  - apply bind_Ok in H as (d & Hd & H).
    apply bind_Ok in H as ([[ov cv] pv] & Hv & H).
    rewrite set_cell_open in H by done. cbn [mbind exc_bind] in H.
    rewrite set_cell_close in H by done. cbn [mbind exc_bind] in H.
    apply bind_Ok in H as (b' & Hb & H). inversion H; subst.
    exists d, ov, cv, pv. done.
  - rewrite set_cell_open in H by done. cbn [mbind exc_bind] in H.
    rewrite set_cell_close in H by done. cbn [mbind exc_bind] in H.
    rewrite set_cell_pct in H by done. cbn [mbind exc_bind] in H.
    by inversion H; subst.
Qed.

Lemma direction_step_effect B direction days_list row j row' :
  j < 11 →
  direction_step B direction days_list row j = Ok row' →
  ∃ n, py_len days_list = Ok n
       ∧ if j <? n
         then ∃ d ov cv pv,
             py_index days_list j = Ok d
             ∧ day_values B d = Ok (ov, cv, pv)
             ∧ row' = <[6 + 3 * j := _fmt_pct (in_direction direction pv)]> row
         else row' = <[6 + 3 * j := EmptyString]> row.
Proof.
  intros Hj H. unfold direction_step in H.
  apply bind_Ok in H as (n & Hn & H). exists n. split; [done|].
  destruct (j <? n).
  - apply bind_Ok in H as (d & Hd & H).
    apply bind_Ok in H as ([[ov cv] pv] & Hv & H).
    exists d, ov, cv, pv. split; [done|]. split; [done|].
    unfold in_direction. destruct pv as [p|]; rewrite set_cell_pct in H by done;
      inversion H; subst; [|by destruct (String.eqb direction "long")].
    by destruct (String.eqb direction "long").
  - rewrite set_cell_pct in H by done. by inversion H.
Qed.

Lemma collect_step_width B label days_list st j st' :
  j < 11 → collect_step B label days_list st j = Ok st' → length st'.1 = length st.1.
Proof.
  intros Hj H. apply collect_step_effect in H as (n & _ & H); [|done].
  destruct (j <? n).
  - destruct H as (d & ov & cv & pv & _ & _ & -> & _). by rewrite !length_insert.
  - destruct H as [-> _]. by rewrite !length_insert.
Qed.

Lemma direction_step_width B direction days_list row j row' :
  j < 11 → direction_step B direction days_list row j = Ok row' → length row' = length row.
Proof.
  intros Hj H. apply direction_step_effect in H as (n & _ & H); [|done].
  destruct (j <? n).
  - destruct H as (d & ov & cv & pv & _ & _ & ->). by rewrite length_insert.
  - subst. by rewrite length_insert.
Qed.

Lemma direction_row_width B days_list base_row direction row :
  direction_row B days_list base_row direction = Ok row → length row = length base_row.
Proof.
  unfold direction_row. intros H. apply bind_Ok in H as (r0 & Hr0 & H).
  apply set_cell_length in Hr0. rewrite <- Hr0. revert H.
  apply (foldM_invariant_in (λ r, length r = length r0)); [|done].
  intros s j s' Hj Hs Hstep. apply elem_of_seq in Hj.
  apply direction_step_width in Hstep; [congruence|lia].
Qed.

(** The parts of [item_step]. *)
Lemma item_step_parts E cache date_key mover_type st it st' :
  item_step E cache date_key mover_type st it = Ok st' →
  ∃ sym ticker row base_row long_row short_row,
    py_get it "symbol" (JStr EmptyString) = Ok sym
    ∧ _clean_sym (builtins E) sym = Ok ticker
    ∧ length row = length HEADER
    ∧ row !! 0 = Some ticker
    ∧ row !! 2 = Some (if String.eqb mover_type "gainers" then "gainer" else "loser")
    ∧ foldM (collect_step (builtins E)
               (if String.eqb mover_type "gainers" then "gainer" else "loser")
               (cached_days cache (ticker +:+ "|" +:+ date_key)))
        (seq 0 11) (row, st.2) = Ok (base_row, st'.2)
    ∧ direction_row (builtins E) (cached_days cache (ticker +:+ "|" +:+ date_key))
        base_row "long" = Ok long_row
    ∧ direction_row (builtins E) (cached_days cache (ticker +:+ "|" +:+ date_key))
        base_row "short" = Ok short_row
    ∧ st'.1 = st.1 ++ [long_row; short_row].
Proof.
  intros H. unfold item_step in H.
  destruct header_index_fixed as (Ht & He & Hm & _ & Hpc & Hec & _).
  apply bind_Ok in H as (sym & Hsym & H).
  apply bind_Ok in H as (ticker & Hclean & H).
  apply bind_Ok in H as ([pct_f pts] & _ & H).
  rewrite (set_cell_at _ _ _ 0 Ht) in H. cbn [mbind exc_bind] in H.
  rewrite (set_cell_at _ _ _ 1 He) in H. cbn [mbind exc_bind] in H.
  rewrite (set_cell_at _ _ _ 2 Hm) in H. cbn [mbind exc_bind] in H.
  rewrite (set_cell_at _ _ _ 4 Hpc) in H. cbn [mbind exc_bind] in H.
  rewrite (set_cell_at _ _ _ 5 Hec) in H. cbn [mbind exc_bind] in H.
  apply bind_Ok in H as ([base_row buckets] & Hfold & H).
  apply bind_Ok in H as (long_row & Hlong & H).
  apply bind_Ok in H as (short_row & Hshort & H).
  inversion H; subst; clear H. cbn [fst snd].
  eexists sym, ticker, _, base_row, long_row, short_row.
  split; [done|]. split; [done|].
  split; [|split; [|split; [|split; [exact Hfold|done]]]].
  - rewrite !length_insert. unfold blank_row. by rewrite length_replicate.
  - rewrite !list_lookup_insert_ne by lia. apply list_lookup_insert_eq.
    unfold blank_row. rewrite length_replicate. vm_compute. lia.
  - rewrite !list_lookup_insert_ne by lia. apply list_lookup_insert_eq.
    rewrite !length_insert. unfold blank_row. rewrite length_replicate. vm_compute. lia.
Qed.

(** ** Series that are lists *)

Lemma direction_step_list B direction l row j row' :
  j < 11 →
  direction_step B direction (JList l) row j = Ok row' →
  ∃ ov cv pv, offset_values B l j = Ok (ov, cv, pv)
              ∧ row' = <[6 + 3 * j := _fmt_pct (in_direction direction pv)]> row.
Proof.
  intros Hj H. apply direction_step_effect in H as (n & Hn & H); [|done].
  cbn in Hn. inversion Hn; subst n. unfold offset_values.
  destruct (j <? length l) eqn:Hlt.
  - destruct H as (d & ov & cv & pv & Hd & Hv & ->). cbn in Hd.
    destruct (l !! j) as [d'|]; [|done]. inversion Hd; subst. eauto.
  - apply Nat.ltb_ge in Hlt. rewrite lookup_ge_None_2 by done.
    exists None, None, None. split; [done|]. subst.
    unfold in_direction. by destruct (String.eqb direction "long").
Qed.

Lemma collect_step_list B label l st j st' :
  j < 11 →
  length st.1 = length HEADER →
  collect_step B label (JList l) st j = Ok st' →
  ∃ ov cv pv, offset_values B l j = Ok (ov, cv, pv)
              ∧ st'.1 !! (7 + 3 * j) = Some (_fmt_price ov)
              ∧ st'.1 !! (8 + 3 * j) = Some (_fmt_price cv)
              ∧ record_pct label j pv st.2 = Ok st'.2.
Proof.
  intros Hj Hw H. apply collect_step_effect in H as (n & Hn & H); [|done].
  cbn in Hn. inversion Hn; subst n. unfold offset_values.
  assert (length HEADER = 39) as Hh by (vm_compute; reflexivity).
  destruct (j <? length l) eqn:Hlt.
  - destruct H as (d & ov & cv & pv & Hd & Hv & Hrow & Hb). cbn in Hd.
    destruct (l !! j) as [d'|]; [|done]. inversion Hd; subst.
    exists ov, cv, pv. split; [done|]. rewrite Hrow.
    split; [|split; [|done]].
    + rewrite list_lookup_insert_ne by lia. apply list_lookup_insert_eq. lia.
    + apply list_lookup_insert_eq. rewrite length_insert. lia.
  - apply Nat.ltb_ge in Hlt. rewrite lookup_ge_None_2 by done.
    destruct H as [Hrow Hb]. exists None, None, None. split; [done|]. rewrite Hrow, Hb.
    split; [|split; [|done]].
    + rewrite !list_lookup_insert_ne by lia. apply list_lookup_insert_eq. lia.
    + rewrite list_lookup_insert_ne by lia. apply list_lookup_insert_eq.
      rewrite length_insert. lia.
Qed.

(** ** Cells a step leaves alone *)

Lemma collect_step_other B label days_list st j st' c :
  j < 11 → c ≠ 6 + 3 * j → c ≠ 7 + 3 * j → c ≠ 8 + 3 * j →
  collect_step B label days_list st j = Ok st' → st'.1 !! c = st.1 !! c.
Proof.
  intros Hj H6 H7 H8 H. apply collect_step_effect in H as (n & _ & H); [|done].
  destruct (j <? n).
  - destruct H as (d & ov & cv & pv & _ & _ & -> & _).
    by rewrite !list_lookup_insert_ne by done.
  - destruct H as [-> _]. by rewrite !list_lookup_insert_ne by done.
Qed.

Lemma direction_step_other B direction days_list row j row' c :
  j < 11 → c ≠ 6 + 3 * j →
  direction_step B direction days_list row j = Ok row' → row' !! c = row !! c.
Proof.
  intros Hj H6 H. apply direction_step_effect in H as (n & _ & H); [|done].
  destruct (j <? n).
  - destruct H as (d & ov & cv & pv & _ & _ & ->). by rewrite list_lookup_insert_ne.
  - subst. by rewrite list_lookup_insert_ne.
Qed.

Lemma collect_loop_other B label days_list st st' c :
  c < 6 →
  foldM (collect_step B label days_list) (seq 0 11) st = Ok st' → st'.1 !! c = st.1 !! c.
Proof.
  intros Hc. apply (foldM_invariant_in (λ s, s.1 !! c = st.1 !! c)); [|done].
  intros s j s' Hj Hs H. apply elem_of_seq in Hj.
  rewrite <- Hs. revert H. apply collect_step_other; lia.
Qed.

Lemma collect_loop_width B label days_list st st' :
  foldM (collect_step B label days_list) (seq 0 11) st = Ok st' →
  length st'.1 = length st.1.
Proof.
  apply (foldM_invariant_in (λ s, length s.1 = length st.1)); [|done].
  intros s j s' Hj Hs H. apply elem_of_seq in Hj.
  rewrite <- Hs. revert H. apply collect_step_width; lia.
Qed.

Lemma direction_row_other B days_list base_row direction row c :
  c ≠ 3 → (∀ i, i < 11 → c ≠ 6 + 3 * i) →
  direction_row B days_list base_row direction = Ok row → row !! c = base_row !! c.
Proof.
  intros H3 Hc H. unfold direction_row in H.
  destruct header_index_fixed as (_ & _ & _ & Hd & _).
  rewrite (set_cell_at _ _ _ 3 Hd) in H. cbn [mbind exc_bind] in H.
  transitivity (<[3 := direction]> base_row !! c); [|by rewrite list_lookup_insert_ne].
  revert H. apply (foldM_invariant_in (λ r, r !! c = <[3 := direction]> base_row !! c)); [|done].
  intros s j s' Hj Hs H. apply elem_of_seq in Hj.
  rewrite <- Hs. revert H. apply direction_step_other; [lia|]. apply Hc. lia.
Qed.

Lemma direction_row_direction B days_list base_row direction row :
  length base_row = length HEADER →
  direction_row B days_list base_row direction = Ok row → row !! 3 = Some direction.
Proof.
  intros Hw H. unfold direction_row in H.
  destruct header_index_fixed as (_ & _ & _ & Hd & _).
  rewrite (set_cell_at _ _ _ 3 Hd) in H. cbn [mbind exc_bind] in H.
  revert H. apply (foldM_invariant_in (λ r, r !! 3 = Some direction)).
  - intros s j s' Hj Hs H. apply elem_of_seq in Hj.
    rewrite <- Hs. revert H. apply direction_step_other; lia.
  - apply list_lookup_insert_eq. rewrite Hw. vm_compute. lia.
Qed.

(** The cell a loop over the offsets sets at offset [i]. *)
Lemma direction_row_day B l base_row direction row i :
  i < 11 →
  length base_row = length HEADER →
  direction_row B (JList l) base_row direction = Ok row →
  ∃ ov cv pv, offset_values B l i = Ok (ov, cv, pv)
              ∧ row !! (6 + 3 * i) = Some (_fmt_pct (in_direction direction pv)).
Proof.
  intros Hi Hw H. unfold direction_row in H.
  destruct header_index_fixed as (_ & _ & _ & Hd & _).
  rewrite (set_cell_at _ _ _ 3 Hd) in H. cbn [mbind exc_bind] in H.
  assert (length HEADER = 39) as Hh by (vm_compute; reflexivity).
  revert H.
  apply (foldM_seq_at (λ r, length r = length HEADER)
           (λ r, length r = length HEADER
                 ∧ ∃ ov cv pv, offset_values B l i = Ok (ov, cv, pv)
                     ∧ r !! (6 + 3 * i) = Some (_fmt_pct (in_direction direction pv)))
           _ 11 i Hi).
  - intros s j s' Hj _ Hs H. apply direction_step_width in H; [congruence|done].
  - intros s s' Hs H. split; [apply direction_step_width in H; [congruence|done]|].
    apply direction_step_list in H as (ov & cv & pv & Hv & ->); [|done].
    exists ov, cv, pv. split; [done|]. apply list_lookup_insert_eq. lia.
  - intros s j s' Hj Hne [Hs (ov & cv & pv & Hv & Hc)] H.
    split; [apply direction_step_width in H; [congruence|done]|].
    exists ov, cv, pv. split; [done|]. rewrite <- Hc. revert H.
    apply direction_step_other; [done|lia].
  - by rewrite length_insert.
Qed.

Lemma collect_loop_day B label l st st' i :
  i < 11 →
  length st.1 = length HEADER →
  foldM (collect_step B label (JList l)) (seq 0 11) st = Ok st' →
  ∃ ov cv pv, offset_values B l i = Ok (ov, cv, pv)
              ∧ st'.1 !! (7 + 3 * i) = Some (_fmt_price ov)
              ∧ st'.1 !! (8 + 3 * i) = Some (_fmt_price cv).
Proof.
  intros Hi Hw.
  apply (foldM_seq_at (λ s, length s.1 = length HEADER)
           (λ s, length s.1 = length HEADER
                 ∧ ∃ ov cv pv, offset_values B l i = Ok (ov, cv, pv)
                     ∧ s.1 !! (7 + 3 * i) = Some (_fmt_price ov)
                     ∧ s.1 !! (8 + 3 * i) = Some (_fmt_price cv))
           _ 11 i Hi); [| | |done].
  - intros s j s' Hj _ Hs H. apply collect_step_width in H; [congruence|done].
  - intros s s' Hs H. split; [apply collect_step_width in H; [congruence|done]|].
    apply collect_step_list in H as (ov & cv & pv & Hv & H7 & H8 & _); [|done..].
    by exists ov, cv, pv.
  - intros s j s' Hj Hne [Hs (ov & cv & pv & Hv & H7 & H8)] H.
    split; [apply collect_step_width in H; [congruence|done]|].
    exists ov, cv, pv. split; [done|].
    rewrite <- H7, <- H8. split; revert H; apply collect_step_other; lia.
Qed.

Lemma item_step_rows (E : Env) (cache : json) (date_key mover_type : string)
    (st st' : list (list string) * gmap string (list (list float))) (it : json) :
  item_step E cache date_key mover_type st it = Ok st' →
  ∃ sym ticker long_row short_row,
    py_get it "symbol" (JStr EmptyString) = Ok sym
    ∧ _clean_sym (builtins E) sym = Ok ticker
    ∧ st'.1 = st.1 ++ [long_row; short_row]
    ∧ length long_row = length HEADER
    ∧ length short_row = length HEADER
    ∧ long_row !! 0 = Some ticker
    ∧ long_row !! 1 = Some date_key
    ∧ long_row !! 2 = Some (if String.eqb mover_type "gainers" then "gainer" else "loser")
    ∧ companion long_row short_row
    ∧ ∀ l i,
        cached_days cache (ticker +:+ "|" +:+ date_key) = JList l →
        i < 11 →
        ∃ ov cv pv,
          offset_values (builtins E) l i = Ok (ov, cv, pv)
          ∧ long_row !! (6 + 3 * i) = Some (_fmt_pct pv)
          ∧ short_row !! (6 + 3 * i) = Some (_fmt_pct (PrimFloat.opp <$> pv))
          ∧ long_row !! (7 + 3 * i) = Some (_fmt_price ov)
          ∧ long_row !! (8 + 3 * i) = Some (_fmt_price cv).
Proof.
  intros H.
  pose proof (item_step_event_date _ _ _ _ _ _ _ H) as (lr & sr & Hrows & Hdate & _).
  apply item_step_parts in H
    as (sym & ticker & row & base_row & long_row & short_row
        & Hsym & Hclean & Hw & Ht & Hm & Hfold & Hlong & Hshort & Hst).
  rewrite Hst in Hrows. apply app_inv_head in Hrows. inversion Hrows; subst lr sr.
  pose proof (collect_loop_width _ _ _ _ _ Hfold) as Hbw. cbn [fst] in Hbw.
  rewrite Hw in Hbw.
  assert (∀ c, c < 6 → base_row !! c = row !! c) as Hbk
    by (intros c Hc; exact (collect_loop_other _ _ _ _ _ c Hc Hfold)).
  assert (∀ c, c ≠ 3 → (∀ i, i < 11 → c ≠ 6 + 3 * i) → long_row !! c = base_row !! c)
    as Hlk by (intros c H3 Hc; by eapply direction_row_other).
  assert (∀ c, c ≠ 3 → (∀ i, i < 11 → c ≠ 6 + 3 * i) → short_row !! c = base_row !! c)
    as Hsk by (intros c H3 Hc; by eapply direction_row_other).
  exists sym, ticker, long_row, short_row.
  split; [done|]. split; [done|]. split; [done|].
  split; [by rewrite (direction_row_width _ _ _ _ _ Hlong)|].
  split; [by rewrite (direction_row_width _ _ _ _ _ Hshort)|].
  split.
  { rewrite Hlk by (intros; lia). rewrite Hbk by lia. done. }
  split; [done|].
  split.
  { rewrite Hlk by (intros; lia). rewrite Hbk by lia. done. }
  split.
  { split; [by eapply direction_row_direction|].
    split; [by eapply direction_row_direction|].
    intros c H3 Hc. by rewrite Hlk, Hsk. }
  intros l i Hl Hi. rewrite Hl in Hfold, Hlong, Hshort.
  destruct (direction_row_day _ _ _ _ _ i Hi Hbw Hlong) as (ov & cv & pv & Hv & Hl6).
  destruct (direction_row_day _ _ _ _ _ i Hi Hbw Hshort) as (ov' & cv' & pv' & Hv' & Hs6).
  destruct (collect_loop_day _ _ _ (row, st.2) _ i Hi Hw Hfold)
    as (ov2 & cv2 & pv2 & Hv2 & H7 & H8).
  cbn [fst] in H7, H8.
  rewrite Hv in Hv', Hv2. inversion Hv'; inversion Hv2; subst.
  exists ov2, cv2, pv2. split; [done|]. split; [done|]. split; [done|].
  rewrite !Hlk by (try lia; intros; lia). done.
Qed.

(** X8: the rows of one mover. A mover that [item_step] accepts adds two
    rows of the header's width at the end of the table, a long one and a
    short one, both with the cleaned symbol, the date and the kind of the
    mover; they agree outside the direction and the Day N percent
    columns. When the cached series is a list, the columns of Day
    [i+1] hold the open and the close of the observation at offset [i]
    with two decimals, the percent return with its sign in the long row
    and the negated return in the short row, and are blank beyond the end
    of the series. *)
Theorem mover_rows (E : Env) (cache : json) (date_key mover_type : string)
    (st st' : list (list string) * gmap string (list (list float))) (it : json) :
  item_step E cache date_key mover_type st it = Ok st' →
  ∃ sym ticker long_row short_row,
    py_get it "symbol" (JStr EmptyString) = Ok sym
    ∧ _clean_sym (builtins E) sym = Ok ticker
    ∧ st'.1 = st.1 ++ [long_row; short_row]
    ∧ length long_row = length HEADER
    ∧ length short_row = length HEADER
    ∧ long_row !! 0 = Some ticker
    ∧ long_row !! 1 = Some date_key
    ∧ long_row !! 2 = Some (if String.eqb mover_type "gainers" then "gainer" else "loser")
    ∧ companion long_row short_row
    ∧ ∀ l i,
        cached_days cache (ticker +:+ "|" +:+ date_key) = JList l →
        i < 11 →
        ∃ ov cv pv,
          offset_values (builtins E) l i = Ok (ov, cv, pv)
          ∧ long_row !! (6 + 3 * i) = Some (_fmt_pct pv)
          ∧ short_row !! (6 + 3 * i) = Some (_fmt_pct (PrimFloat.opp <$> pv))
          ∧ long_row !! (7 + 3 * i) = Some (_fmt_price ov)
          ∧ long_row !! (8 + 3 * i) = Some (_fmt_price cv).
Proof. apply item_step_rows. Qed.

(** An instance: the mover AAA of 2 January 2024 over a series of one
    observation with a zero open. *)
Lemma mover_rows_witness :
  ∃ st',
    item_step aggregator_env cache_zero_open "2024-01-02" "gainers"
      ([], empty_buckets) (mover "AAA") = Ok st'
    ∧ ∃ sym ticker long_row short_row,
        py_get (mover "AAA") "symbol" (JStr EmptyString) = Ok sym
        ∧ _clean_sym (builtins aggregator_env) sym = Ok ticker
        ∧ st'.1 = ([], empty_buckets).1 ++ [long_row; short_row]
        ∧ length long_row = length HEADER
        ∧ length short_row = length HEADER
        ∧ long_row !! 0 = Some ticker
        ∧ long_row !! 1 = Some "2024-01-02"
        ∧ long_row !! 2 = Some (if String.eqb "gainers" "gainers" then "gainer" else "loser")
        ∧ companion long_row short_row
        ∧ ∀ l i,
            cached_days cache_zero_open (ticker +:+ "|" +:+ "2024-01-02") = JList l →
            i < 11 →
            ∃ ov cv pv,
              offset_values (builtins aggregator_env) l i = Ok (ov, cv, pv)
              ∧ long_row !! (6 + 3 * i) = Some (_fmt_pct pv)
              ∧ short_row !! (6 + 3 * i) = Some (_fmt_pct (PrimFloat.opp <$> pv))
              ∧ long_row !! (7 + 3 * i) = Some (_fmt_price ov)
              ∧ long_row !! (8 + 3 * i) = Some (_fmt_price cv).
Proof.
  eexists. split; [vm_compute; reflexivity|].
  apply (mover_rows aggregator_env cache_zero_open "2024-01-02" "gainers"
           ([], empty_buckets) _ (mover "AAA")).
  vm_compute. reflexivity.
Defined.

(** ** The buckets *)

Lemma fmap_app_nil (x : option (list float)) : (λ R, R ++ []) <$> x = x.
Proof. destruct x; simpl; [by rewrite app_nil_r|done]. Qed.

Lemma bucket_append_at buckets key i p buckets' key' :
  bucket_append buckets key i p = Ok buckets' →
  bucket_at buckets' key' i
  = if decide (key' = key) then (λ R, R ++ [p]) <$> bucket_at buckets key' i
    else bucket_at buckets key' i.
Proof.
  unfold bucket_append, bucket_at. intros H.
  destruct (buckets !! key) as [lists|] eqn:Hk; [|done].
  destruct (lists !! i) as [R|] eqn:Hi; [|done]. inversion H; subst.
  case_decide as Hd.
  - subst. rewrite lookup_insert_eq, Hk, Hi. simpl.
    apply list_lookup_insert_eq. by eapply lookup_lt_Some.
  - by rewrite lookup_insert_ne.
Qed.

Lemma bucket_append_eleven buckets key i p buckets' :
  eleven_each buckets → bucket_append buckets key i p = Ok buckets' → eleven_each buckets'.
Proof.
  unfold bucket_append. intros He H.
  destruct (buckets !! key) as [lists|] eqn:Hk; [|done].
  destruct (lists !! i) as [R|] eqn:Hi; [|done]. inversion H; subst.
  intros key' Hin. destruct (He key' Hin) as (lists' & Hl & Hlen).
  destruct (decide (key' = key)) as [->|Hne].
  - rewrite lookup_insert_eq. eexists. split; [done|].
    rewrite length_insert. congruence.
  - rewrite lookup_insert_ne by done. eauto.
Qed.

Lemma record_pct_at mover_type i pv buckets buckets' key :
  record_pct (if String.eqb mover_type "gainers" then "gainer" else "loser") i pv buckets
  = Ok buckets' →
  bucket_at buckets' key i
  = (λ R, R ++ contribution mover_type key pv) <$> bucket_at buckets key i.
Proof.
  unfold record_pct, contribution, long_cohort, short_cohort. intros H.
  destruct pv as [p|]; [|inversion H; subst; by rewrite fmap_app_nil].
  destruct (String.eqb mover_type "gainers"); cbn [String.eqb Ascii.eqb Bool.eqb] in H;
    apply bind_Ok in H as (b1 & H1 & H2);
    rewrite (bucket_append_at _ _ _ _ _ key H2), (bucket_append_at _ _ _ _ _ key H1);
    repeat case_decide; subst; try done; cbn [String.eqb Ascii.eqb Bool.eqb];
    try (by rewrite fmap_app_nil).
  - destruct (String.eqb key "gainer_long") eqn:E1; [by apply String.eqb_eq in E1|].
    destruct (String.eqb key "gainer_short") eqn:E2; [by apply String.eqb_eq in E2|].
    by rewrite fmap_app_nil.
  - destruct (String.eqb key "loser_long") eqn:E1; [by apply String.eqb_eq in E1|].
    destruct (String.eqb key "loser_short") eqn:E2; [by apply String.eqb_eq in E2|].
    by rewrite fmap_app_nil.
Qed.

Lemma record_pct_eleven label i pv buckets buckets' :
  eleven_each buckets → record_pct label i pv buckets = Ok buckets' → eleven_each buckets'.
Proof.
  unfold record_pct. intros He H. destruct pv as [p|]; [|by inversion H; subst].
  destruct (String.eqb label "gainer");
    apply bind_Ok in H as (b1 & H1 & H2);
    (eapply bucket_append_eleven; [|exact H2]);
    (eapply bucket_append_eleven; [|exact H1]); done.
Qed.

Lemma record_pct_mirrored mover_type i pv buckets buckets' :
  mirrored buckets →
  record_pct (if String.eqb mover_type "gainers" then "gainer" else "loser") i pv buckets
  = Ok buckets' →
  mirrored buckets'.
Proof.
  intros Hm H i'. destruct (decide (i = i')) as [<-|Hne].
  - rewrite !(record_pct_at _ _ _ _ _ _ H). destruct (Hm i) as [-> ->].
    unfold contribution, long_cohort, short_cohort.
    split.
    + destruct (bucket_at buckets "gainer_long" i) as [R|]; [|done]. simpl. f_equal.
      rewrite fmap_app. f_equal.
      destruct pv as [p|]; [|done]. by destruct (String.eqb mover_type "gainers").
    + destruct (bucket_at buckets "loser_long" i) as [R|]; [|done]. simpl. f_equal.
      rewrite fmap_app. f_equal.
      destruct pv as [p|]; [|done]. by destruct (String.eqb mover_type "gainers").
  - rewrite !(record_pct_other _ _ _ _ _ _ _ H Hne). apply Hm.
Qed.

Lemma collect_step_record B mover_type days_list st j st' :
  j < 11 →
  collect_step B (if String.eqb mover_type "gainers" then "gainer" else "loser")
    days_list st j = Ok st' →
  ∃ pv, record_pct (if String.eqb mover_type "gainers" then "gainer" else "loser")
          j pv st.2 = Ok st'.2.
Proof.
  intros Hj H. apply collect_step_effect in H as (n & _ & H); [|done].
  destruct (j <? n).
  - destruct H as (d & ov & cv & pv & _ & _ & _ & H). eauto.
  - destruct H as [_ ->]. by exists None.
Qed.

(** ** Invariants of the scan *)

Section ScanInvariant.
Variable P : list (list string) * gmap string (list (list float)) → Prop.
Variable E : Env.
Variable cache : json.
Hypothesis item_preserves : ∀ date_key mover_type st it st',
  P st → item_step E cache date_key mover_type st it = Ok st' → P st'.

Lemma for_mover_type_inv date_key entry st mover_type st' :
  P st → for_mover_type E cache date_key entry st mover_type = Ok st' → P st'.
Proof.
  unfold for_mover_type. intros HP H.
  apply bind_Ok in H as (v & _ & H). apply bind_Ok in H as (items & _ & H).
  revert H. apply (foldM_invariant P); [|done].
  intros s x s'. apply item_preserves.
Qed.

Lemma for_date_inv movers st date_key st' :
  P st → for_date E cache movers st date_key = Ok st' → P st'.
Proof.
  unfold for_date. intros HP. apply (foldM_invariant P); [|done].
  intros s x s'. apply for_mover_type_inv.
Qed.

Lemma scan_rows_inv movers st' :
  P ([], empty_buckets) → scan_rows E cache movers = Ok st' → P st'.
Proof.
  unfold scan_rows. intros HP. apply (foldM_invariant P); [|done].
  intros s x s'. apply for_date_inv.
Qed.

End ScanInvariant.

Lemma item_step_buckets (I : gmap string (list (list float)) → Prop)
    E cache date_key mover_type st it st' :
  (∀ j pv b b', j < 11 → I b →
     record_pct (if String.eqb mover_type "gainers" then "gainer" else "loser") j pv b = Ok b' →
     I b') →
  I st.2 → item_step E cache date_key mover_type st it = Ok st' → I st'.2.
Proof.
  intros Hrec HI H.
  apply item_step_parts in H
    as (sym & ticker & row & base_row & long_row & short_row
        & _ & _ & _ & _ & _ & Hfold & _).
  change (I (base_row, st'.2).2). revert Hfold.
  apply (foldM_invariant_in (λ s, I s.2)); [|done].
  intros s j s' Hj Hs Hstep. apply elem_of_seq in Hj.
  apply collect_step_record in Hstep as (pv & Hstep); [|lia].
  eapply Hrec; [| |exact Hstep]; [lia|done].
Qed.

Lemma empty_buckets_eleven : eleven_each empty_buckets.
Proof.
  intros key Hin. exists (replicate 11 []).
  split; [|done]. set_unfold in Hin.
  destruct Hin as [->|[->|[->|[->|[]]]]]; vm_compute; reflexivity.
Qed.

Lemma empty_buckets_mirrored : mirrored empty_buckets.
Proof.
  intros i. unfold bucket_at.
  change (empty_buckets !! "gainer_short") with (Some (replicate 11 (@nil float))).
  change (empty_buckets !! "gainer_long") with (Some (replicate 11 (@nil float))).
  change (empty_buckets !! "loser_short") with (Some (replicate 11 (@nil float))).
  change (empty_buckets !! "loser_long") with (Some (replicate 11 (@nil float))).
  destruct (decide (i < 11)) as [Hi|Hi].
  - rewrite lookup_replicate_2 by done. done.
  - rewrite lookup_ge_None_2 by (rewrite length_replicate; lia). done.
Qed.

Lemma item_step_returns (E : Env) (cache : json) (date_key mover_type : string)
    (st st' : list (list string) * gmap string (list (list float)))
    (it sym : json) (ticker : string) (l : list json) (i : nat) :
  item_step E cache date_key mover_type st it = Ok st' →
  py_get it "symbol" (JStr EmptyString) = Ok sym →
  _clean_sym (builtins E) sym = Ok ticker →
  cached_days cache (ticker +:+ "|" +:+ date_key) = JList l →
  i < 11 →
  ∃ ov cv pv,
    offset_values (builtins E) l i = Ok (ov, cv, pv)
    ∧ ∀ key, bucket_at st'.2 key i
             = (λ R, R ++ contribution mover_type key pv) <$> bucket_at st.2 key i.
Proof.
  intros H Hsym Hclean Hl Hi.
  apply item_step_parts in H
    as (sym' & ticker' & row & base_row & long_row & short_row
        & Hsym' & Hclean' & Hw & _ & _ & Hfold & _).
  rewrite Hsym in Hsym'. inversion Hsym'; subst sym'.
  rewrite Hclean in Hclean'. inversion Hclean'; subst ticker'.
  rewrite Hl in Hfold.
  change (∃ ov cv pv,
    offset_values (builtins E) l i = Ok (ov, cv, pv)
    ∧ ∀ key, bucket_at (base_row, st'.2).2 key i
             = (λ R, R ++ contribution mover_type key pv) <$> bucket_at st.2 key i).
  revert Hfold.
  apply (foldM_seq_at
           (λ s, length s.1 = length HEADER ∧ ∀ key, bucket_at s.2 key i = bucket_at st.2 key i)
           (λ s, ∃ ov cv pv,
              offset_values (builtins E) l i = Ok (ov, cv, pv)
              ∧ ∀ key, bucket_at s.2 key i
                       = (λ R, R ++ contribution mover_type key pv) <$> bucket_at st.2 key i)
           _ 11 i Hi); [| | |done].
  - intros s j s' Hj Hne [Hs Hb] Hstep.
    split; [apply collect_step_width in Hstep; [congruence|done]|].
    intros key. rewrite <- Hb.
    apply collect_step_record in Hstep as (pv & Hstep); [|done].
    by apply (record_pct_other _ _ _ _ _ _ _ Hstep).
  - intros s s' [Hs Hb] Hstep.
    apply collect_step_list in Hstep as (ov & cv & pv & Hv & _ & _ & Hrec); [|done..].
    exists ov, cv, pv. split; [done|]. intros key.
    by rewrite (record_pct_at _ _ _ _ _ _ Hrec), Hb.
  - intros s j s' Hj Hne (ov & cv & pv & Hv & Hb) Hstep.
    exists ov, cv, pv. split; [done|]. intros key. rewrite <- Hb.
    apply collect_step_record in Hstep as (pv' & Hstep); [|done].
    by apply (record_pct_other _ _ _ _ _ _ _ Hstep).
Qed.

(** X9: the returns a mover contributes. When the cached series of an
    accepted mover is a list, the buckets at offset [i] change by exactly
    the return of the observation at that offset: the long cohort of the
    mover's kind receives the return, the short cohort its negation, and
    the cohorts of the other kind nothing; an observation without a
    return, or an offset beyond the series, adds nothing. *)
Theorem mover_returns (E : Env) (cache : json) (date_key mover_type : string)
    (st st' : list (list string) * gmap string (list (list float)))
    (it sym : json) (ticker : string) (l : list json) (i : nat) :
  item_step E cache date_key mover_type st it = Ok st' →
  py_get it "symbol" (JStr EmptyString) = Ok sym →
  _clean_sym (builtins E) sym = Ok ticker →
  cached_days cache (ticker +:+ "|" +:+ date_key) = JList l →
  i < 11 →
  ∃ ov cv pv,
    offset_values (builtins E) l i = Ok (ov, cv, pv)
    ∧ ∀ key, bucket_at st'.2 key i
             = (λ R, R ++ contribution mover_type key pv) <$> bucket_at st.2 key i.
Proof. apply item_step_returns. Qed.

(** An instance: the gainer AAA of 2 January 2024 over a series of
    eleven observations. *)
Lemma mover_returns_witness :
  ∃ st',
    item_step aggregator_env cache_full "2024-01-02" "gainers"
      ([], empty_buckets) (mover "AAA") = Ok st'
    ∧ ∃ ov cv pv,
        offset_values (builtins aggregator_env)
          (replicate 11 (JDict (fetch_subsequent.day_obj "2024-01-03" 10 10.5))) 0
        = Ok (ov, cv, pv)
        ∧ ∀ key, bucket_at st'.2 key 0
                 = (λ R, R ++ contribution "gainers" key pv)
                     <$> bucket_at (([], empty_buckets) : list (list string) * _).2 key 0.
Proof.
  eexists. split; [vm_compute; reflexivity|].
  apply (mover_returns aggregator_env cache_full "2024-01-02" "gainers"
           ([], empty_buckets) _ (mover "AAA") (JStr "AAA") "AAA"
           (replicate 11 (JDict (fetch_subsequent.day_obj "2024-01-03" 10 10.5))) 0);
    [vm_compute; reflexivity|reflexivity|reflexivity|reflexivity|lia].
Defined.

(** ** The table *)

Lemma foldM_exact {A B : Type} (μ : B → nat) (w : A → nat) (f : B → A → exc B)
    (xs : list A) :
  (∀ s x s', f s x = Ok s' → μ s' = μ s + w x) →
  ∀ s s', foldM f xs s = Ok s' → μ s' = μ s + sum_list_with w xs.
Proof.
  intros Hstep. induction xs as [|x xs IH]; intros s s' H; simpl in H.
  - inversion H; subst. simpl. lia.
  - apply bind_Ok in H as (s1 & H1 & H2).
    apply Hstep in H1. apply IH in H2. simpl. lia.
Qed.

Lemma sum_list_with_double {A : Type} (f : A → nat) (l : list A) :
  sum_list_with (λ x, 2 * f x) l = 2 * sum_list_with f l.
Proof. induction l as [|x l IH]; [done|]. cbn [sum_list_with]. rewrite IH. lia. Qed.

Lemma pairs_app (a b : list (list string)) : pairs a → pairs b → pairs (a ++ b).
Proof. induction 1; intros Hb; simpl; [done|]. constructor; auto. Qed.

Lemma pairs_even (a : list (list string)) : pairs a → ∃ k, length a = 2 * k.
Proof.
  induction 1 as [|r1 r2 rest _ _ [k Hk]]; [by exists 0|].
  exists (S k). simpl. lia.
Qed.

Lemma scan_rows_count E cache (m : gmap string json) data buckets :
  scan_rows E cache m = Ok (data, buckets) → length data = 2 * listed m.
Proof.
  unfold scan_rows, listed. intros H.
  assert (length (data, buckets).1
          = length (([], empty_buckets) : list (list string) * _).1
            + sum_list_with
                (λ date_key,
                   2 * sum_list_with
                         (λ mover_type,
                            match items_of (default (JDict ∅) (m !! date_key)) mover_type with
                            | Ok items => length items
                            | Raise _ => 0
                            end) ["gainers"; "losers"])
                (sorted_keys m)) as Hlen.
  { revert H.
    refine (foldM_exact (λ st : list (list string) * _, length st.1) _ _ _ _ _ _).
    intros st date_key st' Hd. unfold for_date in Hd.
    assert (length st'.1
            = length st.1
              + sum_list_with
                  (λ mover_type,
                     2 * match items_of (default (JDict ∅) (m !! date_key)) mover_type with
                         | Ok items => length items
                         | Raise _ => 0
                         end) ["gainers"; "losers"]) as Hd'.
    { revert Hd.
      refine (foldM_exact (λ st : list (list string) * _, length st.1) _ _ _ _ st st').
      intros s mt s' Hmt. unfold for_mover_type in Hmt.
      apply bind_Ok in Hmt as (v & Hv & Hmt). apply bind_Ok in Hmt as (items & Hitems & Hmt).
      unfold items_of. rewrite Hv. cbn [mbind exc_bind]. rewrite Hitems.
      assert (length s'.1 = length s.1 + sum_list_with (λ _, 2) items) as Hs.
      { revert Hmt.
        refine (foldM_exact (λ st : list (list string) * _, length st.1) _ _ _ _ s s').
        intros s0 it s0' Hit.
        apply item_step_event_date in Hit as (lr & sr & -> & _).
        rewrite length_app. simpl. lia. }
      rewrite Hs. f_equal. clear. induction items; simpl; lia. }
    rewrite Hd'. by rewrite sum_list_with_double. }
  cbn [fst length] in Hlen. rewrite Hlen.
  by rewrite sum_list_with_double.
Qed.

Lemma group_rows_width buckets g r :
  group_rows buckets g = Ok r → full_width r.
Proof.
  unfold group_rows.
  apply (foldM_invariant_in full_width).
  - intros s j s' Hj. apply elem_of_seq in Hj. apply summary_step_width. lia.
  - unfold full_width. cbn [total_row win_row avg_row].
    rewrite !length_insert. done.
Qed.

Lemma summary_rows_shape buckets :
  ∃ summary, _compute_summary_rows buckets = Ok summary
             ∧ length summary = 13
             ∧ Forall (λ r, length r = length HEADER) summary.
Proof.
  unfold _compute_summary_rows, groups. cbn [foldM].
  destruct (group_rows_spec buckets ("gainer_long", "Gainer Long")) as (r1 & H1 & _).
  destruct (group_rows_spec buckets ("gainer_short", "Gainer Short")) as (r2 & H2 & _).
  destruct (group_rows_spec buckets ("loser_long", "Loser Long")) as (r3 & H3 & _).
  destruct (group_rows_spec buckets ("loser_short", "Loser Short")) as (r4 & H4 & _).
  rewrite H1. cbn [mbind exc_bind]. rewrite H2. cbn [mbind exc_bind].
  rewrite H3. cbn [mbind exc_bind]. rewrite H4. cbn [mbind exc_bind].
  eexists. split; [done|]. split; [done|].
  apply group_rows_width in H1 as (? & ? & ?), H2 as (? & ? & ?),
    H3 as (? & ? & ?), H4 as (? & ? & ?).
  assert (length blank_row = length HEADER) as Hb
    by (unfold blank_row; apply length_replicate).
  cbn [app]. repeat (apply List.Forall_cons; [assumption|]).
  apply List.Forall_nil.
Qed.

Lemma scan_rows_pairs E cache (m : gmap string json) st' :
  scan_rows E cache m = Ok st' →
  pairs st'.1 ∧ Forall (λ r, length r = length HEADER) st'.1.
Proof.
  apply (scan_rows_inv (λ st, pairs st.1 ∧ Forall (λ r, length r = length HEADER) st.1)).
  - intros date_key mover_type st it st1 [Hp Hw] H.
    apply item_step_rows in H
      as (sym & ticker & lr & sr & _ & _ & -> & Hl & Hs & _ & _ & _ & Hc & _).
    split.
    + apply pairs_app; [done|]. constructor; [done|constructor].
    + apply Forall_app. split; [done|]. by repeat constructor.
  - split; constructor.
Qed.

Lemma scan_rows_buckets E cache (m : gmap string json) st' :
  scan_rows E cache m = Ok st' → eleven_each st'.2 ∧ mirrored st'.2.
Proof.
  apply (scan_rows_inv (λ st, eleven_each st.2 ∧ mirrored st.2)).
  - intros date_key mover_type st it st1 HI.
    apply (item_step_buckets (λ b, eleven_each b ∧ mirrored b)); [|done].
    intros j pv b b' Hj [He Hm] Hrec. split.
    + by eapply record_pct_eleven.
    + by eapply record_pct_mirrored.
  - split; [apply empty_buckets_eleven|apply empty_buckets_mirrored].
Qed.

(** X10: the shape of the report. A table that [populate_from_movers]
    writes for a store of movers is the header, then two rows for every
    mover the store lists (repetitions and blank symbols included), a
    long row followed by its short companion, then the thirteen summary
    rows; every row is as wide as the header, and the count returned is
    the number of rows under the header. *)
Theorem report_shape (E : Env) (m : gmap string json) (cache : json)
    (table : list (list string)) (n : nat) :
  populate_from_movers E (Loaded (JDict m)) cache = Ok (Some table, n) →
  ∃ data buckets summary,
    scan_rows E cache m = Ok (data, buckets)
    ∧ _compute_summary_rows buckets = Ok summary
    ∧ table = HEADER :: data ++ summary
    ∧ pairs data
    ∧ length data = 2 * listed m
    ∧ length summary = 13
    ∧ n = 2 * listed m + 13
    ∧ Forall (λ r, length r = length HEADER) table.
Proof.
  unfold populate_from_movers. fold (scan_rows E cache m). intros H.
  apply bind_Ok in H as ([data buckets] & Hscan & H).
  destruct (summary_rows_shape buckets) as (summary & Hsum & Hlen & Hw).
  rewrite Hsum in H. destruct (write_ok E); [|done]. inversion H; subst; clear H.
  destruct (scan_rows_pairs _ _ _ _ Hscan) as [Hp Hdw]. cbn [fst] in Hp, Hdw.
  pose proof (scan_rows_count _ _ _ _ _ Hscan) as Hc.
  exists data, buckets, summary.
  split; [done|]. split; [done|]. split; [done|]. split; [done|]. split; [done|].
  split; [done|]. split; [rewrite length_app; lia|].
  apply Forall_cons. split; [done|]. apply Forall_app. done.
Qed.

(** An instance: one gainer over a series of eleven observations. *)
Lemma report_shape_witness :
  ∃ table n,
    populate_from_movers aggregator_env (Loaded movers_one) cache_full = Ok (Some table, n)
    ∧ ∃ data buckets summary,
        scan_rows aggregator_env cache_full
          {[ "2024-01-02" := movers_record [mover "AAA"] [] ]} = Ok (data, buckets)
        ∧ _compute_summary_rows buckets = Ok summary
        ∧ table = HEADER :: data ++ summary
        ∧ pairs data
        ∧ length data = 2 * listed {[ "2024-01-02" := movers_record [mover "AAA"] [] ]}
        ∧ length summary = 13
        ∧ n = 2 * listed {[ "2024-01-02" := movers_record [mover "AAA"] [] ]} + 13
        ∧ Forall (λ r, length r = length HEADER) table.
Proof.
  eexists _, _. split; [vm_compute; reflexivity|].
  apply (report_shape aggregator_env {[ "2024-01-02" := movers_record [mover "AAA"] [] ]}
           cache_full).
  vm_compute. reflexivity.
Defined.

(** X11: the short cohorts mirror the long ones. Whatever the store and
    the cache hold, when the scan of [populate_from_movers] ends each of
    the four cohorts still has its eleven lists, and at every offset the
    short cohort of gainers (of losers) holds, one for one and in the same
    order, the negated returns of the long cohort of gainers (of losers). *)
Theorem short_mirrors_long (E : Env) (cache : json) (m : gmap string json)
    (data : list (list string)) (buckets : gmap string (list (list float))) :
  scan_rows E cache m = Ok (data, buckets) →
  eleven_each buckets ∧ mirrored buckets.
Proof. intros H. exact (scan_rows_buckets E cache m (data, buckets) H). Qed.

(** An instance: one gainer over a series of eleven observations. *)
Lemma short_mirrors_long_witness :
  ∃ data buckets,
    scan_rows aggregator_env cache_full
      {[ "2024-01-02" := movers_record [mover "AAA"] [] ]} = Ok (data, buckets)
    ∧ eleven_each buckets ∧ mirrored buckets.
Proof.
  eexists _, _. split; [vm_compute; reflexivity|].
  eapply (short_mirrors_long aggregator_env cache_full
            {[ "2024-01-02" := movers_record [mover "AAA"] [] ]}).
  vm_compute. reflexivity.
Defined.

End AggregatorMore.

(* ===================================================================== *)
(** * The Aggregator on sound files                                       *)
(* ===================================================================== *)

Module AggregatorTotal.
Import populate_movers_csv Samples Notions AggregatorNotions.
Import AggregatorFacts.

Lemma ensure_number_total B v : no_int v → ∃ x, _ensure_number B v = Ok x.
Proof. destruct v; cbn; eauto. done. Qed.

Lemma day_values_total B obs :
  sound_observation obs → ∃ x, day_values B obs = Ok x.
Proof.
  intros (m & -> & Ho & Hc & Hp). unfold day_values, py_get. cbn [mbind exc_bind].
  destruct (ensure_number_total B _ Ho) as (o & ->).
  destruct (ensure_number_total B _ Hc) as (c & ->).
  destruct (ensure_number_total B _ Hp) as (pv & ->).
  cbn [mbind exc_bind]. eauto.
Qed.

Lemma clean_sym_total B v : sound_symbol v → ∃ t, _clean_sym B v = Ok t.
Proof.
  destruct v as [| | | |s| |]; try done. intros [Ha Hs].
  change (_clean_sym B (JStr s)) with (fetch_subsequent._clean_sym B (JStr s)).
  rewrite (SymbolFacts.clean_sym_ascii B s Ha).
  destruct (String.eqb_spec s EmptyString) as [->|Hne]; [eauto|].
  destruct Hs as [?|Hl]; [done|]. unfold first_token.
  destruct (lstrip s); [done|eauto].
Qed.

Lemma bucket_append_total buckets key i p :
  eleven_each buckets →
  key ∈ ["gainer_long"; "gainer_short"; "loser_long"; "loser_short"] →
  i < 11 →
  ∃ buckets', bucket_append buckets key i p = Ok buckets' ∧ eleven_each buckets'.
Proof.
  intros He Hk Hi. destruct (He key Hk) as (lists & Hl & Hlen).
  destruct (lookup_lt_is_Some_2 lists i ltac:(lia)) as [R HR].
  assert (bucket_append buckets key i p = Ok (<[key := <[i := R ++ [p]]> lists]> buckets))
    as H by (unfold bucket_append; by rewrite Hl, HR).
  eexists. split; [exact H|]. by eapply AggregatorMore.bucket_append_eleven.
Qed.

Lemma record_pct_total label i pv buckets :
  eleven_each buckets → i < 11 →
  ∃ buckets', record_pct label i pv buckets = Ok buckets' ∧ eleven_each buckets'.
Proof.
  intros He Hi. unfold record_pct. destruct pv as [p|]; [|eauto].
  destruct (String.eqb label "gainer").
  - destruct (bucket_append_total buckets "gainer_long" i p He ltac:(set_solver) Hi)
      as (b1 & -> & He1). cbn [mbind exc_bind].
    apply bucket_append_total; [done|set_solver|done].
  - destruct (bucket_append_total buckets "loser_long" i p He ltac:(set_solver) Hi)
      as (b1 & -> & He1). cbn [mbind exc_bind].
    apply bucket_append_total; [done|set_solver|done].
Qed.

Lemma collect_step_total B label l st j :
  j < 11 → Forall sound_observation l → eleven_each st.2 →
  ∃ st', collect_step B label (JList l) st j = Ok st' ∧ eleven_each st'.2.
Proof.
  intros Hj Hl He. unfold collect_step. cbn [py_len mbind exc_bind].
  destruct (j <? length l) eqn:Hlt.
  - apply Nat.ltb_lt in Hlt. destruct (lookup_lt_is_Some_2 l j Hlt) as [obs Hobs].
    cbn [py_index]. rewrite Hobs. cbn [mbind exc_bind].
    destruct (day_values_total B obs) as ([[ov cv] pv] & ->).
    { by eapply Forall_lookup_1. }
    cbn [mbind exc_bind].
    rewrite set_cell_open by done. cbn [mbind exc_bind].
    rewrite set_cell_close by done. cbn [mbind exc_bind].
    destruct (record_pct_total label j pv st.2 He Hj) as (b' & -> & He').
    cbn [mbind exc_bind]. eauto.
  - rewrite set_cell_open by done. cbn [mbind exc_bind].
    rewrite set_cell_close by done. cbn [mbind exc_bind].
    rewrite set_cell_pct by done. cbn [mbind exc_bind]. eauto.
Qed.

Lemma direction_step_total B direction l row j :
  j < 11 → Forall sound_observation l →
  ∃ row', direction_step B direction (JList l) row j = Ok row'.
Proof.
  intros Hj Hl. unfold direction_step. cbn [py_len mbind exc_bind].
  destruct (j <? length l) eqn:Hlt.
  - apply Nat.ltb_lt in Hlt. destruct (lookup_lt_is_Some_2 l j Hlt) as [obs Hobs].
    cbn [py_index]. rewrite Hobs. cbn [mbind exc_bind].
    destruct (day_values_total B obs) as ([[ov cv] pv] & ->).
    { by eapply Forall_lookup_1. }
    cbn [mbind exc_bind]. destruct pv; rewrite set_cell_pct by done; eauto.
  - rewrite set_cell_pct by done. eauto.
Qed.

Lemma direction_row_total B l base_row direction :
  Forall sound_observation l →
  ∃ row, direction_row B (JList l) base_row direction = Ok row.
Proof.
  intros Hl. unfold direction_row.
  destruct header_index_fixed as (_ & _ & _ & Hd & _).
  rewrite (set_cell_at _ _ _ 3 Hd). cbn [mbind exc_bind].
  destruct (foldM_total_in (λ _, True) (direction_step B direction (JList l)) (seq 0 11))
    with (s := <[3 := direction]> base_row) as (row & Hrow & _); [|done|eauto].
  intros s j Hj _. apply elem_of_seq in Hj.
  destruct (direction_step_total B direction l s j ltac:(lia) Hl) as (s' & Hs'). eauto.
Qed.

Lemma cached_days_sound cache key :
  sound_cache cache → ∃ l, cached_days cache key = JList l ∧ Forall sound_observation l.
Proof.
  intros Hc. unfold cached_days. destruct cache as [| | | | | |d]; try (by exists []).
  destruct (d !! key) as [v|] eqn:Hk; [|by exists []].
  destruct (Hc d key v eq_refl Hk) as (l & -> & Hl). eauto.
Qed.

Lemma event_numbers_total E (im : gmap string json) :
  no_int (default JNull (im !! "change_pts")) → ∃ x, event_numbers E (JDict im) = Ok x.
Proof.
  intros Hn. unfold event_numbers, py_get. cbn [mbind exc_bind].
  destruct (ensure_number_total (builtins E) _ Hn) as (pts & ->). cbn [mbind exc_bind].
  destruct pts; eauto.
Qed.

Lemma item_step_total E cache date_key mover_type st it :
  sound_cache cache → sound_item it → eleven_each st.2 →
  ∃ st', item_step E cache date_key mover_type st it = Ok st' ∧ eleven_each st'.2.
Proof.
  intros Hc (im & -> & Hsym & Hpts) He. unfold item_step.
  destruct header_index_fixed as (Ht & Hev & Hm & _ & Hpc & Hec & _).
  cbn [py_get mbind exc_bind].
  destruct (clean_sym_total (builtins E) _ Hsym) as (ticker & ->). cbn [mbind exc_bind].
  destruct (event_numbers_total E im Hpts) as ([pct_f pts] & ->). cbn [mbind exc_bind].
  rewrite (set_cell_at _ _ _ 0 Ht). cbn [mbind exc_bind].
  rewrite (set_cell_at _ _ _ 1 Hev). cbn [mbind exc_bind].
  rewrite (set_cell_at _ _ _ 2 Hm). cbn [mbind exc_bind].
  rewrite (set_cell_at _ _ _ 4 Hpc). cbn [mbind exc_bind].
  rewrite (set_cell_at _ _ _ 5 Hec). cbn [mbind exc_bind].
  destruct (cached_days_sound cache (ticker +:+ "|" +:+ date_key) Hc) as (l & -> & Hl).
  match goal with
  | |- context [foldM ?f (seq 0 11) ?s0] =>
      destruct (foldM_total_in (λ s, eleven_each s.2) f (seq 0 11)) with (s := s0)
        as ([base_row buckets] & -> & He')
  end.
  { intros s j Hj Hs. apply elem_of_seq in Hj. apply collect_step_total; [lia|done..]. }
  { done. }
  cbn [mbind exc_bind].
  destruct (direction_row_total (builtins E) l base_row "long" Hl) as (lr & ->).
  cbn [mbind exc_bind].
  destruct (direction_row_total (builtins E) l base_row "short" Hl) as (sr & ->).
  cbn [mbind exc_bind]. eauto.
Qed.

Lemma for_mover_type_total E cache date_key entry st mover_type :
  sound_cache cache → sound_record entry → mover_type ∈ ["gainers"; "losers"] →
  eleven_each st.2 →
  ∃ st', for_mover_type E cache date_key entry st mover_type = Ok st' ∧ eleven_each st'.2.
Proof.
  intros Hc (em & -> & Hem) Hmt He. unfold for_mover_type. cbn [py_get mbind exc_bind].
  assert (∃ items, py_iter (py_or (default (JList []) (em !! mover_type)) (JList []))
                   = Ok items ∧ Forall sound_item items) as (items & -> & Hitems).
  { destruct (em !! mover_type) as [v|] eqn:Hv.
    - destruct (Hem mover_type v Hmt Hv) as (items & -> & Hi).
      change (default (JList []) (Some (JList items))) with (JList items).
      unfold py_or. destruct (truthy (JList items)).
      + exists items. split; [reflexivity|exact Hi].
      + exists []. split; [reflexivity|constructor].
    - exists []. split; [reflexivity|constructor]. }
  cbn [mbind exc_bind].
  apply (foldM_total_in (λ s, eleven_each s.2)); [|done].
  intros s it Hit Hs. apply item_step_total; [done| |done].
  by eapply Forall_forall in Hitems.
Qed.

Lemma for_date_total E cache (m : gmap string json) st date_key :
  sound_cache cache → sound_store m → eleven_each st.2 →
  ∃ st', for_date E cache m st date_key = Ok st' ∧ eleven_each st'.2.
Proof.
  intros Hc Hm He. unfold for_date.
  apply (foldM_total_in (λ s, eleven_each s.2)); [|done].
  intros s mt Hmt Hs. apply for_mover_type_total; [done| |done|done].
  destruct (m !! date_key) as [entry|] eqn:Hd; [by eapply Hm|].
  exists ∅. split; [done|]. intros mt' v _ Hv. by rewrite lookup_empty in Hv.
Qed.

Lemma scan_rows_total E cache (m : gmap string json) :
  sound_cache cache → sound_store m → ∃ st', scan_rows E cache m = Ok st'.
Proof.
  intros Hc Hm. unfold scan_rows.
  destruct (foldM_total_in (λ s, eleven_each s.2) (for_date E cache m) (sorted_keys m))
    with (s := (([], empty_buckets) : list (list string) * _)) as (st' & H & _); [| |eauto].
  - intros s dk _ Hs. by apply for_date_total.
  - apply AggregatorMore.empty_buckets_eleven.
Qed.

(** X12: the report of sound files. When every record of the store is a
    dictionary whose lists of gainers and losers hold dictionaries with an
    ASCII symbol that is empty or not blank and no integer point change,
    and every series of the cache is a list of dictionaries without
    integer prices, [populate_from_movers] raises nothing: it returns a
    count, and the count is zero only if the table could not be
    written. *)
Theorem report_of_sound_files (E : Env) (m : gmap string json) (cache : json) :
  sound_store m →
  sound_cache cache →
  ∃ table n,
    populate_from_movers E (Loaded (JDict m)) cache = Ok (table, n)
    ∧ (write_ok E = true → 13 ≤ n ∧ is_Some table)
    ∧ (write_ok E = false → n = 0 ∧ table = None).
Proof.
  intros Hm Hc. unfold populate_from_movers. fold (scan_rows E cache m).
  destruct (scan_rows_total E cache m Hc Hm) as ([data buckets] & ->).
  cbn [mbind exc_bind].
  destruct (AggregatorMore.summary_rows_shape buckets) as (summary & -> & Hlen & _).
  destruct (write_ok E).
  - eexists _, _. split; [done|]. split; [|done]. intros _.
    rewrite length_app. split; [lia|done].
  - eexists _, _. split; [done|]. split; [done|]. done.
Qed.

Lemma sample_store_sound :
  sound_store {[ "2024-01-02" := movers_record [mover "AAA"] [] ]}.
Proof.
  intros date_key entry H. apply lookup_singleton_Some in H as [_ <-].
  eexists. split; [reflexivity|]. intros mt v Hmt Hv.
  set_unfold in Hmt. destruct Hmt as [->|[->|[]]].
  - exists [mover "AAA"]. split; [by vm_compute in Hv; inversion Hv|].
    constructor; [|constructor].
    eexists. split; [reflexivity|].
    split; [split; [reflexivity|right; vm_compute; discriminate]|].
    vm_compute. exact I.
  - exists []. split; [by vm_compute in Hv; inversion Hv|]. constructor.
Qed.

Lemma sample_cache_sound : sound_cache cache_full.
Proof.
  intros d key v Hd Hk. inversion Hd; subst d; clear Hd.
  apply lookup_singleton_Some in Hk as [_ <-].
  eexists. split; [reflexivity|].
  repeat (apply List.Forall_cons;
          [eexists; split; [reflexivity|]; vm_compute; done|]).
  apply List.Forall_nil.
Qed.

(** An instance: one gainer over a series of eleven observations. *)
Lemma report_of_sound_files_witness :
  sound_store {[ "2024-01-02" := movers_record [mover "AAA"] [] ]}
  ∧ sound_cache cache_full
  ∧ ∃ table n,
      populate_from_movers aggregator_env
        (Loaded (JDict {[ "2024-01-02" := movers_record [mover "AAA"] [] ]})) cache_full
      = Ok (table, n)
      ∧ (write_ok aggregator_env = true → 13 ≤ n ∧ is_Some table)
      ∧ (write_ok aggregator_env = false → n = 0 ∧ table = None).
Proof.
  split; [exact sample_store_sound|]. split; [exact sample_cache_sound|].
  exact (report_of_sound_files aggregator_env _ cache_full
           sample_store_sound sample_cache_sound).
Defined.

End AggregatorTotal.

(* ===================================================================== *)
(** * The Tracker on sound files                                          *)
(* ===================================================================== *)

Module TrackerTotal.
Import fetch_subsequent Samples Notions TrackerNotions AggregatorNotions.








End TrackerTotal.

(* ===================================================================== *)
(** * More on the Acquisition                                             *)
(* ===================================================================== *)

Module AcquisitionMore.
Import yahoo_top_movers Samples Notions AcquisitionNotions.

(** ** The gates of [run_and_persist] *)

Lemma run_and_persist_gates E top_n file file' :
  run_and_persist E top_n file = Ok file' →
  file' ≠ file →
  is_market_day E = true
  ∧ after_cutoff_et E 20 = true
  ∧ save_ok E = true
  ∧ ∃ heap gainers losers heap1 heap2 m,
      scrape_top_gainers_and_losers E top_n = (heap, gainers, losers)
      ∧ enrich_pool E heap gainers = Ok heap1
      ∧ enrich_pool E heap1 losers = Ok heap2
      ∧ has_data heap2 (gainers ++ losers) = true
      ∧ default (JDict ∅) file = JDict m
      ∧ m !! date_str E = None
      ∧ file' = Some (JDict (<[date_str E := record_of E heap2 gainers losers]> m)).
Proof.
  unfold run_and_persist. intros H Hne.
  destruct (is_market_day E); cbn [negb] in H; [|by inversion H].
  destruct (after_cutoff_et E 20); cbn [negb] in H; [|by inversion H].
  destruct (scrape_top_gainers_and_losers E top_n) as [[heap gainers] losers].
  destruct (gainers ++ losers) as [|c cs] eqn:Hcand; [by inversion H|].
  rewrite <- Hcand in H.
  apply bind_Ok in H as (heap1 & H1 & H). apply bind_Ok in H as (heap2 & H2 & H).
  destruct (has_data heap2 (gainers ++ losers)) eqn:Hd; cbn [negb] in H; [|by inversion H].
  unfold persist in H.
  destruct (default (JDict ∅) file) as [| | | | |l|m] eqn:Hf; try done.
  - destruct (substringb _ _); [by inversion H|done].
  - destruct (existsb _ l); [by inversion H|done].
  - destruct (m !! date_str E) eqn:Hm; [by inversion H|].
    destruct (save_ok E); [|done]. inversion H; subst.
    do 3 (split; [done|]). exists heap, gainers, losers, heap1, heap2, m. done.
Qed.

(** ** Scraping *)

Lemma parse_top_rows_scraped trs top_n :
  Forall2 scraped_from (item_rows trs top_n) (_parse_top_rows trs top_n).
Proof.
  unfold item_rows, _parse_top_rows.
  induction (slice_to top_n trs) as [|cols l IH]; [constructor|].
  destruct cols as [|c0 cols].
  - rewrite filter_cons_False by (intros H; by apply H). done.
  - rewrite filter_cons_True by done. cbn [omap list_omap].
    constructor; [|exact IH].
    split; [done|]. repeat split;
      repeat (rewrite lookup_insert_ne by done); by rewrite lookup_insert_eq.
Qed.

(** ** Enrichment *)

Lemma enrich_symbol_text B (item item' : gmap string json) :
  (∀ k, text_key k → item' !! k = item !! k) →
  enrich_symbol B item' = enrich_symbol B item.
Proof.
  intros H. unfold enrich_symbol. by rewrite (H "symbol") by (repeat split; done).
Qed.

Lemma quoted_consistent E item : quoted E item → numbers_consistent item.
Proof.
  intros (sym & _ & o & c & p & Hd & Ho & Hc & Hp).
  exists o, c. split; [done|]. split; [done|]. rewrite Hp. do 2 f_equal.
  destruct (String.eqb sym EmptyString); [by inversion Hd|].
  unfold fetch_symbol_details in Hd.
  destruct (quote_page E sym) as [[[os ps] prs]|]; by inversion Hd.
Qed.

Lemma enrich_item_effect E heap ref heap' :
  enrich_item E heap ref = Ok heap' →
  ∃ item item', heap !! ref = Some item
                ∧ heap' = <[ref := item']> heap
                ∧ enriched E item item'.
Proof.
  unfold enrich_item. intros H.
  destruct (heap !! ref) as [item|] eqn:Hr; [|done].
  apply bind_Ok in H as (sym & Hsym & H).
  destruct (if String.eqb sym EmptyString then (None, None, None)
            else fetch_symbol_details E sym) as [[o c] p] eqn:Hd.
  inversion H; subst; clear H.
  eexists item, _. split; [done|]. split; [done|].
  assert (∀ k, text_key k →
               (<["change_pts" := json_of_float p]>
                  (<["close" := json_of_float c]> (<["open" := json_of_float o]> item)))
                 !! k = item !! k) as Ht.
  { intros k (Ho & Hc & Hp). by rewrite !lookup_insert_ne by done. }
  split; [done|].
  exists sym. split; [by rewrite (enrich_symbol_text _ _ _ Ht)|].
  exists o, c, p. split; [done|]. split; [|split].
  - rewrite !lookup_insert_ne by done. by rewrite lookup_insert_eq.
  - rewrite lookup_insert_ne by done. by rewrite lookup_insert_eq.
  - by rewrite lookup_insert_eq.
Qed.

Lemma enriched_again E item item1 item2 :
  (∀ k, text_key k → item1 !! k = item !! k) → enriched E item1 item2 → enriched E item item2.
Proof.
  intros H1 [H2 Hn]. split; [|done]. intros k Hk. by rewrite H2, H1.
Qed.

Lemma enrich_pool_effect E pool : ∀ heap heap',
  enrich_pool E heap pool = Ok heap' →
  length heap' = length heap
  ∧ ∀ ref item, heap !! ref = Some item →
      ∃ item', heap' !! ref = Some item'
               ∧ (∀ k, text_key k → item' !! k = item !! k)
               ∧ (ref ∈ pool → enriched E item item')
               ∧ (ref ∉ pool → item' = item).
Proof.
  unfold enrich_pool. induction pool as [|r pool IH]; intros heap heap' H.
  - inversion H; subst. split; [done|]. intros ref item Hi.
    exists item. split; [done|]. split; [done|]. split; [|done].
    intros Hin. by apply elem_of_nil in Hin.
  - cbn [foldM] in H. apply bind_Ok in H as (heap1 & H1 & H).
    apply enrich_item_effect in H1 as (it0 & it0' & Hr & -> & He).
    apply IH in H as [Hlen IH']. rewrite length_insert in Hlen.
    split; [done|]. intros ref item Hi.
    destruct (decide (ref = r)) as [->|Hne].
    + rewrite Hr in Hi. inversion Hi; subst it0.
      destruct (IH' r it0') as (item' & Hl & Ht & Hin & Hout).
      { apply list_lookup_insert_eq. by eapply lookup_lt_Some. }
      exists item'. split; [done|].
      split; [intros k Hk; rewrite Ht by done; by apply He|].
      split; [|intros Hn; exfalso; apply Hn; left].
      intros _. destruct (decide (r ∈ pool)) as [Hp|Hp].
      * eapply enriched_again; [apply He|by apply Hin].
      * by rewrite (Hout Hp).
    + destruct (IH' ref item) as (item' & Hl & Ht & Hin & Hout).
      { by rewrite list_lookup_insert_ne. }
      exists item'. split; [done|]. split; [done|]. split.
      * intros Hin'. apply elem_of_cons in Hin' as [?|?]; [done|by apply Hin].
      * intros Hn. apply Hout. intros ?. apply Hn. by right.
Qed.

Lemma deref_seq (heap : list (gmap string json)) (a n : nat) :
  a + n ≤ length heap →
  deref heap (seq a n) = JList (JDict <$> take n (drop a heap)).
Proof.
  unfold deref. intros H. f_equal. revert a H.
  induction n as [|n IH]; intros a H; [done|].
  cbn [seq omap list_omap].
  destruct (lookup_lt_is_Some_2 heap a ltac:(lia)) as [x Hx].
  rewrite Hx. cbn [fmap option_fmap option_map].
  rewrite (drop_S _ _ _ Hx). cbn [take fmap list_fmap]. f_equal.
  apply IH. lia.
Qed.

(** The heap after both pools, item by item: every item has kept its
    texts and has the numbers of its own quote page, whichever pool it is
    in. *)
Lemma enrich_both E (G0 L0 heap1 heap2 : list (gmap string json)) :
  enrich_pool E (G0 ++ L0) (seq 0 (length G0)) = Ok heap1 →
  enrich_pool E heap1 (seq (length G0) (length L0)) = Ok heap2 →
  Forall2 (enriched E) (G0 ++ L0) heap2.
Proof.
  intros H1 H2.
  apply enrich_pool_effect in H1 as [Hlen1 H1], H2 as [Hlen2 H2].
  apply Forall2_same_length_lookup_2; [congruence|].
  intros ref item item2 Hi Hi2.
  destruct (H1 ref item Hi) as (item1 & Hl1 & Ht1 & Hin1 & Hout1).
  destruct (H2 ref item1 Hl1) as (item2' & Hl2 & Ht2 & Hin2 & Hout2).
  rewrite Hi2 in Hl2. inversion Hl2; subst item2'.
  apply lookup_lt_Some in Hi. rewrite length_app in Hi.
  destruct (decide (ref < length G0)) as [Hlt|Hge].
  - rewrite Hout2 by (rewrite elem_of_seq; lia).
    apply Hin1. rewrite elem_of_seq. lia.
  - rewrite Hout1 in Hin2 by (rewrite elem_of_seq; lia).
    apply Hin2. rewrite elem_of_seq. lia.
Qed.

Lemma scraped_enriched E cols item item' :
  scraped_from cols item → enriched E item item' → scraped_from cols item'.
Proof.
  intros (Hc & Hs & Hn & Hp & Hch & Hpc) [Ht _].
  split; [done|].
  rewrite !Ht by (repeat split; done). done.
Qed.

Lemma Forall2_scraped E rows (G0 G : list (gmap string json)) :
  Forall2 scraped_from rows G0 → Forall2 (enriched E) G0 G → Forall2 scraped_from rows G.
Proof.
  intros H. revert G. induction H as [|cols x rows G0 Hx _ IH]; intros G HG.
  - apply Forall2_nil_inv_l in HG as ->. constructor.
  - apply Forall2_cons_inv_l in HG as (y & G' & Hy & HG' & ->).
    constructor; [by eapply scraped_enriched|by apply IH].
Qed.

Lemma scraped_row rows (G : list (gmap string json)) item :
  Forall2 scraped_from rows G → item ∈ G → ∃ cols, scraped_from cols item.
Proof.
  intros H Hin. apply list_elem_of_lookup_1 in Hin as [i Hi].
  destruct (Forall2_lookup_r _ _ _ _ _ H Hi) as (cols & _ & Hc). eauto.
Qed.

(** The test of line 207 on an item that was scraped and enriched. *)
Lemma item_has_data_spec E cols item :
  scraped_from cols item → quoted E item → item_has_data item = true →
  close_or_pct_text item.
Proof.
  intros (_ & _ & _ & _ & _ & Hpc) (sym & _ & o & c & p & _ & _ & Hc & _).
  unfold item_has_data, close_or_pct_text. rewrite Hc, Hpc. cbn [default].
  destruct c as [f|]; cbn [json_of_float]; [intros _; left; eauto|].
  cbn [truthy]. intros Hs. right. eexists. split; [done|].
  intros Heq. by rewrite Heq in Hs.
Qed.

Lemma movers_file_after_changed E top_n file :
  movers_file_after E top_n file ≠ file →
  run_and_persist E top_n file = Ok (movers_file_after E top_n file).
Proof.
  unfold movers_file_after. by destruct (run_and_persist E top_n file).
Qed.

(** Everything that holds when a call has changed the file. *)
Lemma changed_file E top_n file :
  movers_file_after E top_n file ≠ file →
  is_market_day E = true
  ∧ after_cutoff_et E 20 = true
  ∧ save_ok E = true
  ∧ ∃ gainers_page losers_page G L m item,
      pages E = Some (gainers_page, losers_page)
      ∧ default (JDict ∅) file = JDict m
      ∧ m !! date_str E = None
      ∧ movers_file_after E top_n file = Some (JDict (<[date_str E := day_record E G L]> m))
      ∧ Forall2 scraped_from (item_rows gainers_page top_n) G
      ∧ Forall2 scraped_from (item_rows losers_page top_n) L
      ∧ Forall (quoted E) (G ++ L)
      ∧ item ∈ G ++ L
      ∧ item_has_data item = true.
Proof.
  intros Hne. pose proof (movers_file_after_changed E top_n file Hne) as H.
  apply run_and_persist_gates in H
    as (Hmd & Hcut & Hsave & heap & gainers & losers & heap1 & heap2 & m
        & Hscrape & H1 & H2 & Hd & Hf & Hk & Hafter); [|done].
  do 3 (split; [done|]).
  unfold scrape_top_gainers_and_losers in Hscrape.
  destruct (pages E) as [[gp lp]|].
  2:{ inversion Hscrape; subst. cbn in H1. inversion H1; subst.
      cbn in H2. inversion H2; subst. done. }
  set (G0 := _parse_top_rows gp top_n) in *.
  set (L0 := _parse_top_rows lp top_n) in *.
  inversion Hscrape; subst heap gainers losers; clear Hscrape.
  pose proof (enrich_both E G0 L0 heap1 heap2 H1 H2) as He.
  pose proof (Forall2_length _ _ _ He) as Hlen. rewrite length_app in Hlen.
  assert (Forall2 (enriched E) G0 (take (length G0) heap2)) as HG.
  { apply (Forall2_take _ _ _ (length G0)) in He. by rewrite take_app_length in He. }
  assert (Forall2 (enriched E) L0 (drop (length G0) heap2)) as HL.
  { apply (Forall2_drop _ _ _ (length G0)) in He. by rewrite drop_app_length in He. }
  apply existsb_exists in Hd as (ref & _ & Hd).
  destruct (heap2 !! ref) as [item|] eqn:Hitem; [|done].
  exists gp, lp, (take (length G0) heap2), (drop (length G0) heap2), m, item.
  split; [done|]. split; [done|]. split; [done|]. split.
  { rewrite Hafter. unfold record_of, day_record.
    rewrite !deref_seq by lia. rewrite drop_0.
    rewrite (take_ge (drop _ _)) by (rewrite length_drop; lia). done. }
  split; [eapply Forall2_scraped; [apply parse_top_rows_scraped|exact HG]|].
  split; [eapply Forall2_scraped; [apply parse_top_rows_scraped|exact HL]|].
  rewrite take_drop. split.
  { apply Forall_lookup. intros i y Hy.
    destruct (Forall2_lookup_r _ _ _ _ _ He Hy) as (x & _ & [_ Hq]). done. }
  split; [by eapply list_elem_of_lookup_2|done].
Qed.

(** X14: the store is written only through every gate. When a call of
    [run_and_persist] leaves [movers.json] other than it found it, the day
    is a market day (by the exchange calendar, or a weekday when the
    calendar fails), the New York time has reached 20:00, saving worked,
    the file was a dictionary (or missing) without a record for today, and
    the file afterwards is that dictionary with one record added under
    today's date, the records of all other dates being as they were; and
    among the items of that record there is one whose close is a number
    or whose percent change is a text that is not empty. *)
Theorem store_written_only_through_gates (E : Env) (top_n : Z) (file : option json) :
  movers_file_after E top_n file ≠ file →
  is_market_day E = true
  ∧ (nyse_schedule E = None → weekday E < 5)
  ∧ (20 * 3600 ≤ seconds E)%Z
  ∧ save_ok E = true
  ∧ ∃ m G L item,
      default (JDict ∅) file = JDict m
      ∧ m !! date_str E = None
      ∧ movers_file_after E top_n file = Some (JDict (<[date_str E := day_record E G L]> m))
      ∧ item ∈ G ++ L
      ∧ close_or_pct_text item
      ∧ ∀ k, k ≠ date_str E →
             series (JDict (<[date_str E := day_record E G L]> m)) k = m !! k.
Proof.
  intros Hne.
  destruct (changed_file E top_n file Hne)
    as (Hm & Hc & Hs & gp & lp & G & L & m & item
        & _ & Hf & Hk & Hafter & HG & HL & Hq & Hin & Hd).
  split; [done|]. split.
  { intros Hn. unfold is_market_day, is_weekend in Hm. rewrite Hn in Hm.
    apply negb_true_iff, Nat.leb_gt in Hm. lia. }
  split; [unfold after_cutoff_et in Hc; lia|]. split; [done|].
  exists m, G, L, item.
  split; [done|]. split; [done|]. split; [done|]. split; [done|]. split.
  - assert (∃ cols, scraped_from cols item) as [cols Hcols].
    { pose proof Hin as Hin'. apply elem_of_app in Hin' as [Hin'|Hin'].
      - exact (scraped_row _ G item HG Hin').
      - exact (scraped_row _ L item HL Hin'). }
    apply (item_has_data_spec E cols); [done| |done].
    by eapply Forall_forall in Hq.
  - intros k Hk'. unfold series. by rewrite lookup_insert_ne.
Qed.

(** An instance: the evening of Tuesday 2 January 2024 with no file. *)
Lemma store_written_only_through_gates_witness :
  movers_file_after acquisition_env 5 None ≠ None
  ∧ is_market_day acquisition_env = true
  ∧ (nyse_schedule acquisition_env = None → weekday acquisition_env < 5)
  ∧ (20 * 3600 ≤ seconds acquisition_env)%Z
  ∧ save_ok acquisition_env = true
  ∧ ∃ m G L item,
      default (JDict ∅) None = JDict m
      ∧ m !! date_str acquisition_env = None
      ∧ movers_file_after acquisition_env 5 None
        = Some (JDict (<[date_str acquisition_env := day_record acquisition_env G L]> m))
      ∧ item ∈ G ++ L
      ∧ close_or_pct_text item
      ∧ ∀ k, k ≠ date_str acquisition_env →
             series (JDict (<[date_str acquisition_env := day_record acquisition_env G L]> m)) k
             = m !! k.
Proof.
  split; [vm_compute; discriminate|].
  apply (store_written_only_through_gates acquisition_env 5 None).
  vm_compute. discriminate.
Defined.

(** X15: what the record of a day holds. When a call of
    [run_and_persist] changes [movers.json], the record it adds under
    today's date holds the time of scraping and two lists: for each of
    the two pages, in the order of the page, one item for every row with
    cells among [rows[:top_n]] (so at most [top_n] when [top_n] is not
    negative), with the texts of the row's cells as they were scraped.
    The open, close and point change of every item, of either list, are
    those of the quote page of the item's own symbol (nulls for an empty
    symbol or a page that cannot be fetched): each is a number or null,
    and the point change is the close less the open rounded to six
    decimals when both are numbers, and null otherwise. *)
Theorem persisted_record (E : Env) (top_n : Z) (file : option json) :
  movers_file_after E top_n file ≠ file →
  ∃ gainers_page losers_page G L m,
    pages E = Some (gainers_page, losers_page)
    ∧ movers_file_after E top_n file = Some (JDict (<[date_str E := day_record E G L]> m))
    ∧ Forall2 scraped_from (item_rows gainers_page top_n) G
    ∧ Forall2 scraped_from (item_rows losers_page top_n) L
    ∧ Forall (quoted E) (G ++ L)
    ∧ Forall numbers_consistent (G ++ L)
    ∧ ((0 ≤ top_n)%Z → length G ≤ Z.to_nat top_n ∧ length L ≤ Z.to_nat top_n).
Proof.
  intros Hne.
  destruct (changed_file E top_n file Hne)
    as (_ & _ & _ & gp & lp & G & L & m & item
        & Hp & _ & _ & Hafter & HG & HL & Hq & _ & _).
  exists gp, lp, G, L, m.
  split; [done|]. split; [done|]. split; [done|]. split; [done|]. split; [done|].
  split; [eapply Forall_impl; [exact Hq|apply quoted_consistent]|].
  intros Hn. split.
  - rewrite <- (Forall2_length _ _ _ HG). unfold item_rows, slice_to.
    etrans; [apply length_filter|].
    destruct (Z.leb_spec 0 top_n); [|lia]. rewrite length_take. lia.
  - rewrite <- (Forall2_length _ _ _ HL). unfold item_rows, slice_to.
    etrans; [apply length_filter|].
    destruct (Z.leb_spec 0 top_n); [|lia]. rewrite length_take. lia.
Qed.

(** An instance: the evening of Tuesday 2 January 2024 with no file. *)
Lemma persisted_record_witness :
  movers_file_after acquisition_env 5 None ≠ None
  ∧ ∃ gainers_page losers_page G L m,
      pages acquisition_env = Some (gainers_page, losers_page)
      ∧ movers_file_after acquisition_env 5 None
        = Some (JDict (<[date_str acquisition_env := day_record acquisition_env G L]> m))
      ∧ Forall2 scraped_from (item_rows gainers_page 5) G
      ∧ Forall2 scraped_from (item_rows losers_page 5) L
      ∧ Forall (quoted acquisition_env) (G ++ L)
      ∧ Forall numbers_consistent (G ++ L)
      ∧ ((0 ≤ 5)%Z → length G ≤ Z.to_nat 5 ∧ length L ≤ Z.to_nat 5).
Proof.
  split; [vm_compute; discriminate|].
  apply (persisted_record acquisition_env 5 None).
  vm_compute. discriminate.
Defined.

End AcquisitionMore.

(* ===================================================================== *)
(** * From the Tracker to the Aggregator                                  *)
(* ===================================================================== *)

Module ReportFacts.
Import Samples Notions TrackerNotions AggregatorNotions.

Lemma day_values_day_obj B date o c :
  populate_movers_csv.day_values B (JDict (fetch_subsequent.day_obj date o c))
  = Ok (Some (py_round 2 o), Some (py_round 2 c),
        populate_movers_csv.fallback_pct (Some (py_round 2 o)) (Some (py_round 2 c))
          (fetch_subsequent.pct_long_of o c)).
Proof.
  destruct (TrackerFacts.day_obj_fields date o c) as (_ & Ho & Hc).
  pose proof (TrackerFacts.day_obj_pct_long date o c) as Hp.
  unfold populate_movers_csv.day_values, py_get. rewrite Ho, Hc, Hp.
  by destruct (fetch_subsequent.pct_long_of o c).
Qed.

Lemma appended_day_reported
    (E : fetch_subsequent.Env) (A : populate_movers_csv.Env) (max_days : Z)
    (ev mover_type : string) (cache cache' it : json)
    (st st' : list (list string) * gmap string (list (list float))) :
  fetch_subsequent.builtins E = populate_movers_csv.builtins A →
  (max_days ≤ 11)%Z →
  fetch_subsequent.process_item E max_days ev cache it = Ok (cache', true) →
  populate_movers_csv.item_step A cache' ev mover_type st it = Ok st' →
  ∃ ticker date o c long_row short_row,
    series cache' (ticker +:+ "|" +:+ ev)
    = Some (JList (series_list cache (ticker +:+ "|" +:+ ev)
                   ++ [JDict (fetch_subsequent.day_obj date o c)]))
    ∧ series_length cache (ticker +:+ "|" +:+ ev) < 11
    ∧ st'.1 = st.1 ++ [long_row; short_row]
    ∧ long_row !! 0 = Some ticker
    ∧ long_row !! 1 = Some ev
    ∧ long_row !! (7 + 3 * series_length cache (ticker +:+ "|" +:+ ev))
      = Some (populate_movers_csv._fmt_price (Some (py_round 2 o)))
    ∧ long_row !! (8 + 3 * series_length cache (ticker +:+ "|" +:+ ev))
      = Some (populate_movers_csv._fmt_price (Some (py_round 2 c)))
    ∧ (float_ne0 o = true →
       long_row !! (6 + 3 * series_length cache (ticker +:+ "|" +:+ ev))
       = Some (populate_movers_csv._fmt_pct
                 (Some (py_round 2 ((c - o) / o * 100)%float)))
       ∧ short_row !! (6 + 3 * series_length cache (ticker +:+ "|" +:+ ev))
         = Some (populate_movers_csv._fmt_pct
                   (Some (- py_round 2 ((c - o) / o * 100))%float))
       ∧ ∀ key,
           bucket_at st'.2 key (series_length cache (ticker +:+ "|" +:+ ev))
           = (λ R, R ++ contribution mover_type key
                          (Some (py_round 2 ((c - o) / o * 100)%float)))
               <$> bucket_at st.2 key (series_length cache (ticker +:+ "|" +:+ ev))).
Proof.
  intros HB Hmax Hp Hitem.
  apply TrackerMore.process_item_appended in Hp
    as (d & sym & ticker & n & event_d & start_dt & end_dt & hist & cand & cand_d & o & c
        & -> & Hsym & Hclean & Hne & Hn & Hlt & _ & _ & _ & _ & _ & _ & _ & _ & _ & ->).
  set (key := ticker +:+ "|" +:+ ev) in *.
  set (obs := fetch_subsequent.day_obj (fetch_subsequent.isoformat E (fetch_subsequent.row_date cand)) o c).
  set (old := series_list (JDict d) key).
  assert (series (JDict (fetch_subsequent.append_day d key obs)) key
          = Some (JList (old ++ [JDict obs]))) as Hseries.
  { unfold series, fetch_subsequent.append_day. by rewrite lookup_insert_eq. }
  assert (series_length (JDict d) key = length old) as Hk.
  { unfold series_length, old, series_list. by destruct (series (JDict d) key) as [[]|]. }
  assert (length old < 11) as Hold.
  { unfold old, series_list, series. unfold fetch_subsequent.cached_days in Hn.
    destruct (d !! key) as [[| | | | |l|]|]; cbn [length]; try lia.
    cbn in Hn. inversion Hn; subst n. lia. }
  assert (populate_movers_csv.cached_days (JDict (fetch_subsequent.append_day d key obs)) key
          = JList (old ++ [JDict obs])) as Hdays.
  { unfold populate_movers_csv.cached_days. unfold series in Hseries. by rewrite Hseries. }
  assert (offset_values (populate_movers_csv.builtins A) (old ++ [JDict obs]) (length old)
          = Ok (Some (py_round 2 o), Some (py_round 2 c),
                populate_movers_csv.fallback_pct (Some (py_round 2 o)) (Some (py_round 2 c))
                  (fetch_subsequent.pct_long_of o c))) as Hoff.
  { unfold offset_values. rewrite list_lookup_middle by done. apply day_values_day_obj. }
  pose proof (AggregatorMore.item_step_returns A _ ev mover_type st st' it sym ticker
                (old ++ [JDict obs]) (length old) Hitem Hsym) as Hret.
  apply AggregatorMore.item_step_rows in Hitem
    as (sym' & ticker' & long_row & short_row & Hsym' & Hclean' & Hst & _ & _
        & Ht & Hd & _ & _ & Hcells).
  rewrite Hsym in Hsym'. inversion Hsym'; subst sym'.
  assert (populate_movers_csv._clean_sym (populate_movers_csv.builtins A) sym = Ok ticker)
    as Hclean2 by (rewrite <- HB; exact Hclean).
  rewrite Hclean2 in Hclean'. inversion Hclean'; subst ticker'.
  destruct (Hcells _ (length old) Hdays Hold) as (ov & cv & pv & Hv & H6 & H6s & H7 & H8).
  rewrite Hoff in Hv. inversion Hv; subst ov cv pv; clear Hv.
  subst key.
  exists ticker, (fetch_subsequent.isoformat E (fetch_subsequent.row_date cand)), o, c,
    long_row, short_row.
  rewrite Hk. split; [done|]. split; [done|]. split; [done|]. split; [done|].
  split; [done|]. split; [done|]. split; [done|].
  intros Ho. unfold fetch_subsequent.pct_long_of in H6, H6s, Hoff. rewrite Ho in H6, H6s, Hoff.
  cbn [populate_movers_csv.fallback_pct] in H6, H6s, Hoff.
  split; [done|]. split; [done|].
  destruct (Hret Hclean2 Hdays Hold) as (ov & cv & pv & Hv & Hb).
  rewrite Hoff in Hv. inversion Hv; subst. done.
Qed.

(** X16: from the Tracker to the report. When the Tracker appends an
    observation for a mover (with a cap of at most eleven days) and the
    Aggregator, with the same builtins, then reads the cache for the same
    mover under the same date, it finds the observation under the same
    key: the columns of the day at the offset where it was appended hold
    its open and close, rounded to two decimals; when the open is not
    zero, the percent column holds the stored [pct_long] in the long row
    and its negation in the short row, and that return enters the
    buckets of the mover's kind at that offset and no other. *)
Theorem appended_day_is_reported
    (E : fetch_subsequent.Env) (A : populate_movers_csv.Env) (max_days : Z)
    (ev mover_type : string) (cache cache' it : json)
    (st st' : list (list string) * gmap string (list (list float))) :
  fetch_subsequent.builtins E = populate_movers_csv.builtins A →
  (max_days ≤ 11)%Z →
  fetch_subsequent.process_item E max_days ev cache it = Ok (cache', true) →
  populate_movers_csv.item_step A cache' ev mover_type st it = Ok st' →
  ∃ ticker date o c long_row short_row,
    series cache' (ticker +:+ "|" +:+ ev)
    = Some (JList (series_list cache (ticker +:+ "|" +:+ ev)
                   ++ [JDict (fetch_subsequent.day_obj date o c)]))
    ∧ series_length cache (ticker +:+ "|" +:+ ev) < 11
    ∧ st'.1 = st.1 ++ [long_row; short_row]
    ∧ long_row !! 0 = Some ticker
    ∧ long_row !! 1 = Some ev
    ∧ long_row !! (7 + 3 * series_length cache (ticker +:+ "|" +:+ ev))
      = Some (populate_movers_csv._fmt_price (Some (py_round 2 o)))
    ∧ long_row !! (8 + 3 * series_length cache (ticker +:+ "|" +:+ ev))
      = Some (populate_movers_csv._fmt_price (Some (py_round 2 c)))
    ∧ (float_ne0 o = true →
       long_row !! (6 + 3 * series_length cache (ticker +:+ "|" +:+ ev))
       = Some (populate_movers_csv._fmt_pct
                 (Some (py_round 2 ((c - o) / o * 100)%float)))
       ∧ short_row !! (6 + 3 * series_length cache (ticker +:+ "|" +:+ ev))
         = Some (populate_movers_csv._fmt_pct
                   (Some (- py_round 2 ((c - o) / o * 100))%float))
       ∧ ∀ key,
           bucket_at st'.2 key (series_length cache (ticker +:+ "|" +:+ ev))
           = (λ R, R ++ contribution mover_type key
                          (Some (py_round 2 ((c - o) / o * 100)%float)))
               <$> bucket_at st.2 key (series_length cache (ticker +:+ "|" +:+ ev))).
Proof. apply appended_day_reported. Qed.

(** An instance: the gainer AAA of 2 January 2024, tracked for the first
    time on 10 January and then reported. *)
Lemma appended_day_is_reported_witness :
  ∃ cache' st',
    fetch_subsequent.process_item tracker_env 11 "2024-01-02" empty_cache (mover "AAA")
    = Ok (cache', true)
    ∧ populate_movers_csv.item_step aggregator_env cache' "2024-01-02" "gainers"
        ([], populate_movers_csv.empty_buckets) (mover "AAA") = Ok st'
    ∧
    ∃ ticker date o c long_row short_row,
      series cache' (ticker +:+ "|" +:+ "2024-01-02")
      = Some (JList (series_list empty_cache (ticker +:+ "|" +:+ "2024-01-02")
                     ++ [JDict (fetch_subsequent.day_obj date o c)]))
      ∧ series_length empty_cache (ticker +:+ "|" +:+ "2024-01-02") < 11
      ∧ st'.1 = (([], populate_movers_csv.empty_buckets) : list (list string) * _).1 ++ [long_row; short_row]
      ∧ long_row !! 0 = Some ticker
      ∧ long_row !! 1 = Some "2024-01-02"
      ∧ long_row !! (7 + 3 * series_length empty_cache (ticker +:+ "|" +:+ "2024-01-02"))
        = Some (populate_movers_csv._fmt_price (Some (py_round 2 o)))
      ∧ long_row !! (8 + 3 * series_length empty_cache (ticker +:+ "|" +:+ "2024-01-02"))
        = Some (populate_movers_csv._fmt_price (Some (py_round 2 c)))
      ∧ (float_ne0 o = true →
         long_row !! (6 + 3 * series_length empty_cache (ticker +:+ "|" +:+ "2024-01-02"))
         = Some (populate_movers_csv._fmt_pct
                   (Some (py_round 2 ((c - o) / o * 100)%float)))
         ∧ short_row !! (6 + 3 * series_length empty_cache (ticker +:+ "|" +:+ "2024-01-02"))
           = Some (populate_movers_csv._fmt_pct
                     (Some (- py_round 2 ((c - o) / o * 100))%float))
         ∧ ∀ key,
             bucket_at st'.2 key (series_length empty_cache (ticker +:+ "|" +:+ "2024-01-02"))
             = (λ R, R ++ contribution "gainers" key
                            (Some (py_round 2 ((c - o) / o * 100)%float)))
                 <$> bucket_at (([], populate_movers_csv.empty_buckets) : list (list string) * _).2 key (series_length empty_cache (ticker +:+ "|" +:+ "2024-01-02"))).
Proof.
  eexists _, _. split; [vm_compute; reflexivity|]. split; [vm_compute; reflexivity|].
  apply (appended_day_is_reported tracker_env aggregator_env 11 "2024-01-02" "gainers"
           empty_cache _ (mover "AAA") ([], populate_movers_csv.empty_buckets));
    [reflexivity|lia|vm_compute; reflexivity|vm_compute; reflexivity].
Defined.

End ReportFacts.
